(** * machine-api-provider-nvidia-bmm: provider-identity codec, actuator and
      reconciler

    A shallow embedding of
    - [pkg/providerid] (the [nvidia-bmm://] identifier codec),
    - [pkg/actuators/machine/actuator.go] (Create / Update / Exists / Delete),
    - [pkg/controllers/machine] (the Machine reconciler),
    together with the parts of their dependencies that the code relies on
    ([strings], [github.com/google/uuid], [unstructured] nested-field
    accessors).  Go strings are byte sequences, which is what [string] is. *)

From Stdlib Require Import Strings.String Strings.Ascii Strings.Byte NArith ZArith List Bool Lia.
From stdpp Require Import base option list strings gmap.

Import ListNotations.
Local Open Scope string_scope.

(** ** Go errors

    [fmt.Errorf] either creates a fresh error from its message or wraps a
    cause with [%w].  The message is kept without its formatted arguments. *)

Inductive error : Type :=
| Errorf (msg : string)
| Wrapf (msg : string) (cause : error).

(** The outermost message of an error. *)
Definition error_msg (e : error) : string :=
  match e with
  | Errorf m => m
  | Wrapf m _ => m
  end.

(** A Go call returning [(T, error)]. *)
Inductive result (A : Type) : Type :=
| Ok (a : A)
| Err (e : error).
Arguments Ok {A} a.
Arguments Err {A} e.

Definition is_ok {A} (r : result A) : bool :=
  match r with Ok _ => true | Err _ => false end.

(** ** Package [strings] *)

Module strings.

(** [strings.HasPrefix(s, prefix)] *)
Fixpoint HasPrefix (s prefix : string) {struct prefix} : bool :=
  match prefix, s with
  | EmptyString, _ => true
  | String p prefix', String c s' => Ascii.eqb c p && HasPrefix s' prefix'
  | String _ _, EmptyString => false
  end.

(** [s[n:]] for [n <= len(s)] *)
Fixpoint drop (n : nat) (s : string) : string :=
  match n, s with
  | O, _ => s
  | S n', String _ s' => drop n' s'
  | S _, EmptyString => EmptyString
  end.

(** [strings.TrimPrefix(s, prefix)] *)
Definition TrimPrefix (s prefix : string) : string :=
  if HasPrefix s prefix then drop (String.length prefix) s else s.

(** [strings.Split(s, sep)] for a one-byte separator, the only use in the
    repository ([sep = "/"]): the pieces between consecutive separators,
    one more piece than there are separators. *)
Fixpoint Split (s : string) (sep : ascii) : list string :=
  match s with
  | EmptyString => [EmptyString]
  | String c s' =>
      if Ascii.eqb c sep then EmptyString :: Split s' sep
      else match Split s' sep with
           | p :: ps => String c p :: ps
           | [] => [String c EmptyString]
           end
  end.

(** [strings.Contains(s, string(c))] *)
Fixpoint Contains (s : string) (c : ascii) : bool :=
  match s with
  | EmptyString => false
  | String d s' => Ascii.eqb d c || Contains s' c
  end.

(** [strings.EqualFold] on ASCII letters. *)
Definition lower (c : ascii) : ascii :=
  let n := N_of_ascii c in
  if ((65 <=? n) && (n <=? 90))%N then ascii_of_N (n + 32) else c.

Fixpoint EqualFold (s t : string) : bool :=
  match s, t with
  | EmptyString, EmptyString => true
  | String c s', String d t' => Ascii.eqb (lower c) (lower d) && EqualFold s' t'
  | _, _ => false
  end.

End strings.

(** ** Package [github.com/google/uuid] *)

Module uuid.

(** [type UUID [16]byte] *)
Record UUID : Type := mkUUID {
  b0 : byte; b1 : byte; b2 : byte; b3 : byte;
  b4 : byte; b5 : byte; b6 : byte; b7 : byte;
  b8 : byte; b9 : byte; b10 : byte; b11 : byte;
  b12 : byte; b13 : byte; b14 : byte; b15 : byte
}.

Definition bytes (u : UUID) : list byte :=
  [b0 u; b1 u; b2 u; b3 u; b4 u; b5 u; b6 u; b7 u;
   b8 u; b9 u; b10 u; b11 u; b12 u; b13 u; b14 u; b15 u].

Definition of_bytes (l : list byte) : option UUID :=
  match l with
  | [a0; a1; a2; a3; a4; a5; a6; a7; a8; a9; a10; a11; a12; a13; a14; a15] =>
      Some (mkUUID a0 a1 a2 a3 a4 a5 a6 a7 a8 a9 a10 a11 a12 a13 a14 a15)
  | _ => None
  end.

(** [const hextable = "0123456789abcdef"] of [encoding/hex] *)
Definition hextable (n : N) : ascii :=
  if (n <? 10)%N then ascii_of_N (48 + n) else ascii_of_N (87 + n).

Definition hi (b : byte) : N := N.shiftr (Byte.to_N b) 4.
Definition lo (b : byte) : N := N.land (Byte.to_N b) 15.

(** [hex.Encode]: two lower-case digits per byte. *)
Fixpoint encodeHex (l : list byte) : string :=
  match l with
  | [] => EmptyString
  | b :: l' => String (hextable (hi b)) (String (hextable (lo b)) (encodeHex l'))
  end.

(** [func (uuid UUID) String() string]: the canonical
    [xxxxxxxx-xxxx-xxxx-xxxx-xxxxxxxxxxxx] form. *)
Definition UUID_String (u : UUID) : string :=
  encodeHex [b0 u; b1 u; b2 u; b3 u] ++ "-" ++
  encodeHex [b4 u; b5 u] ++ "-" ++
  encodeHex [b6 u; b7 u] ++ "-" ++
  encodeHex [b8 u; b9 u] ++ "-" ++
  encodeHex [b10 u; b11 u; b12 u; b13 u; b14 u; b15 u].

(** The table [xvalues]: the value of a hexadecimal digit, 255 otherwise. *)
Definition xvalues (c : ascii) : N :=
  let n := N_of_ascii c in
  if ((48 <=? n) && (n <=? 57))%N then n - 48
  else if ((97 <=? n) && (n <=? 102))%N then n - 87
  else if ((65 <=? n) && (n <=? 70))%N then n - 55
  else 255.

(** [func xtob(x1, x2 byte) (byte, bool)] *)
Definition xtob (x1 x2 : ascii) : option byte :=
  let v1 := xvalues x1 in
  let v2 := xvalues x2 in
  if (negb (v1 =? 255) && negb (v2 =? 255))%N
  then Byte.of_N (N.lor (N.shiftl v1 4) v2 mod 256)
  else None.

(** [s[i]]; out of range the Go code would panic, and [Parse] never is. *)
Definition at_ (s : string) (i : nat) : ascii :=
  match String.get i s with
  | Some c => c
  | None => "000"%char
  end.

Definition xtob_at (s : string) (x : nat) : option byte :=
  xtob (at_ s x) (at_ s (x + 1)).

Definition invalidFormat : error := Errorf "invalid UUID format".

(** The tail of [Parse], once [s] holds the 36-byte hyphenated form at its
    start. *)
Definition parseHyphenated (s : string) : result UUID :=
  if negb (Ascii.eqb (at_ s 8) "-" && Ascii.eqb (at_ s 13) "-" &&
           Ascii.eqb (at_ s 18) "-" && Ascii.eqb (at_ s 23) "-")
  then Err invalidFormat
  else
    match mapM (xtob_at s)
            [0; 2; 4; 6; 9; 11; 14; 16; 19; 21; 24; 26; 28; 30; 32; 34]%nat
            ≫= of_bytes with
    | Some u => Ok u
    | None => Err invalidFormat
    end.

(** [func Parse(s string) (UUID, error)]: accepts the canonical form, the
    [urn:uuid:] form, the form with one enclosing byte on each side, and
    32 bare hexadecimal digits. *)
Definition Parse (s : string) : result UUID :=
  let n := String.length s in
  if (n =? 36)%nat then parseHyphenated s
  else if (n =? 36 + 9)%nat then
    if negb (strings.EqualFold (String.substring 0 9 s) "urn:uuid:")
    then Err (Errorf "invalid urn prefix")
    else parseHyphenated (strings.drop 9 s)
  else if (n =? 36 + 2)%nat then parseHyphenated (strings.drop 1 s)
  else if (n =? 32)%nat then
    match mapM (fun i => xtob_at s (i * 2)) (seq 0 16) ≫= of_bytes with
    | Some u => Ok u
    | None => Err invalidFormat
    end
  else Err (Errorf "invalid UUID length").

End uuid.

(** ** Package [pkg/providerid] *)

Module providerid.

Definition ProviderPrefix : string := "nvidia-bmm://".

(** [type ProviderID struct] *)
Record ProviderID : Type := mkProviderID {
  OrgName : string;
  TenantName : string;
  SiteName : string;
  InstanceID : uuid.UUID
}.

(** [func NewProviderID(orgName, tenantName, siteName string, instanceID uuid.UUID)] *)
Definition NewProviderID (orgName tenantName siteName : string)
    (instanceID : uuid.UUID) : ProviderID :=
  {| OrgName := orgName; TenantName := tenantName;
     SiteName := siteName; InstanceID := instanceID |}.

(** [func (p *ProviderID) String() string]:
    [fmt.Sprintf("%s%s/%s/%s/%s", ProviderPrefix, ...)] *)
Definition ProviderID_String (p : ProviderID) : string :=
  ProviderPrefix ++ OrgName p ++ "/" ++ TenantName p ++ "/" ++
  SiteName p ++ "/" ++ uuid.UUID_String (InstanceID p).

Definition errInvalidPrefix : error := Errorf "invalid provider ID prefix".
Definition errInvalidInstanceID (cause : error) : error :=
  Wrapf "invalid instance ID" cause.
Definition errInvalidFormat : error :=
  Errorf "invalid provider ID format, expected 3 or 4 segments".

(** [func ParseProviderID(providerIDStr string)], returning a [ProviderID]
    or an error *)
Definition ParseProviderID (providerIDStr : string) : result ProviderID :=
  if negb (strings.HasPrefix providerIDStr ProviderPrefix)
  then Err errInvalidPrefix
  else
    let trimmed := strings.TrimPrefix providerIDStr ProviderPrefix in
    let parts := strings.Split trimmed "/" in
    match parts with
    | [p0; p1; p2] =>
        (* Legacy format: nvidia-bmm://org/site/instance-id *)
        match uuid.Parse p2 with
        | Err err => Err (errInvalidInstanceID err)
        | Ok instanceID =>
            Ok {| OrgName := p0; TenantName := "";
                  SiteName := p1; InstanceID := instanceID |}
        end
    | [p0; p1; p2; p3] =>
        (* New format: nvidia-bmm://org/tenant/site/instance-id *)
        match uuid.Parse p3 with
        | Err err => Err (errInvalidInstanceID err)
        | Ok instanceID =>
            Ok {| OrgName := p0; TenantName := p1;
                  SiteName := p2; InstanceID := instanceID |}
        end
    | _ => Err errInvalidFormat
    end.

(** The segments [ParseProviderID] looks at. *)
Definition segments (s : string) : list string :=
  strings.Split (strings.TrimPrefix s ProviderPrefix) "/".

(** The four ways [ParseProviderID] can end. *)
Inductive ParseOutcome (s : string) : result ProviderID -> Prop :=
| OutcomeNoPrefix :
    strings.HasPrefix s ProviderPrefix = false ->
    ParseOutcome s (Err errInvalidPrefix)
| OutcomeSegmentCount :
    strings.HasPrefix s ProviderPrefix = true ->
    List.length (segments s) <> 3%nat -> List.length (segments s) <> 4%nat ->
    ParseOutcome s (Err errInvalidFormat)
| OutcomeInstanceID c :
    strings.HasPrefix s ProviderPrefix = true ->
    List.length (segments s) = 3%nat \/ List.length (segments s) = 4%nat ->
    uuid.Parse (List.last (segments s) "") = Err c ->
    ParseOutcome s (Err (errInvalidInstanceID c))
| OutcomeLegacy org site lit i :
    strings.HasPrefix s ProviderPrefix = true ->
    segments s = [org; site; lit] -> uuid.Parse lit = Ok i ->
    ParseOutcome s (Ok (mkProviderID org "" site i))
| OutcomeFull org tenant site lit i :
    strings.HasPrefix s ProviderPrefix = true ->
    segments s = [org; tenant; site; lit] -> uuid.Parse lit = Ok i ->
    ParseOutcome s (Ok (mkProviderID org tenant site i)).

End providerid.

(** ** Package [k8s.io/apimachinery/pkg/apis/meta/v1/unstructured]

    The content of an [unstructured.Unstructured] is a
    [map[string]interface{}] holding JSON values.  Numbers are kept as
    integers; nothing in the repository reads one. *)

Module unstructured.

#[warnings="-register-all"]
Inductive JSON : Type :=
| JNull
| JBool (b : bool)
| JNumber (z : Z)
| JString (s : string)
| JArray (l : list JSON)
| JObject (m : gmap string JSON).

Definition accessorError : error :=
  Errorf "accessor error: value is not a map[string]interface{}".

(** The loop of [NestedFieldNoCopy]: [Ok (Some v)] is found, [Ok None]
    is not found, [Err] is a value on the path that is not a map. *)
Fixpoint nestedField (val : JSON) (fields : list string) : result (option JSON) :=
  match fields with
  | [] => Ok (Some val)
  | field :: fields' =>
      match val with
      | JNull => Ok None
      | JObject m =>
          match m !! field with
          | Some v => nestedField v fields'
          | None => Ok None
          end
      | _ => Err accessorError
      end
  end.

(** [func NestedFieldCopy(obj map[string]interface{}, fields ...string)] *)
Definition NestedFieldCopy (obj : gmap string JSON) (fields : list string)
    : result (option JSON) :=
  nestedField (JObject obj) fields.

Definition setError : error :=
  Errorf "value cannot be set because a field on the path is not a map[string]interface{}".

(** [func SetNestedField(obj map[string]interface{}, value interface{},
    fields ...string) error]: missing maps on the path are created, a
    value on the path that is not a map is an error and nothing is
    written.  The map is updated in place in Go and returned here. *)
Fixpoint SetNestedField (obj : gmap string JSON) (value : JSON)
    (fields : list string) : result (gmap string JSON) :=
  match fields with
  | [] => Ok obj
  | [field] => Ok (<[field := value]> obj)
  | field :: fields' =>
      match obj !! field with
      | Some (JObject m) =>
          match SetNestedField m value fields' with
          | Ok m' => Ok (<[field := JObject m']> obj)
          | Err e => Err e
          end
      | Some _ => Err setError
      | None =>
          match SetNestedField ∅ value fields' with
          | Ok m' => Ok (<[field := JObject m']> obj)
          | Err e => Err e
          end
      end
  end.

(** [func NestedString(obj, fields...) (string, bool, error)] *)
Definition NestedString (obj : gmap string JSON) (fields : list string)
    : result (option string) :=
  match NestedFieldCopy obj fields with
  | Ok (Some (JString s)) => Ok (Some s)
  | Ok (Some _) => Err (Errorf "accessor error: value is not a string")
  | Ok None => Ok None
  | Err e => Err e
  end.

(** [func (u *Unstructured) GetName() string] *)
Definition GetName (obj : gmap string JSON) : string :=
  match NestedString obj ["metadata"; "name"] with
  | Ok (Some s) => s
  | _ => ""
  end.

End unstructured.

(** ** Package [encoding/json], as far as the actuator relies on it *)

Module json.

(** U+FFFD, the replacement character, in UTF-8. *)
Definition replacement : string :=
  String (ascii_of_N 239) (String (ascii_of_N 191) (String (ascii_of_N 189) "")).

(** A continuation byte, and the valid sequences of two, three and four
    bytes ([utf8.DecodeRuneInString]). *)
Definition cont (n : N) : bool := ((128 <=? n) && (n <=? 191))%N.

Definition two (n1 n2 : N) : bool :=
  ((194 <=? n1) && (n1 <=? 223))%N && cont n2.

Definition three (n1 n2 n3 : N) : bool :=
  (((n1 =? 224) && (160 <=? n2) && (n2 <=? 191))%N
   || ((225 <=? n1) && (n1 <=? 236))%N && cont n2
   || ((n1 =? 237) && (128 <=? n2) && (n2 <=? 159))%N
   || ((238 <=? n1) && (n1 <=? 239))%N && cont n2)
  && cont n3.

Definition four (n1 n2 n3 n4 : N) : bool :=
  (((n1 =? 240) && (144 <=? n2) && (n2 <=? 191))%N
   || ((241 <=? n1) && (n1 <=? 243))%N && cont n2
   || ((n1 =? 244) && (128 <=? n2) && (n2 <=? 143))%N)
  && cont n3 && cont n4.

(** The string that comes back when a Go string is written as JSON text and
    read again: every byte that is not part of a valid UTF-8 sequence is
    replaced by U+FFFD. *)
Fixpoint validString (s : string) : string :=
  match s with
  | EmptyString => EmptyString
  | String c1 s1 =>
      let n1 := N_of_ascii c1 in
      if (n1 <? 128)%N then String c1 (validString s1)
      else
        match s1 with
        | EmptyString => replacement ++ validString s1
        | String c2 s2 =>
            let n2 := N_of_ascii c2 in
            if two n1 n2 then String c1 (String c2 (validString s2))
            else
              match s2 with
              | EmptyString => replacement ++ validString s1
              | String c3 s3 =>
                  let n3 := N_of_ascii c3 in
                  if three n1 n2 n3
                  then String c1 (String c2 (String c3 (validString s3)))
                  else
                    match s3 with
                    | EmptyString => replacement ++ validString s1
                    | String c4 s4 =>
                        if four n1 n2 n3 (N_of_ascii c4)
                        then String c1 (String c2 (String c3 (String c4 (validString s4))))
                        else replacement ++ validString s1
                    end
              end
        end
  end.

(** An integer written as JSON text and read into [interface{}] is a
    [float64]: the nearest one, ties to the even mantissa. *)
Definition float64 (z : Z) : Z :=
  let a := Z.abs z in
  if (a <=? 2 ^ 53)%Z then z
  else
    let e := (Z.log2 a - 52)%Z in
    let q := Z.shiftr a e in
    let r := (a - Z.shiftl q e)%Z in
    let half := Z.shiftl 1 (e - 1) in
    let q' := if (r <? half)%Z then q
              else if (half <? r)%Z then (q + 1)%Z
              else if Z.even q then q else (q + 1)%Z in
    (Z.sgn z * Z.shiftl q' e)%Z.

End json.

(** ** Package [k8s.io/apimachinery/pkg/apis/meta/v1], the types the status
    embeds *)

Module metav1.

(** [metav1.Time]: the seconds since January 1 of year 1, 00:00:00 UTC, and
    the nanoseconds within the second; the zero time is [(0, 0)]. *)
Record Time : Type := mkTime {
  Time_sec : Z;
  Time_nsec : Z
}.

Definition Time_zero : Time := {| Time_sec := 0; Time_nsec := 0 |}.

(** [func (t *Time) IsZero() bool] *)
Definition Time_IsZero (t : Time) : bool := ((Time_sec t =? 0) && (Time_nsec t =? 0))%Z.

(** [type Condition struct] *)
Record Condition : Type := mkCondition {
  Condition_Type : string;
  Condition_Status : string;
  ObservedGeneration : Z;
  LastTransitionTime : Time;
  Reason : string;
  Message : string
}.

End metav1.

(** ** Package [pkg/apis/nvidiabmmprovider/v1beta1] *)

Module v1beta1.

Record AdditionalSubnet : Type := mkAdditionalSubnet {
  AdditionalSubnet_SubnetID : string;
  AdditionalSubnet_IsPhysical : bool
}.

Record CredentialsSecretReference : Type := mkCredentialsSecretReference {
  Name : string;
  Namespace : string
}.

(** [type NvidiaBMMMachineProviderSpec struct] *)
Record NvidiaBMMMachineProviderSpec : Type := mkProviderSpec {
  SiteID : string;
  TenantID : string;
  InstanceTypeID : string;
  MachineID : string;
  AllowUnhealthyMachine : bool;
  VpcID : string;
  SubnetID : string;
  AdditionalSubnetIDs : list AdditionalSubnet;
  UserData : string;
  SSHKeyGroupIDs : list string;
  Labels : gmap string string;
  CredentialsSecret : CredentialsSecretReference
}.

Record MachineAddress : Type := mkMachineAddress {
  Type_ : string;
  Address : string
}.

(** [type NvidiaBMMMachineProviderStatus struct]: the inline
    [metav1.TypeMeta] and the five fields of its own; the conditions are
    only carried along by the actuator. *)
Record NvidiaBMMMachineProviderStatus : Type := mkProviderStatus {
  Status_Kind : string;
  Status_APIVersion : string;
  InstanceID : option string;
  Status_MachineID : option string;
  InstanceState : option string;
  Addresses : list MachineAddress;
  Conditions : list metav1.Condition
}.

(** [&v1beta1.NvidiaBMMMachineProviderStatus{}] *)
Definition emptyStatus : NvidiaBMMMachineProviderStatus :=
  {| Status_Kind := ""; Status_APIVersion := "";
     InstanceID := None; Status_MachineID := None; InstanceState := None;
     Addresses := []; Conditions := [] |}.

(** *** The JSON form of a status

    What [json.Marshal(status)] followed by [json.Unmarshal] into a
    [map[string]interface{}] gives, by the struct tags: every field of the
    status is [omitempty], the two fields of an address are not.  The JSON
    form of a condition belongs to [metav1] and is a parameter. *)

Definition omitEmptyString (key s : string) (m : gmap string unstructured.JSON)
    : gmap string unstructured.JSON :=
  if String.eqb s "" then m
  else <[key := unstructured.JString (json.validString s)]> m.

Definition omitNil (key : string) (v : option string) (m : gmap string unstructured.JSON)
    : gmap string unstructured.JSON :=
  match v with
  | Some s => <[key := unstructured.JString (json.validString s)]> m
  | None => m
  end.

Definition omitEmptySlice (key : string) (l : list unstructured.JSON)
    (m : gmap string unstructured.JSON) : gmap string unstructured.JSON :=
  match l with
  | [] => m
  | _ :: _ => <[key := unstructured.JArray l]> m
  end.

Definition MachineAddress_JSON (a : MachineAddress) : unstructured.JSON :=
  unstructured.JObject
    (<["type" := unstructured.JString (json.validString (Type_ a))]>
       (<["address" := unstructured.JString (json.validString (Address a))]> ∅)).

Definition ProviderStatus_JSON (conditionJSON : metav1.Condition -> unstructured.JSON)
    (s : NvidiaBMMMachineProviderStatus) : gmap string unstructured.JSON :=
  omitEmptyString "kind" (Status_Kind s)
    (omitEmptyString "apiVersion" (Status_APIVersion s)
      (omitNil "instanceId" (InstanceID s)
        (omitNil "machineId" (Status_MachineID s)
          (omitNil "instanceState" (InstanceState s)
            (omitEmptySlice "addresses" (List.map MachineAddress_JSON (Addresses s))
              (omitEmptySlice "conditions" (List.map conditionJSON (Conditions s)) ∅)))))).

End v1beta1.

(** ** Package [github.com/NVIDIA/carbide-rest/client]: the types the
    actuator builds and reads *)

Module restclient.

Record InterfaceCreateRequest : Type := mkInterfaceCreateRequest {
  SubnetId : option uuid.UUID;
  IsPhysical : option bool
}.

(** [restclient.CreateInstanceJSONRequestBody] *)
Record CreateInstanceJSONRequestBody : Type := mkCreateInstanceRequest {
  Name : string;
  TenantId : uuid.UUID;
  VpcId : uuid.UUID;
  Interfaces : option (list InterfaceCreateRequest);
  PhoneHomeEnabled : option bool;
  InstanceTypeId : option uuid.UUID;
  MachineId : option string;
  AllowUnhealthyMachine : option bool;
  UserData : option string;
  SshKeyGroupIds : option (list uuid.UUID);
  Labels : option (gmap string string)
}.

Record Interface : Type := mkInterface {
  IpAddresses : option (list string)
}.

(** [restclient.Instance]; every field is a pointer, the status is an
    enumeration with a string representation. *)
Record Instance : Type := mkInstance {
  Id : option uuid.UUID;
  Instance_MachineId : option string;
  Status : option string;
  Instance_Interfaces : option (list Interface)
}.

Record CreateInstanceResponse : Type := mkCreateInstanceResponse {
  JSON201 : option Instance;
  CreateInstanceResponse_StatusCode : Z
}.

Record GetInstanceResponse : Type := mkGetInstanceResponse {
  JSON200 : option Instance;
  GetInstanceResponse_StatusCode : Z
}.

Record DeleteInstanceResponse : Type := mkDeleteInstanceResponse {
  StatusCode : Z
}.

End restclient.

(** ** Objects handed to the actuator and the reconciler *)

(** [machinev1beta1.Machine], the typed object the reconciler fetches: its
    metadata, and its spec and status kept as JSON.  A zero deletion
    timestamp is [Some 0]. *)
Record Machine : Type := mkMachine {
  Machine_Name : string;
  Finalizers : list string;
  DeletionTimestamp : option Z;
  Machine_Spec : unstructured.JSON;
  Machine_Status : unstructured.JSON
}.

(** A [runtime.Object]: the dynamic types the code distinguishes with its
    type assertions to [client.Object] and to a
    pointer to [unstructured.Unstructured]. *)
Inductive runtime_Object : Type :=
| Unstructured (Object : gmap string unstructured.JSON)
| TypedMachine (m : Machine)
| NotClientObject.

Definition is_client_Object (o : runtime_Object) : bool :=
  match o with
  | Unstructured _ | TypedMachine _ => true
  | NotClientObject => false
  end.

(** [client.Object.GetName()] *)
Definition GetName (o : runtime_Object) : string :=
  match o with
  | Unstructured obj => unstructured.GetName obj
  | TypedMachine m => Machine_Name m
  | NotClientObject => ""
  end.

(** What an object holds at [spec.providerID]. *)
Definition providerID_of (o : runtime_Object) : result (option unstructured.JSON) :=
  match o with
  | Unstructured obj => unstructured.NestedFieldCopy obj ["spec"; "providerID"]
  | TypedMachine m => unstructured.nestedField (Machine_Spec m) ["providerID"]
  | NotClientObject => Ok None
  end.

(** [corev1.Secret]: [Data map[string][]byte] *)
Record Secret : Type := mkSecret {
  Data : gmap string string
}.

(** [client.ObjectKey] *)
Record ObjectKey : Type := mkObjectKey {
  Key_Name : string;
  Key_Namespace : string
}.

(** The client handle the actuator talks through: the injected one, or one
    built by [restclient.NewClientWithAuth(endpoint, token)]. *)
Inductive BmmClient : Type :=
| InjectedClient
| ClientWithAuth (endpoint token : string).

(** ** The external collaborators

    Both are interfaces in the source.  Their state ([K]: the API server,
    [P]: the remote platform) is threaded explicitly. *)

(** [sigs.k8s.io/controller-runtime/pkg/client.Client], the methods used.
    What the API server writes back into the object on an update is outside
    the model: the object in memory changes only where the code sets a
    field. *)
Inductive GetMachineResult : Type :=
| MachineFound (m : Machine)
| MachineNotFound (e : error)
| MachineGetError (e : error).

Class Client (K : Type) : Type := {
  Client_Get_Secret : ObjectKey -> K -> result Secret;
  Client_Get_Machine : ObjectKey -> K -> GetMachineResult;
  Client_Update : runtime_Object -> K -> option error * K;
  Client_Status_Update : runtime_Object -> K -> option error * K
}.

(** [type NvidiaBMMClientInterface interface] with its three methods, and
    [restclient.NewClientWithAuth], which may refuse to build a client. *)
Class NvidiaBMMClientInterface (P : Type) : Type := {
  NewClientWithAuth : string -> string -> result BmmClient;
  CreateInstanceWithResponse :
    BmmClient -> string -> restclient.CreateInstanceJSONRequestBody -> P ->
    result restclient.CreateInstanceResponse * P;
  GetInstanceWithResponse :
    BmmClient -> string -> uuid.UUID -> P ->
    result restclient.GetInstanceResponse * P;
  DeleteInstanceWithResponse :
    BmmClient -> string -> uuid.UUID -> P ->
    result restclient.DeleteInstanceResponse * P
}.

(** [json.Marshal] followed by [json.Unmarshal], which is how the actuator
    moves between the document and its typed structs. *)
Class JSONCodec : Type := {
  Unmarshal_ProviderSpec :
    unstructured.JSON -> result v1beta1.NvidiaBMMMachineProviderSpec;
  Unmarshal_ProviderStatus :
    unstructured.JSON -> result v1beta1.NvidiaBMMMachineProviderStatus;
  Marshal_ProviderStatus :
    v1beta1.NvidiaBMMMachineProviderStatus -> result (gmap string unstructured.JSON)
}.

(** Everything the code does to the outside, in the order it happens;
    [ActuatorCall] marks the reconciler entering a method of the actuator. *)
Inductive Call : Type :=
| K8sGetSecret (key : ObjectKey)
| K8sGetMachine (key : ObjectKey)
| K8sUpdate (o : runtime_Object)
| K8sStatusUpdate (o : runtime_Object)
| BmmCreateInstance (c : BmmClient) (org : string)
    (body : restclient.CreateInstanceJSONRequestBody)
| BmmGetInstance (c : BmmClient) (org : string) (instanceId : uuid.UUID)
| BmmDeleteInstance (c : BmmClient) (org : string) (instanceId : uuid.UUID)
| Eventf (eventtype reason : string)
| ActuatorCall (method : string).

(** The calls that reach the remote platform. *)
Definition is_remote_call (c : Call) : bool :=
  match c with
  | BmmCreateInstance _ _ _ | BmmGetInstance _ _ _ | BmmDeleteInstance _ _ _ => true
  | _ => false
  end.

Definition remote_calls (t : list Call) : list Call := List.filter is_remote_call t.

(** ** A state and error monad for the methods

    The state holds the object behind the [machine] pointer, the two
    collaborators and the trace.  A method returns, fails with an error, or
    panics (a nil pointer dereference). *)

Inductive outcome (A : Type) : Type :=
| Return (a : A)
| Raise (e : error)
| Panic.
Arguments Return {A} a.
Arguments Raise {A} e.
Arguments Panic {A}.

Section Monad.

Context {K P : Type}.

Record State : Type := mkState {
  machine : runtime_Object;
  k8s : K;
  platform : P;
  trace : list Call
}.

Definition M (A : Type) : Type := State -> outcome A * State.

Definition ret {A} (a : A) : M A := fun st => (Return a, st).
Definition fail {A} (e : error) : M A := fun st => (Raise e, st).
Definition panic {A} : M A := fun st => (Panic, st).

Definition bind {A B} (m : M A) (f : A -> M B) : M B :=
  fun st =>
    match m st with
    | (Return a, st') => f a st'
    | (Raise e, st') => (Raise e, st')
    | (Panic, st') => (Panic, st')
    end.

(** [if err != nil { return fmt.Errorf("msg: %w", err) }] *)
Definition wrapf {A} (msg : string) (m : M A) : M A :=
  fun st =>
    match m st with
    | (Raise e, st') => (Raise (Wrapf msg e), st')
    | r => r
    end.

Definition liftR {A} (r : result A) : M A :=
  match r with
  | Ok a => ret a
  | Err e => fail e
  end.

(** [*p] *)
Definition deref {A} (p : option A) : M A :=
  match p with
  | Some a => ret a
  | None => panic
  end.

(** [attempt m] runs [m] and hands its error, if any, to the caller: the Go
    [x, err := f()] before the [if err != nil]. *)
Definition attempt {A} (m : M A) : M (result A) :=
  fun st =>
    match m st with
    | (Return a, st') => (Return (Ok a), st')
    | (Raise e, st') => (Return (Err e), st')
    | (Panic, st') => (Panic, st')
    end.

Definition getMachine : M runtime_Object := fun st => (Return (machine st), st).

Definition setMachine (o : runtime_Object) : M unit :=
  fun st => (Return tt, {| machine := o; k8s := k8s st;
                           platform := platform st; trace := trace st |}).

Definition record (c : Call) : M unit :=
  fun st => (Return tt, {| machine := machine st; k8s := k8s st;
                           platform := platform st; trace := trace st ++ [c] |}).

End Monad.

Arguments State : clear implicits.
Arguments M : clear implicits.

Notation "'do' x <- m ; k" := (bind m (fun x => k))
  (at level 10, x name, m at level 100, k at level 200, only parsing).
Notation "'do' ' ( x , y ) <- m ; k" := (bind m (fun '(x, y) => k))
  (at level 10, x name, y name, m at level 100, k at level 200, only parsing).
Notation "'run' m ; k" := (bind m (fun _ => k))
  (at level 10, m at level 100, k at level 200, only parsing).

(** ** Package [pkg/actuators/machine]: the actuator *)

Module machine_actuator.

Import v1beta1.

(** [type Actuator struct]: the Kubernetes client is the [k8s] component
    of the state; [eventRecorder] is whether a recorder is set;
    [nvidiaBmmClient] and [orgName] are the injected client and
    organisation. *)
Record Actuator : Type := mkActuator {
  eventRecorder : bool;
  nvidiaBmmClient : option BmmClient;
  orgName : string
}.

(** [func NewActuator(k8sClient, eventRecorder)] *)
Definition NewActuator (recorder : bool) : Actuator :=
  {| eventRecorder := recorder; nvidiaBmmClient := None; orgName := "" |}.

(** [func NewActuatorWithClient(k8sClient, eventRecorder, nvidiaBmmClient, orgName)] *)
Definition NewActuatorWithClient (recorder : bool) (c : BmmClient)
    (org : string) : Actuator :=
  {| eventRecorder := recorder; nvidiaBmmClient := Some c; orgName := org |}.

(** [uuid.Parse] with the error wrapped as [fmt.Errorf(msg + ": %w", err)]. *)
Definition parseUUID (msg s : string) : result uuid.UUID :=
  match uuid.Parse s with
  | Ok u => Ok u
  | Err e => Err (Wrapf msg e)
  end.

(** The loop over [providerSpec.AdditionalSubnetIDs]. *)
Fixpoint additionalInterfaces (l : list AdditionalSubnet)
    : result (list restclient.InterfaceCreateRequest) :=
  match l with
  | [] => Ok []
  | additionalSubnet :: l' =>
      match parseUUID "failed to parse additional subnet ID"
              (AdditionalSubnet_SubnetID additionalSubnet) with
      | Err e => Err e
      | Ok addSubnetUUID =>
          match additionalInterfaces l' with
          | Err e => Err e
          | Ok rest =>
              Ok ({| restclient.SubnetId := Some addSubnetUUID;
                     restclient.IsPhysical :=
                       Some (AdditionalSubnet_IsPhysical additionalSubnet) |} :: rest)
          end
      end
  end.

(** The loop over [providerSpec.SSHKeyGroupIDs]. *)
Fixpoint sshKeyGroupUUIDs (l : list string) : result (list uuid.UUID) :=
  match l with
  | [] => Ok []
  | keyGroupID :: l' =>
      match parseUUID "failed to parse SSH key group ID" keyGroupID with
      | Err e => Err e
      | Ok keyGroupUUID =>
          match sshKeyGroupUUIDs l' with
          | Err e => Err e
          | Ok rest => Ok (keyGroupUUID :: rest)
          end
      end
  end.

(** [func buildInstanceRequest(name string, providerSpec)] *)
Definition buildInstanceRequest (name : string)
    (providerSpec : NvidiaBMMMachineProviderSpec)
    : result restclient.CreateInstanceJSONRequestBody :=
  match parseUUID "failed to parse subnet ID" (SubnetID providerSpec) with
  | Err e => Err e
  | Ok subnetUUID =>
  match additionalInterfaces (AdditionalSubnetIDs providerSpec) with
  | Err e => Err e
  | Ok more =>
  let interfaces :=
    {| restclient.SubnetId := Some subnetUUID;
       restclient.IsPhysical := Some false |} :: more in
  match parseUUID "failed to parse tenant ID" (TenantID providerSpec) with
  | Err e => Err e
  | Ok tenantUUID =>
  match parseUUID "failed to parse VPC ID" (VpcID providerSpec) with
  | Err e => Err e
  | Ok vpcUUID =>
  match (if String.eqb (InstanceTypeID providerSpec) "" then Ok None
         else match parseUUID "failed to parse instance type ID"
                      (InstanceTypeID providerSpec) with
              | Ok u => Ok (Some u)
              | Err e => Err e
              end) with
  | Err e => Err e
  | Ok instanceTypeId =>
  match (if (0 <? List.length (SSHKeyGroupIDs providerSpec))%nat
         then match sshKeyGroupUUIDs (SSHKeyGroupIDs providerSpec) with
              | Ok l => Ok (Some l)
              | Err e => Err e
              end
         else Ok None) with
  | Err e => Err e
  | Ok sshKeyGroupIds =>
      Ok {| restclient.Name := name;
            restclient.TenantId := tenantUUID;
            restclient.VpcId := vpcUUID;
            restclient.Interfaces := Some interfaces;
            restclient.PhoneHomeEnabled := Some true;
            restclient.InstanceTypeId := instanceTypeId;
            restclient.MachineId :=
              if String.eqb (MachineID providerSpec) "" then None
              else Some (MachineID providerSpec);
            restclient.AllowUnhealthyMachine :=
              if AllowUnhealthyMachine providerSpec then Some true else None;
            restclient.UserData :=
              if String.eqb (UserData providerSpec) "" then None
              else Some (UserData providerSpec);
            restclient.SshKeyGroupIds := sshKeyGroupIds;
            restclient.Labels :=
              if (0 <? size (Labels providerSpec))%nat
              then Some (Labels providerSpec) else None |}
  end end end end end end.

(** The two nested loops over the interfaces of an instance and their
    addresses: every address becomes an [InternalIP] entry. *)
Definition interfaceAddresses (iface : restclient.Interface) : list MachineAddress :=
  match restclient.IpAddresses iface with
  | Some ips => List.map (fun ipAddr => {| Type_ := "InternalIP"; Address := ipAddr |}) ips
  | None => []
  end.

Definition instanceAddresses (instance : restclient.Instance) : list MachineAddress :=
  match restclient.Instance_Interfaces instance with
  | Some ifaces => List.flat_map interfaceAddresses ifaces
  | None => []
  end.

Section Methods.

Context {K P : Type} `{!Client K} `{!NvidiaBMMClientInterface P} `{!JSONCodec}.

Local Abbreviation M := (M K P).

(** [a.eventRecorder.Eventf(...)], guarded by [a.eventRecorder != nil]. *)
Definition eventf (a : Actuator) (eventtype reason : string) : M unit :=
  if eventRecorder a then record (Eventf eventtype reason) else ret tt.

(** [a.client.Update(context.Background(), unstructuredMachine)] *)
Definition clientUpdate : M unit :=
  fun st =>
    let '(err, k') := Client_Update (machine st) (k8s st) in
    ((match err with Some e => Raise e | None => Return tt end),
     {| machine := machine st; k8s := k';
        platform := platform st;
        trace := trace st ++ [K8sUpdate (machine st)] |}).

(** [a.client.Status().Update(context.Background(), unstructuredMachine)] *)
Definition clientStatusUpdate : M unit :=
  fun st =>
    let '(err, k') := Client_Status_Update (machine st) (k8s st) in
    ((match err with Some e => Raise e | None => Return tt end),
     {| machine := machine st; k8s := k';
        platform := platform st;
        trace := trace st ++ [K8sStatusUpdate (machine st)] |}).

(** [a.client.Get(ctx, secretKey, secret)] *)
Definition clientGetSecret (key : ObjectKey) : M Secret :=
  fun st =>
    ((match Client_Get_Secret key (k8s st) with Ok s => Return s | Err e => Raise e end),
     {| machine := machine st; k8s := k8s st;
        platform := platform st;
        trace := trace st ++ [K8sGetSecret key] |}).

(** The three calls through the client handle. *)
Definition callCreateInstance (c : BmmClient) (org : string)
    (body : restclient.CreateInstanceJSONRequestBody)
    : M restclient.CreateInstanceResponse :=
  fun st =>
    let '(r, p') := CreateInstanceWithResponse c org body (platform st) in
    ((match r with Ok resp => Return resp | Err e => Raise e end),
     {| machine := machine st; k8s := k8s st; platform := p';
        trace := trace st ++ [BmmCreateInstance c org body] |}).

Definition callGetInstance (c : BmmClient) (org : string) (id : uuid.UUID)
    : M restclient.GetInstanceResponse :=
  fun st =>
    let '(r, p') := GetInstanceWithResponse c org id (platform st) in
    ((match r with Ok resp => Return resp | Err e => Raise e end),
     {| machine := machine st; k8s := k8s st; platform := p';
        trace := trace st ++ [BmmGetInstance c org id] |}).

Definition callDeleteInstance (c : BmmClient) (org : string) (id : uuid.UUID)
    : M restclient.DeleteInstanceResponse :=
  fun st =>
    let '(r, p') := DeleteInstanceWithResponse c org id (platform st) in
    ((match r with Ok resp => Return resp | Err e => Raise e end),
     {| machine := machine st; k8s := k8s st; platform := p';
        trace := trace st ++ [BmmDeleteInstance c org id] |}).

(** [func (a *Actuator) getProviderSpec(machine client.Object)] *)
Definition getProviderSpec (machine : runtime_Object)
    : result NvidiaBMMMachineProviderSpec :=
  match machine with
  | Unstructured obj =>
      match unstructured.NestedFieldCopy obj ["spec"; "providerSpec"; "value"] with
      | Err err => Err (Wrapf "providerSpec.value not found" err)
      | Ok None => Err (Errorf "providerSpec.value not found")
      | Ok (Some providerSpecValue) =>
          match Unmarshal_ProviderSpec providerSpecValue with
          | Err err => Err (Wrapf "failed to unmarshal providerSpec" err)
          | Ok providerSpec => Ok providerSpec
          end
      end
  | _ => Err (Errorf "machine is not unstructured")
  end.

(** [func (a *Actuator) getProviderStatus(machine client.Object)] *)
Definition getProviderStatus (machine : runtime_Object)
    : result NvidiaBMMMachineProviderStatus :=
  match machine with
  | Unstructured obj =>
      match unstructured.NestedFieldCopy obj ["status"; "providerStatus"] with
      | Err err => Err (Wrapf "failed to get providerStatus" err)
      | Ok None =>
          (* If not found, return empty status (this is OK for new machines) *)
          Ok emptyStatus
      | Ok (Some providerStatusValue) =>
          match Unmarshal_ProviderStatus providerStatusValue with
          | Err err => Err (Wrapf "failed to unmarshal providerStatus" err)
          | Ok providerStatus => Ok providerStatus
          end
      end
  | _ => Err (Errorf "machine is not unstructured")
  end.

(** [func (a *Actuator) setProviderStatus(machine client.Object, status)] *)
Definition setProviderStatus (status : NvidiaBMMMachineProviderStatus) : M unit :=
  do machine <- getMachine;
  match machine with
  | Unstructured obj =>
      match Marshal_ProviderStatus status with
      | Err err => fail (Wrapf "failed to marshal status" err)
      | Ok statusMap =>
          match unstructured.SetNestedField obj (unstructured.JObject statusMap)
                  ["status"; "providerStatus"] with
          | Err err => fail (Wrapf "failed to set providerStatus" err)
          | Ok obj' =>
              run setMachine (Unstructured obj');
              wrapf "failed to update machine status" clientStatusUpdate
          end
      end
  | _ => fail (Errorf "machine is not unstructured")
  end.

(** [func (a *Actuator) setProviderID(machine client.Object, providerID string)] *)
Definition setProviderID (providerID : string) : M unit :=
  do machine <- getMachine;
  match machine with
  | Unstructured obj =>
      match unstructured.SetNestedField obj (unstructured.JString providerID)
              ["spec"; "providerID"] with
      | Err err => fail (Wrapf "failed to set providerID" err)
      | Ok obj' =>
          run setMachine (Unstructured obj');
          wrapf "failed to update machine" clientUpdate
      end
  | _ => fail (Errorf "machine is not unstructured")
  end.

(** [func (a *Actuator) getNvidiaBmmClient(ctx, providerSpec)] *)
Definition getNvidiaBmmClient (a : Actuator)
    (providerSpec : NvidiaBMMMachineProviderSpec) : M (BmmClient * string) :=
  match nvidiaBmmClient a with
  | Some c =>
      (* Use injected client for testing *)
      ret (c, orgName a)
  | None =>
      let secretKey :=
        {| Key_Name := Name (CredentialsSecret providerSpec);
           Key_Namespace := Namespace (CredentialsSecret providerSpec) |} in
      do secret <- wrapf "failed to get credentials secret" (clientGetSecret secretKey);
      match Data secret !! "endpoint" with
      | None => fail (Errorf "secret is missing 'endpoint' field")
      | Some endpoint =>
      match Data secret !! "orgName" with
      | None => fail (Errorf "secret is missing 'orgName' field")
      | Some orgName =>
      match Data secret !! "token" with
      | None => fail (Errorf "secret is missing 'token' field")
      | Some token =>
          match NewClientWithAuth endpoint token with
          | Err err => fail (Wrapf "failed to create NVIDIA BMM client" err)
          | Ok bmmClient => ret (bmmClient, orgName)
          end
      end end end
  end.

(** [func (a *Actuator) Create(ctx context.Context, machine runtime.Object) error] *)
Definition Create (a : Actuator) : M unit :=
  do machineObj <- getMachine;
  if negb (is_client_Object machineObj)
  then fail (Errorf "machine is not a client.Object")
  else
  (* Parse provider spec *)
  do providerSpec <- wrapf "failed to get provider spec" (liftR (getProviderSpec machineObj));
  (* Get NVIDIA BMM client and orgName *)
  do '(nvidiaBmmClient, orgName) <-
    wrapf "failed to create NVIDIA BMM client" (getNvidiaBmmClient a providerSpec);
  (* Build instance request *)
  do instanceReq <- liftR (buildInstanceRequest (GetName machineObj) providerSpec);
  (* Create instance *)
  do r <- attempt (callCreateInstance nvidiaBmmClient orgName instanceReq);
  match r with
  | Err err =>
      run eventf a "Warning" "FailedCreate";
      fail (Wrapf "failed to create instance" err)
  | Ok resp =>
      match restclient.JSON201 resp with
      | None =>
          run eventf a "Warning" "FailedCreate";
          fail (Errorf "create instance returned no data")
      | Some instance =>
          (* Build provider status *)
          do id <- deref (restclient.Id instance);
          let providerStatus :=
            {| Status_Kind := ""; Status_APIVersion := "";
               InstanceID := Some (uuid.UUID_String id);
               Status_MachineID := restclient.Instance_MachineId instance;
               InstanceState := restclient.Status instance;
               Addresses := instanceAddresses instance;
               Conditions := [] |} in
          run wrapf "failed to update provider status" (setProviderStatus providerStatus);
          (* Set provider ID using the local providerid package *)
          let pid := providerid.NewProviderID orgName (TenantID providerSpec)
                       (SiteID providerSpec) id in
          run wrapf "failed to set provider ID"
                (setProviderID (providerid.ProviderID_String pid));
          run eventf a "Normal" "Created";
          ret tt
      end
  end.

(** The refresh of the status in [Update]: the state and the machine id are
    overwritten when the instance reports them, the addresses are rebuilt. *)
Definition refreshStatus (providerStatus : NvidiaBMMMachineProviderStatus)
    (instance : restclient.Instance) : NvidiaBMMMachineProviderStatus :=
  {| Status_Kind := Status_Kind providerStatus;
     Status_APIVersion := Status_APIVersion providerStatus;
     InstanceID := InstanceID providerStatus;
     Status_MachineID :=
       match restclient.Instance_MachineId instance with
       | Some m => Some m
       | None => Status_MachineID providerStatus
       end;
     InstanceState :=
       match restclient.Status instance with
       | Some status => Some status
       | None => InstanceState providerStatus
       end;
     Addresses := instanceAddresses instance;
     Conditions := Conditions providerStatus |}.

(** [func (a *Actuator) Update(ctx context.Context, machine runtime.Object) error] *)
Definition Update (a : Actuator) : M unit :=
  do machineObj <- getMachine;
  if negb (is_client_Object machineObj)
  then fail (Errorf "machine is not a client.Object")
  else
  (* Parse provider spec *)
  do providerSpec <- wrapf "failed to get provider spec" (liftR (getProviderSpec machineObj));
  (* Get provider status *)
  do providerStatus <-
    wrapf "failed to get provider status" (liftR (getProviderStatus machineObj));
  match InstanceID providerStatus with
  | None => fail (Errorf "instance ID not set in provider status")
  | Some instanceID =>
      (* Get NVIDIA BMM client and orgName *)
      do '(nvidiaBmmClient, orgName) <-
        wrapf "failed to create NVIDIA BMM client" (getNvidiaBmmClient a providerSpec);
      (* Parse instance ID *)
      do instanceUUID <- liftR (parseUUID "failed to parse instance ID" instanceID);
      (* Get current instance status *)
      do resp <- wrapf "failed to get instance"
                   (callGetInstance nvidiaBmmClient orgName instanceUUID);
      match restclient.JSON200 resp with
      | None => fail (Errorf "get instance returned no data")
      | Some instance =>
          (* Update provider status *)
          wrapf "failed to update provider status"
            (setProviderStatus (refreshStatus providerStatus instance))
      end
  end.

(** [func (a *Actuator) Exists(ctx context.Context, machine runtime.Object) (bool, error)] *)
Definition Exists (a : Actuator) : M bool :=
  do machineObj <- getMachine;
  if negb (is_client_Object machineObj)
  then fail (Errorf "machine is not a client.Object")
  else
  (* Get provider status *)
  do providerStatus <-
    wrapf "failed to get provider status" (liftR (getProviderStatus machineObj));
  match InstanceID providerStatus with
  | None => ret false
  | Some instanceID =>
      (* Parse provider spec *)
      do providerSpec <-
        wrapf "failed to get provider spec" (liftR (getProviderSpec machineObj));
      (* Get NVIDIA BMM client and orgName *)
      do '(nvidiaBmmClient, orgName) <-
        wrapf "failed to create NVIDIA BMM client" (getNvidiaBmmClient a providerSpec);
      (* Parse instance ID *)
      do instanceUUID <- liftR (parseUUID "failed to parse instance ID" instanceID);
      (* Check if instance exists *)
      do r <- attempt (callGetInstance nvidiaBmmClient orgName instanceUUID);
      match r with
      | Err _ => ret false
      | Ok resp =>
          (* Instance exists if we get a 200 response *)
          ret (bool_decide (is_Some (restclient.JSON200 resp)))
      end
  end.

(** [func (a *Actuator) Delete(ctx context.Context, machine runtime.Object) error] *)
Definition Delete (a : Actuator) : M unit :=
  do machineObj <- getMachine;
  if negb (is_client_Object machineObj)
  then fail (Errorf "machine is not a client.Object")
  else
  (* Parse provider spec *)
  do providerSpec <- wrapf "failed to get provider spec" (liftR (getProviderSpec machineObj));
  (* Get provider status *)
  do providerStatus <-
    wrapf "failed to get provider status" (liftR (getProviderStatus machineObj));
  match InstanceID providerStatus with
  | None =>
      (* Nothing to delete *)
      ret tt
  | Some instanceID =>
      (* Get NVIDIA BMM client and orgName *)
      do '(nvidiaBmmClient, orgName) <-
        wrapf "failed to create NVIDIA BMM client" (getNvidiaBmmClient a providerSpec);
      (* Parse instance ID *)
      do instanceUUID <- liftR (parseUUID "failed to parse instance ID" instanceID);
      (* Delete instance *)
      do r <- attempt (callDeleteInstance nvidiaBmmClient orgName instanceUUID);
      match r with
      | Err err =>
          run eventf a "Warning" "FailedDelete";
          fail (Wrapf "failed to delete instance" err)
      | Ok resp =>
          (* Check response *)
          if (negb (restclient.StatusCode resp =? 204) &&
              negb (restclient.StatusCode resp =? 404))%Z
          then
            run eventf a "Warning" "FailedDelete";
            fail (Errorf "delete instance returned unexpected status")
          else
            run eventf a "Normal" "Deleted";
            ret tt
      end
  end.


(** The status [Create] builds from the instance it got back. *)
Definition createdStatus (id : uuid.UUID) (instance : restclient.Instance)
    : NvidiaBMMMachineProviderStatus :=
  {| Status_Kind := ""; Status_APIVersion := "";
     InstanceID := Some (uuid.UUID_String id);
     Status_MachineID := restclient.Instance_MachineId instance;
     InstanceState := restclient.Status instance;
     Addresses := instanceAddresses instance;
     Conditions := [] |}.

(** The state after a call through the client handle that left the
    platform in [p']. *)
Definition afterCall (st : State K P) (c : Call) (p' : P) : State K P :=
  {| machine := machine st; k8s := k8s st; platform := p';
     trace := trace st ++ [c] |}.

End Methods.

End machine_actuator.

(** ** Package [sigs.k8s.io/controller-runtime/pkg/controller/controllerutil]
    and the finalizer accessors of [client.Object] *)

Module controllerutil.

Import unstructured.

(** The strings of a JSON array, or nothing when an element is not one
    ([NestedStringSlice]). *)
Fixpoint stringSlice (l : list JSON) : option (list string) :=
  match l with
  | [] => Some []
  | JString s :: l' =>
      match stringSlice l' with
      | Some ss => Some (s :: ss)
      | None => None
      end
  | _ :: _ => None
  end.

(** [func RemoveNestedField(obj map[string]interface{}, fields ...string)] *)
Fixpoint RemoveNestedField (obj : gmap string JSON) (fields : list string)
    : gmap string JSON :=
  match fields with
  | [] => obj
  | [field] => delete field obj
  | field :: fields' =>
      match obj !! field with
      | Some (JObject m) => <[field := JObject (RemoveNestedField m fields')]> obj
      | _ => obj
      end
  end.

(** [o.GetFinalizers()] *)
Definition GetFinalizers (o : runtime_Object) : list string :=
  match o with
  | TypedMachine m => Finalizers m
  | Unstructured obj =>
      match NestedFieldCopy obj ["metadata"; "finalizers"] with
      | Ok (Some (JArray l)) => default [] (stringSlice l)
      | _ => []
      end
  | NotClientObject => []
  end.

(** [o.SetFinalizers(finalizers)] *)
Definition SetFinalizers (o : runtime_Object) (finalizers : list string)
    : runtime_Object :=
  match o with
  | TypedMachine m =>
      TypedMachine {| Machine_Name := Machine_Name m;
                      Finalizers := finalizers;
                      DeletionTimestamp := DeletionTimestamp m;
                      Machine_Spec := Machine_Spec m;
                      Machine_Status := Machine_Status m |}
  | Unstructured obj =>
      if (List.length finalizers =? 0)%nat
      then Unstructured (RemoveNestedField obj ["metadata"; "finalizers"])
      else
        match SetNestedField obj (JArray (List.map JString finalizers))
                ["metadata"; "finalizers"] with
        | Ok obj' => Unstructured obj'
        | Err _ => Unstructured obj
        end
  | NotClientObject => NotClientObject
  end.

(** [func ContainsFinalizer(o client.Object, finalizer string) bool] *)
Definition ContainsFinalizer (o : runtime_Object) (finalizer : string) : bool :=
  List.existsb (String.eqb finalizer) (GetFinalizers o).

(** [func AddFinalizer(o client.Object, finalizer string)]: appended unless
    already there. *)
Definition AddFinalizer (o : runtime_Object) (finalizer : string) : runtime_Object :=
  if ContainsFinalizer o finalizer then o
  else SetFinalizers o (GetFinalizers o ++ [finalizer]).

(** [func RemoveFinalizer(o client.Object, finalizer string)]: every
    occurrence is dropped. *)
Definition RemoveFinalizer (o : runtime_Object) (finalizer : string) : runtime_Object :=
  SetFinalizers o
    (List.filter (fun e => negb (String.eqb e finalizer)) (GetFinalizers o)).

(** [o.GetDeletionTimestamp().IsZero()] *)
Definition DeletionTimestamp_IsZero (o : runtime_Object) : bool :=
  match o with
  | TypedMachine m =>
      match DeletionTimestamp m with
      | None => true
      | Some t => (t =? 0)%Z
      end
  | Unstructured obj =>
      match NestedFieldCopy obj ["metadata"; "deletionTimestamp"] with
      | Ok (Some (JString _)) => false
      | _ => true
      end
  | NotClientObject => true
  end.

End controllerutil.

(** ** Package [pkg/controllers/machine]: the Machine reconciler *)

Module machine_controller.

Import controllerutil.

(** MachineFinalizer is the finalizer for OpenShift machines *)
Definition MachineFinalizer : string := "machine.openshift.io/nvidia-bmm".

(** RequeueAfterSeconds is the time to wait before requeuing *)
Definition RequeueAfterSeconds : Z := 30.

(** [ctrl.Result], with [RequeueAfter] in seconds. *)
Record Result : Type := mkResult {
  Requeue : bool;
  RequeueAfter : Z
}.

Definition Result_zero : Result := {| Requeue := false; RequeueAfter := 0 |}.

Section Reconciler.

Context {K P : Type} `{!Client K}.

Local Abbreviation M := (M K P).

(** The [Actuator] field of [MachineReconciler]: the four methods the
    reconciler calls on it, each acting on the object behind the pointer it
    is given.  [machine_actuator] provides them for the actuator of this
    repository. *)
Record ActuatorMethods : Type := mkActuatorMethods {
  Actuator_Create : M unit;
  Actuator_Update : M unit;
  Actuator_Exists : M bool;
  Actuator_Delete : M unit
}.

(** [type MachineReconciler struct]: the embedded client is the [k8s]
    component of the state. *)
Record MachineReconciler : Type := mkMachineReconciler {
  Actuator : ActuatorMethods
}.

(** [r.Update(ctx, machineObj)] *)
Definition Update : M unit :=
  fun st =>
    let '(err, k') := Client_Update (machine st) (k8s st) in
    ((match err with Some e => Raise e | None => Return tt end),
     {| machine := machine st; k8s := k';
        platform := platform st;
        trace := trace st ++ [K8sUpdate (machine st)] |}).

(** A call [r.Actuator.Method(ctx, machineObj)], its error in hand. *)
Definition callActuator {A} (method : string) (m : M A) : M (result A) :=
  fun st =>
    match m {| machine := machine st; k8s := k8s st; platform := platform st;
               trace := trace st ++ [ActuatorCall method] |} with
    | (Return a, st') => (Return (Ok a), st')
    | (Raise e, st') => (Return (Err e), st')
    | (Panic, st') => (Panic, st')
    end.

(** [func (r *MachineReconciler) reconcileNormal(ctx, machineObj client.Object)],
    returning the pair [(ctrl.Result, error)]. *)
Definition reconcileNormal (r : MachineReconciler) : M (Result * option error) :=
  do machineObj <- getMachine;
  (* Add finalizer if it doesn't exist *)
  if negb (ContainsFinalizer machineObj MachineFinalizer)
  then
    run setMachine (AddFinalizer machineObj MachineFinalizer);
    do e <- attempt Update;
    match e with
    | Err err => ret (Result_zero, Some (Wrapf "failed to add finalizer" err))
    | Ok _ => ret ({| Requeue := true; RequeueAfter := 0 |}, None)
    end
  else
  (* Check if instance exists *)
  do ex <- callActuator "Exists" (Actuator_Exists (Actuator r));
  match ex with
  | Err err =>
      ret ({| Requeue := false; RequeueAfter := RequeueAfterSeconds |}, Some err)
  | Ok exists_ =>
      if negb exists_
      then
        (* Create instance *)
        do c <- callActuator "Create" (Actuator_Create (Actuator r));
        match c with
        | Err err =>
            ret ({| Requeue := false; RequeueAfter := RequeueAfterSeconds |}, Some err)
        | Ok _ => ret ({| Requeue := false; RequeueAfter := 10 |}, None)
        end
      else
        (* Update instance status *)
        do u <- callActuator "Update" (Actuator_Update (Actuator r));
        match u with
        | Err err =>
            ret ({| Requeue := false; RequeueAfter := RequeueAfterSeconds |}, Some err)
        | Ok _ =>
            ret ({| Requeue := false; RequeueAfter := RequeueAfterSeconds |}, None)
        end
  end.

(** [func (r *MachineReconciler) reconcileDelete(ctx, machineObj client.Object)] *)
Definition reconcileDelete (r : MachineReconciler) : M (Result * option error) :=
  (* Delete instance *)
  do d <- callActuator "Delete" (Actuator_Delete (Actuator r));
  match d with
  | Err err => ret (Result_zero, Some err)
  | Ok _ =>
      (* Remove finalizer *)
      do machineObj <- getMachine;
      run setMachine (RemoveFinalizer machineObj MachineFinalizer);
      do e <- attempt Update;
      match e with
      | Err err => ret (Result_zero, Some (Wrapf "failed to remove finalizer" err))
      | Ok _ => ret (Result_zero, None)
      end
  end.

(** [r.Get(ctx, req.NamespacedName, machineObj)] into a fresh
    [machinev1beta1.Machine]. *)
Definition Get (req : ObjectKey) : M GetMachineResult :=
  fun st =>
    let res := Client_Get_Machine req (k8s st) in
    (Return res,
     {| machine := match res with
                   | MachineFound m => TypedMachine m
                   | _ => machine st
                   end;
        k8s := k8s st; platform := platform st;
        trace := trace st ++ [K8sGetMachine req] |}).

(** [func (r *MachineReconciler) Reconcile(ctx, req ctrl.Request)] *)
Definition Reconcile (r : MachineReconciler) (req : ObjectKey)
    : M (Result * option error) :=
  (* Fetch the Machine instance *)
  do res <- Get req;
  match res with
  | MachineNotFound _ => ret (Result_zero, None)
  | MachineGetError err => ret (Result_zero, Some err)
  | MachineFound _ =>
      do machineObj <- getMachine;
      (* Handle deletion *)
      if negb (DeletionTimestamp_IsZero machineObj)
      then reconcileDelete r
      else
        (* Handle normal reconciliation *)
        reconcileNormal r
  end.

(** The state in which [Reconcile] holds the machine it fetched. *)
Definition fetched (st : State K P) (req : ObjectKey) (m : Machine) : State K P :=
  {| machine := TypedMachine m; k8s := k8s st; platform := platform st;
     trace := trace st ++ [K8sGetMachine req] |}.

(** The state in which a method of the actuator starts. *)
Definition entering (st : State K P) (method : string) : State K P :=
  {| machine := machine st; k8s := k8s st; platform := platform st;
     trace := trace st ++ [ActuatorCall method] |}.

(** The calls into the actuator a trace holds. *)
Definition actuator_calls (t : list Call) : list Call :=
  List.filter (fun c => match c with ActuatorCall _ => true | _ => false end) t.

End Reconciler.

Arguments ActuatorMethods : clear implicits.
Arguments MachineReconciler : clear implicits.

(** The reconciler of [SetupMachineController], around the actuator of this
    repository. *)
Definition NewMachineReconciler {K P : Type} `{!Client K}
    `{!NvidiaBMMClientInterface P} `{!JSONCodec}
    (a : machine_actuator.Actuator) : MachineReconciler K P :=
  {| Actuator :=
       {| Actuator_Create := machine_actuator.Create a;
          Actuator_Update := machine_actuator.Update a;
          Actuator_Exists := machine_actuator.Exists a;
          Actuator_Delete := machine_actuator.Delete a |} |}.

End machine_controller.

(** ** Concrete collaborators

    The stand-ins of [test/integration]: a Kubernetes client over an
    in-memory store, the mock platform client, and a codec that follows the
    [json] tags of the [v1beta1] structs (keys are matched exactly). *)

Module envtest.

Import unstructured v1beta1.

(** *** The codec: [encoding/json] on the provider spec and status

    A document is written with [json.Marshal], which sorts the keys of an
    object bytewise and replaces invalid UTF-8, and read back with
    [json.Unmarshal], which gives every key to the field whose name it
    matches under case folding, in the order of the text, decoding into
    the value the field holds at that point.  Numbers are the integers
    [JNumber] can hold. *)

Definition typeError : error := Errorf "json: cannot unmarshal value into Go struct field".

(** Whether a key names the field [name] (ASCII): equal under simple case
    folding, which besides the ASCII letters folds the Kelvin sign
    (U+212A) to [k] and the long s (U+017F) to [s]. *)
Fixpoint matchesField (key name : string) {struct key} : bool :=
  match key with
  | EmptyString => match name with EmptyString => true | String _ _ => false end
  | String c key1 =>
      match name with
      | EmptyString => false
      | String d name' =>
          let n := N_of_ascii c in
          if (n <? 128)%N
          then Ascii.eqb (strings.lower c) (strings.lower d) && matchesField key1 name'
          else
            match key1 with
            | EmptyString => false
            | String c2 key2 =>
                if ((n =? 197) && (N_of_ascii c2 =? 191))%N
                then Ascii.eqb (strings.lower d) "s" && matchesField key2 name'
                else
                  match key2 with
                  | EmptyString => false
                  | String c3 key3 =>
                      if ((n =? 226) && (N_of_ascii c2 =? 132) && (N_of_ascii c3 =? 170))%N
                      then Ascii.eqb (strings.lower d) "k" && matchesField key3 name'
                      else false
                  end
            end
      end
  end.

(** The entries of an object in the order [json.Marshal] writes them. *)
Fixpoint insertEntry (kv : string * JSON) (l : list (string * JSON))
    : list (string * JSON) :=
  match l with
  | [] => [kv]
  | x :: l' => if String.leb (fst kv) (fst x) then kv :: l else x :: insertEntry kv l'
  end.

Definition entries (m : gmap string JSON) : list (string * JSON) :=
  List.fold_right insertEntry [] (map_to_list m).

(** The values a document gives to one field, in that order. *)
Definition valuesFor (m : gmap string JSON) (name : string) : list JSON :=
  List.map snd (List.filter (fun kv => matchesField (fst kv) name) (entries m)).

(** A field decoded from the value [cur] it holds. *)
Definition decodeField {T} (into : T -> JSON -> result T) (cur : T)
    (m : gmap string JSON) (name : string) : result T :=
  List.fold_left (fun acc v => match acc with Ok c => into c v | Err e => Err e end)
    (valuesFor m name) (Ok cur).

(** [null] leaves a [string], a [bool] or an [int64] as it is and makes a
    pointer nil. *)
Definition intoString (cur : string) (v : JSON) : result string :=
  match v with
  | JNull => Ok cur
  | JString s => Ok (json.validString s)
  | _ => Err typeError
  end.

Definition intoStringPtr (cur : option string) (v : JSON) : result (option string) :=
  match v with
  | JNull => Ok None
  | JString s => Ok (Some (json.validString s))
  | _ => Err typeError
  end.

Definition intoBool (cur : bool) (v : JSON) : result bool :=
  match v with
  | JNull => Ok cur
  | JBool b => Ok b
  | _ => Err typeError
  end.

Definition inInt64 (z : Z) : bool := ((- 2 ^ 63 <=? z) && (z <? 2 ^ 63))%Z.

Definition intoInt64 (cur : Z) (v : JSON) : result Z :=
  match v with
  | JNull => Ok cur
  | JNumber z => if inInt64 z then Ok z else Err typeError
  | _ => Err typeError
  end.

(** A slice while it is decoded: the elements of its backing array, which
    a shorter array leaves behind and a longer one decodes into, and its
    length. *)
Record Slice (A : Type) : Type := mkSlice {
  backing : list A;
  len : nat
}.
Arguments mkSlice {A} backing len.
Arguments backing {A} s.
Arguments len {A} s.

Definition visible {A} (s : Slice A) : list A := List.firstn (len s) (backing s).

Fixpoint intoElements {A} (zero : A) (into : A -> JSON -> result A)
    (elements : list A) (l : list JSON) : result (list A) :=
  match l with
  | [] => Ok elements
  | v :: l' =>
      match into (List.hd zero elements) v with
      | Err e => Err e
      | Ok a =>
          match intoElements zero into (List.tl elements) l' with
          | Err e => Err e
          | Ok rest => Ok (a :: rest)
          end
      end
  end.

Definition intoSlice {A} (zero : A) (into : A -> JSON -> result A)
    (cur : Slice A) (v : JSON) : result (Slice A) :=
  match v with
  | JNull => Ok (mkSlice [] 0)
  | JArray [] => Ok (mkSlice [] 0)
  | JArray l =>
      match intoElements zero into (backing cur) l with
      | Ok elements => Ok (mkSlice elements (List.length l))
      | Err e => Err e
      end
  | _ => Err typeError
  end.

Definition decodeSlice {A} (zero : A) (into : A -> JSON -> result A)
    (m : gmap string JSON) (name : string) : result (list A) :=
  match decodeField (intoSlice zero into) (mkSlice [] 0) m name with
  | Ok s => Ok (visible s)
  | Err e => Err e
  end.

(** A [map[string]string]: [null] makes it nil, an object adds its
    entries. *)
Definition intoStringMap (cur : gmap string string) (v : JSON)
    : result (gmap string string) :=
  match v with
  | JNull => Ok ∅
  | JObject l =>
      List.fold_left
        (fun acc kv =>
           match acc with
           | Err e => Err e
           | Ok m =>
               match snd kv with
               | JNull => Ok (<[json.validString (fst kv) := ""]> m)
               | JString s => Ok (<[json.validString (fst kv) := json.validString s]> m)
               | _ => Err typeError
               end
           end)
        (entries l) (Ok cur)
  | _ => Err typeError
  end.

Definition intoAdditionalSubnet (cur : AdditionalSubnet) (v : JSON)
    : result AdditionalSubnet :=
  match v with
  | JNull => Ok cur
  | JObject m =>
      match decodeField intoString (AdditionalSubnet_SubnetID cur) m "subnetId",
            decodeField intoBool (AdditionalSubnet_IsPhysical cur) m "isPhysical" with
      | Ok s, Ok b => Ok {| AdditionalSubnet_SubnetID := s; AdditionalSubnet_IsPhysical := b |}
      | Err e, _ | _, Err e => Err e
      end
  | _ => Err typeError
  end.

Definition intoMachineAddress (cur : MachineAddress) (v : JSON) : result MachineAddress :=
  match v with
  | JNull => Ok cur
  | JObject m =>
      match decodeField intoString (Type_ cur) m "type",
            decodeField intoString (Address cur) m "address" with
      | Ok t, Ok a => Ok {| Type_ := t; Address := a |}
      | Err e, _ | _, Err e => Err e
      end
  | _ => Err typeError
  end.

Definition intoCredentialsSecret (cur : CredentialsSecretReference) (v : JSON)
    : result CredentialsSecretReference :=
  match v with
  | JNull => Ok cur
  | JObject c =>
      match decodeField intoString (Name cur) c "name",
            decodeField intoString (Namespace cur) c "namespace" with
      | Ok n, Ok ns => Ok {| Name := n; Namespace := ns |}
      | Err e, _ | _, Err e => Err e
      end
  | _ => Err typeError
  end.

(** **** [metav1.Time] as JSON: RFC 3339

    [time.Parse(time.RFC3339, s)] and [t.UTC().Format(time.RFC3339)]. *)

Definition digit (c : ascii) : option Z :=
  let n := N_of_ascii c in
  if ((48 <=? n) && (n <=? 57))%N then Some (Z.of_N n - 48)%Z else None.

(** [getnum(s, true)]: two digits. *)
Definition num2 (s : string) : option (Z * string) :=
  match s with
  | String a (String b rest) =>
      match digit a, digit b with
      | Some x, Some y => Some ((10 * x + y)%Z, rest)
      | _, _ => None
      end
  | _ => None
  end.

(** [getnum(s, false)]: one digit or two. *)
Definition num12 (s : string) : option (Z * string) :=
  match s with
  | String a rest =>
      match digit a with
      | None => None
      | Some x =>
          match rest with
          | String b rest' =>
              match digit b with
              | Some y => Some ((10 * x + y)%Z, rest')
              | None => Some (x, rest)
              end
          | EmptyString => Some (x, rest)
          end
      end
  | EmptyString => None
  end.

Definition num4 (s : string) : option (Z * string) :=
  match num2 s with
  | Some (hi, rest) =>
      match num2 rest with
      | Some (lo, rest') => Some ((100 * hi + lo)%Z, rest')
      | None => None
      end
  | None => None
  end.

Definition expect (c : ascii) (s : string) : option string :=
  match s with
  | String d rest => if Ascii.eqb c d then Some rest else None
  | EmptyString => None
  end.

(** The digits of a fractional second: the first nine count, [k] of them
    are still to come. *)
Fixpoint fractionDigits (s : string) (k : nat) (acc : Z) : Z * string :=
  match s with
  | String c s' =>
      match digit c with
      | Some d =>
          match k with
          | O => fractionDigits s' O acc
          | S k' => fractionDigits s' k' (10 * acc + d)%Z
          end
      | None => ((acc * 10 ^ Z.of_nat k)%Z, s)
      end
  | EmptyString => ((acc * 10 ^ Z.of_nat k)%Z, s)
  end.

Definition fraction (s : string) : Z * string :=
  match s with
  | String sep (String c rest) =>
      if (Ascii.eqb sep "." || Ascii.eqb sep ",") && bool_decide (is_Some (digit c))
      then fractionDigits (String c rest) 9 0
      else (0%Z, s)
  | _ => (0%Z, s)
  end.

(** The offset of the zone in seconds, and what follows it. *)
Definition zone (s : string) : option (Z * string) :=
  match s with
  | String sign rest =>
      if Ascii.eqb sign "Z" then Some (0%Z, rest)
      else
        match rest with
        | String h1 (String h2 (String colon (String m1 (String m2 rest')))) =>
            match digit h1, digit h2, digit m1, digit m2 with
            | Some a, Some b, Some c, Some d =>
                let hr := (10 * a + b)%Z in
                let mm := (10 * c + d)%Z in
                if negb (Ascii.eqb colon ":") || (24 <? hr)%Z || (60 <? mm)%Z then None
                else if Ascii.eqb sign "+" then Some (((hr * 60 + mm) * 60)%Z, rest')
                else if Ascii.eqb sign "-" then Some ((- ((hr * 60 + mm) * 60))%Z, rest')
                else None
            | _, _, _, _ => None
            end
        | _ => None
        end
  | EmptyString => None
  end.

Definition isLeap (year : Z) : bool :=
  ((year mod 4 =? 0) && (negb (year mod 100 =? 0) || (year mod 400 =? 0)))%Z.

Definition daysIn (month year : Z) : Z :=
  if (month =? 2)%Z then (if isLeap year then 29 else 28)%Z
  else if ((month =? 4) || (month =? 6) || (month =? 9) || (month =? 11))%Z then 30%Z
  else 31%Z.

(** The days from January 1 of year 1 to a date of the proleptic Gregorian
    calendar, and back. *)
Definition daysFromCivil (year month day : Z) : Z :=
  let y := (if month <=? 2 then year - 1 else year)%Z in
  let era := (y / 400)%Z in
  let yoe := (y - era * 400)%Z in
  let mp := (if 2 <? month then month - 3 else month + 9)%Z in
  let doy := ((153 * mp + 2) / 5 + day - 1)%Z in
  let doe := (yoe * 365 + yoe / 4 - yoe / 100 + doy)%Z in
  (era * 146097 + doe - 306)%Z.

Definition civilFromDays (days : Z) : Z * Z * Z :=
  let z := (days + 306)%Z in
  let era := (z / 146097)%Z in
  let doe := (z - era * 146097)%Z in
  let yoe := ((doe - doe / 1460 + doe / 36524 - doe / 146096) / 365)%Z in
  let doy := (doe - (365 * yoe + yoe / 4 - yoe / 100))%Z in
  let mp := ((5 * doy + 2) / 153)%Z in
  let day := (doy - (153 * mp + 2) / 5 + 1)%Z in
  let month := (if mp <? 10 then mp + 3 else mp - 9)%Z in
  let year := (yoe + era * 400 + (if month <=? 2 then 1 else 0))%Z in
  (year, month, day).

Definition parseRFC3339 (s : string) : result metav1.Time :=
  let parsed :=
    '(year, s) ← num4 s;
    s ← expect "-" s;
    '(month, s) ← num2 s;
    s ← expect "-" s;
    '(day, s) ← num2 s;
    s ← expect "T" s;
    '(hour, s) ← num12 s;
    s ← expect ":" s;
    '(minute, s) ← num2 s;
    s ← expect ":" s;
    '(second, s) ← num2 s;
    let '(nsec, s) := fraction s in
    '(offset, s) ← zone s;
    if negb (String.eqb s "") then None
    else if ((month <? 1) || (12 <? month) || (24 <=? hour) || (60 <=? minute)
             || (60 <=? second) || (day <? 1) || (daysIn month year <? day))%Z
    then None
    else Some {| metav1.Time_sec :=
                   (daysFromCivil year month day * 86400
                    + hour * 3600 + minute * 60 + second - offset)%Z;
                 metav1.Time_nsec := nsec |} in
  match parsed with
  | Some t => Ok t
  | None => Err (Errorf "parsing time: cannot parse as RFC 3339")
  end.

Definition digitChar (d : Z) : ascii := ascii_of_N (Z.to_N (48 + d)).

Definition pad2 (n : Z) : string :=
  String (digitChar (n / 10)) (String (digitChar (n mod 10)) "").

Fixpoint decimal (fuel : nat) (n : Z) (acc : string) : string :=
  match fuel with
  | O => acc
  | S fuel' =>
      let acc' := String (digitChar (n mod 10)) acc in
      if (n <? 10)%Z then acc' else decimal fuel' (n / 10) acc'
  end.

(** [appendInt(b, year, 4)] *)
Definition year4 (year : Z) : string :=
  let ds := decimal 30 (Z.abs year) "" in
  let zeros := String.concat "" (List.repeat "0" (4 - String.length ds)) in
  (if (year <? 0)%Z then "-" else "") ++ zeros ++ ds.

Definition formatRFC3339 (t : metav1.Time) : string :=
  let days := (metav1.Time_sec t / 86400)%Z in
  let rest := (metav1.Time_sec t mod 86400)%Z in
  let '(year, month, day) := civilFromDays days in
  year4 year ++ "-" ++ pad2 month ++ "-" ++ pad2 day ++ "T"
    ++ pad2 (rest / 3600) ++ ":" ++ pad2 (rest mod 3600 / 60) ++ ":" ++ pad2 (rest mod 60)
    ++ "Z".

(** [func (t Time) MarshalJSON()] and [func (t *Time) UnmarshalJSON(b)] *)
Definition Time_JSON (t : metav1.Time) : JSON :=
  if metav1.Time_IsZero t then JNull else JString (formatRFC3339 t).

Definition intoTime (cur : metav1.Time) (v : JSON) : result metav1.Time :=
  match v with
  | JNull => Ok metav1.Time_zero
  | JString s => parseRFC3339 (json.validString s)
  | _ => Err typeError
  end.

(** **** [metav1.Condition] *)

Definition zeroCondition : metav1.Condition :=
  metav1.mkCondition "" "" 0 metav1.Time_zero "" "".

Definition intoCondition (cur : metav1.Condition) (v : JSON) : result metav1.Condition :=
  match v with
  | JNull => Ok cur
  | JObject m =>
      match decodeField intoString (metav1.Condition_Type cur) m "type",
            decodeField intoString (metav1.Condition_Status cur) m "status",
            decodeField intoInt64 (metav1.ObservedGeneration cur) m "observedGeneration",
            decodeField intoTime (metav1.LastTransitionTime cur) m "lastTransitionTime",
            decodeField intoString (metav1.Reason cur) m "reason",
            decodeField intoString (metav1.Message cur) m "message" with
      | Ok t, Ok s, Ok g, Ok time, Ok r, Ok msg => Ok (metav1.mkCondition t s g time r msg)
      | _, _, _, _, _, _ => Err typeError
      end
  | _ => Err typeError
  end.

(** The JSON form of a condition: [observedGeneration] is [omitempty], the
    other fields are always written. *)
Definition Condition_JSON (c : metav1.Condition) : JSON :=
  JObject
    (<["type" := JString (json.validString (metav1.Condition_Type c))]>
       (<["status" := JString (json.validString (metav1.Condition_Status c))]>
          (<["lastTransitionTime" := Time_JSON (metav1.LastTransitionTime c)]>
             (<["reason" := JString (json.validString (metav1.Reason c))]>
                (<["message" := JString (json.validString (metav1.Message c))]>
                   (if (metav1.ObservedGeneration c =? 0)%Z then ∅
                    else {[ "observedGeneration" :=
                              JNumber (json.float64 (metav1.ObservedGeneration c)) ]})))))).

(** **** [metav1.TypeMeta] and [metav1.ObjectMeta] of the spec

    The actuator never reads them, so only whether they decode matters:
    each value must fit the type of the field its key names. *)

Definition fitsString (v : JSON) : bool :=
  match v with JNull | JString _ => true | _ => false end.

Definition fitsBool (v : JSON) : bool :=
  match v with JNull | JBool _ => true | _ => false end.

Definition fitsInt64 (v : JSON) : bool :=
  match v with JNull => true | JNumber z => inInt64 z | _ => false end.

Definition fitsTime (v : JSON) : bool :=
  match v with
  | JNull => true
  | JString s => is_ok (parseRFC3339 (json.validString s))
  | _ => false
  end.

Definition fitsAny (v : JSON) : bool := true.

Definition fitsStringMap (v : JSON) : bool :=
  match v with
  | JNull => true
  | JObject l => List.forallb (fun kv => fitsString (snd kv)) (map_to_list l)
  | _ => false
  end.

Definition fitsSlice (fits : JSON -> bool) (v : JSON) : bool :=
  match v with
  | JNull => true
  | JArray l => List.forallb fits l
  | _ => false
  end.

Definition fitsFields (fields : list (string * (JSON -> bool))) (m : gmap string JSON)
    : bool :=
  List.forallb
    (fun kv =>
       List.forallb (fun f => implb (matchesField (fst kv) (fst f)) (snd f (snd kv)))
         fields)
    (map_to_list m).

Definition fitsStruct (fields : list (string * (JSON -> bool))) (v : JSON) : bool :=
  match v with
  | JNull => true
  | JObject m => fitsFields fields m
  | _ => false
  end.

Definition typeMetaFields : list (string * (JSON -> bool)) :=
  [("kind", fitsString); ("apiVersion", fitsString)].

Definition ownerReferenceFields : list (string * (JSON -> bool)) :=
  [("apiVersion", fitsString); ("kind", fitsString); ("name", fitsString);
   ("uid", fitsString); ("controller", fitsBool); ("blockOwnerDeletion", fitsBool)].

Definition managedFieldsEntryFields : list (string * (JSON -> bool)) :=
  [("manager", fitsString); ("operation", fitsString); ("apiVersion", fitsString);
   ("time", fitsTime); ("fieldsType", fitsString); ("fieldsV1", fitsAny);
   ("subresource", fitsString)].

Definition objectMetaFields : list (string * (JSON -> bool)) :=
  [("name", fitsString); ("generateName", fitsString); ("namespace", fitsString);
   ("selfLink", fitsString); ("uid", fitsString); ("resourceVersion", fitsString);
   ("generation", fitsInt64); ("creationTimestamp", fitsTime);
   ("deletionTimestamp", fitsTime); ("deletionGracePeriodSeconds", fitsInt64);
   ("labels", fitsStringMap); ("annotations", fitsStringMap);
   ("ownerReferences", fitsSlice (fitsStruct ownerReferenceFields));
   ("finalizers", fitsSlice fitsString);
   ("managedFields", fitsSlice (fitsStruct managedFieldsEntryFields))].

(** **** The spec and the status *)

Definition zeroSpec : NvidiaBMMMachineProviderSpec :=
  mkProviderSpec "" "" "" "" false "" "" [] "" [] ∅ (mkCredentialsSecretReference "" "").

Definition unmarshalProviderSpec (v : JSON) : result NvidiaBMMMachineProviderSpec :=
  match v with
  | JNull => Ok zeroSpec
  | JObject m =>
      if negb (fitsFields (("metadata", fitsStruct objectMetaFields) :: typeMetaFields) m)
      then Err typeError
      else
      match decodeField intoString "" m "siteId",
            decodeField intoString "" m "tenantId",
            decodeField intoString "" m "instanceTypeId",
            decodeField intoString "" m "machineId",
            decodeField intoBool false m "allowUnhealthyMachine",
            decodeField intoString "" m "vpcId",
            decodeField intoString "" m "subnetId",
            decodeSlice (mkAdditionalSubnet "" false) intoAdditionalSubnet m
              "additionalSubnetIds",
            decodeField intoString "" m "userData",
            decodeSlice "" intoString m "sshKeyGroupIds",
            decodeField intoStringMap ∅ m "labels",
            decodeField intoCredentialsSecret (mkCredentialsSecretReference "" "") m
              "credentialsSecret" with
      | Ok site, Ok tenant, Ok itype, Ok mid, Ok unhealthy, Ok vpc, Ok subnet,
        Ok more, Ok udata, Ok keys, Ok labels, Ok creds =>
          Ok (mkProviderSpec site tenant itype mid unhealthy vpc subnet more udata keys
                labels creds)
      | _, _, _, _, _, _, _, _, _, _, _, _ => Err typeError
      end
  | _ => Err typeError
  end.

Definition unmarshalProviderStatus (v : JSON) : result NvidiaBMMMachineProviderStatus :=
  match v with
  | JNull => Ok emptyStatus
  | JObject m =>
      match decodeField intoString "" m "kind",
            decodeField intoString "" m "apiVersion",
            decodeField intoStringPtr None m "instanceId",
            decodeField intoStringPtr None m "machineId",
            decodeField intoStringPtr None m "instanceState",
            decodeSlice (mkMachineAddress "" "") intoMachineAddress m "addresses",
            decodeSlice zeroCondition intoCondition m "conditions" with
      | Ok k, Ok v, Ok i, Ok mid, Ok s, Ok addrs, Ok conds =>
          Ok (mkProviderStatus k v i mid s addrs conds)
      | _, _, _, _, _, _, _ => Err typeError
      end
  | _ => Err typeError
  end.

Definition marshalProviderStatus (s : NvidiaBMMMachineProviderStatus)
    : result (gmap string JSON) :=
  Ok (ProviderStatus_JSON Condition_JSON s).

Definition codec : JSONCodec :=
  {| Unmarshal_ProviderSpec := unmarshalProviderSpec;
     Unmarshal_ProviderStatus := unmarshalProviderStatus;
     Marshal_ProviderStatus := marshalProviderStatus |}.

(** *** The Kubernetes client *)

Definition key_eqb (a b : ObjectKey) : bool :=
  String.eqb (Key_Name a) (Key_Name b) && String.eqb (Key_Namespace a) (Key_Namespace b).

Fixpoint lookupKey {A} (key : ObjectKey) (l : list (ObjectKey * A)) : option A :=
  match l with
  | [] => None
  | (k, a) :: l' => if key_eqb key k then Some a else lookupKey key l'
  end.

(** An in-memory API server: the secrets and machines it holds, the error
    it answers an update or a status update with (if any), and the objects
    it has accepted. *)
Record FakeK8s : Type := mkFakeK8s {
  secrets : list (ObjectKey * Secret);
  machines : list (ObjectKey * Machine);
  updateError : option error;
  statusUpdateError : option error;
  accepted : list runtime_Object
}.

Definition fakeWrite (err : option error) (o : runtime_Object) (k : FakeK8s)
    : option error * FakeK8s :=
  match err with
  | Some e => (Some e, k)
  | None =>
      (None, {| secrets := secrets k; machines := machines k;
                updateError := updateError k;
                statusUpdateError := statusUpdateError k;
                accepted := accepted k ++ [o] |})
  end.

Definition fakeClient : Client FakeK8s :=
  {| Client_Get_Secret key k :=
       match lookupKey key (secrets k) with
       | Some s => Ok s
       | None => Err (Errorf "secrets not found")
       end;
     Client_Get_Machine key k :=
       match lookupKey key (machines k) with
       | Some m => MachineFound m
       | None => MachineNotFound (Errorf "machines not found")
       end;
     Client_Update o k := fakeWrite (updateError k) o k;
     Client_Status_Update o k := fakeWrite (statusUpdateError k) o k |}.

(** *** The mock platform client ([mockNvidiaBmmClient]) *)

(** [uuid.New()]: the [n]-th fresh identifier. *)
Definition newUUID (n : nat) : uuid.UUID :=
  uuid.mkUUID x00 x00 x00 x00 x00 x00 x40 x00 x80 x00 x00 x00 x00 x00 x00
    (default x00 (Byte.of_N (N.of_nat n mod 256))).

(** The three optional overrides of the mock and the number of instances
    it has handed out. *)
Record MockBmm : Type := mkMockBmm {
  createInstanceFunc :
    option (string -> restclient.CreateInstanceJSONRequestBody ->
            result restclient.CreateInstanceResponse);
  getInstanceFunc :
    option (string -> uuid.UUID -> result restclient.GetInstanceResponse);
  deleteInstanceFunc :
    option (string -> uuid.UUID -> result restclient.DeleteInstanceResponse);
  created : nat
}.

Definition mockClient : NvidiaBMMClientInterface MockBmm :=
  {| NewClientWithAuth endpoint token := Ok (ClientWithAuth endpoint token);
     CreateInstanceWithResponse _ org body p :=
       match createInstanceFunc p with
       | Some f => (f org body, p)
       | None =>
           (* Default: return success *)
           (Ok {| restclient.JSON201 :=
                    Some {| restclient.Id := Some (newUUID (created p));
                            restclient.Instance_MachineId := None;
                            restclient.Status := None;
                            restclient.Instance_Interfaces := None |};
                  restclient.CreateInstanceResponse_StatusCode := 201 |},
            {| createInstanceFunc := createInstanceFunc p;
               getInstanceFunc := getInstanceFunc p;
               deleteInstanceFunc := deleteInstanceFunc p;
               created := S (created p) |})
       end;
     GetInstanceWithResponse _ org instanceId p :=
       match getInstanceFunc p with
       | Some f => (f org instanceId, p)
       | None =>
           (Ok {| restclient.JSON200 :=
                    Some {| restclient.Id := Some instanceId;
                            restclient.Instance_MachineId := None;
                            restclient.Status := None;
                            restclient.Instance_Interfaces := None |};
                  restclient.GetInstanceResponse_StatusCode := 200 |}, p)
       end;
     DeleteInstanceWithResponse _ org instanceId p :=
       match deleteInstanceFunc p with
       | Some f => (f org instanceId, p)
       | None => (Ok {| restclient.StatusCode := 204 |}, p)
       end |}.

Definition defaultMock : MockBmm :=
  {| createInstanceFunc := None; getInstanceFunc := None;
     deleteInstanceFunc := None; created := 0 |}.

(** *** The fixtures of the integration suite *)

(** [machine.NewActuatorWithClient(k8sClient, nil, mockClient, "test-org")] *)
Definition actuator : machine_actuator.Actuator :=
  machine_actuator.NewActuatorWithClient false InjectedClient "test-org".

(** The provider spec of the suite's [BeforeEach], as the document holds it. *)
Definition providerSpecValue : JSON :=
  JObject (list_to_map
    [("siteId", JString "8a880c71-fe4b-4e43-9e24-ebfcb8a84c5f");
     ("tenantId", JString "b013708a-99f0-47b2-a630-cabb4ae1d3df");
     ("vpcId", JString "9bb2d7d0-a017-4018-a212-a3d6b38e4ec9");
     ("subnetId", JString "63e3909a-dfae-4b8e-8090-3269c5d2a2da");
     ("credentialsSecret",
      JObject (list_to_map [("name", JString "nvidia-bmm-creds");
                            ("namespace", JString "test-ns")]))]).

(** [createTestMachine("test-machine", namespace, providerSpec)] *)
Definition testMachine : gmap string JSON :=
  list_to_map
    [("apiVersion", JString "machine.openshift.io/v1beta1");
     ("kind", JString "Machine");
     ("metadata", JObject (list_to_map [("name", JString "test-machine");
                                        ("namespace", JString "test-ns")]));
     ("spec", JObject (list_to_map
        [("providerSpec", JObject (list_to_map [("value", providerSpecValue)]))]))].

Definition credentials : Secret :=
  {| Data := list_to_map [("endpoint", "https://api.nvidia-bmm.test");
                          ("orgName", "test-org");
                          ("token", "test-token")] |}.

Definition apiServer : FakeK8s :=
  {| secrets := [({| Key_Name := "nvidia-bmm-creds"; Key_Namespace := "test-ns" |},
                  credentials)];
     machines := [];
     updateError := None;
     statusUpdateError := None;
     accepted := [] |}.

(** The state a method starts from: the object, the two collaborators and
    an empty trace. *)
Definition initial (o : runtime_Object) (k : FakeK8s) (p : MockBmm)
    : State FakeK8s MockBmm :=
  {| machine := o; k8s := k; platform := p; trace := [] |}.

(** The test machine without its [spec] subtree. *)
Definition machineWithoutSpec : gmap string JSON := delete "spec" testMachine.

(** The test machine with a recorded instance in state [Ready] on a known
    physical machine. *)
Definition readyMachine : gmap string JSON :=
  <["status" := JObject (list_to_map
      [("providerStatus", JObject (list_to_map
          [("instanceId", JString "00000000-0000-4000-8000-000000000000");
           ("machineId", JString "machine-1");
           ("instanceState", JString "Ready")]))])]> testMachine.

(** A mock whose get-instance call fails, as on a network error. *)
Definition flakyMock : MockBmm :=
  {| createInstanceFunc := None;
     getInstanceFunc := Some (fun _ _ => Err (Errorf "connection refused"));
     deleteInstanceFunc := None;
     created := 0 |}.

(** Typed machines as the reconciler fetches them: a new one, one being
    deleted that holds the finalizer, and one being deleted that does not
    (another finalizer keeps it alive). *)
Definition machineKey : ObjectKey :=
  {| Key_Name := "test-machine"; Key_Namespace := "test-ns" |}.

Definition newMachine : Machine :=
  {| Machine_Name := "test-machine"; Finalizers := []; DeletionTimestamp := None;
     Machine_Spec := JObject (list_to_map
       [("providerSpec", JObject (list_to_map [("value", providerSpecValue)]))]);
     Machine_Status := JNull |}.

Definition deletingMachine : Machine :=
  {| Machine_Name := "test-machine";
     Finalizers := ["machine.openshift.io/nvidia-bmm"];
     DeletionTimestamp := Some 1735689600%Z;
     Machine_Spec := Machine_Spec newMachine;
     Machine_Status := JNull |}.

Definition deletingMachineWithoutFinalizer : Machine :=
  {| Machine_Name := "test-machine";
     Finalizers := ["example.com/other-controller"];
     DeletionTimestamp := Some 1735689600%Z;
     Machine_Spec := Machine_Spec newMachine;
     Machine_Status := JNull |}.

Definition apiServerWith (m : Machine) : FakeK8s :=
  {| secrets := secrets apiServer;
     machines := [(machineKey, m)];
     updateError := None;
     statusUpdateError := None;
     accepted := [] |}.

(** The test machine before anything was created. *)
Definition fresh : State FakeK8s MockBmm :=
  initial (Unstructured testMachine) apiServer defaultMock.

(** The state after a first [Create]. *)
Definition provisioned : State FakeK8s MockBmm :=
  snd (@machine_actuator.Create _ _ fakeClient mockClient codec actuator fresh).

(** The reconciler of the repository over the test collaborators. *)
Definition reconciler : machine_controller.MachineReconciler FakeK8s MockBmm :=
  @machine_controller.NewMachineReconciler _ _ fakeClient mockClient codec actuator.

(** The state before a pass over machine [m]: no object in hand yet. *)
Definition idle (m : Machine) : State FakeK8s MockBmm :=
  initial NotClientObject (apiServerWith m) defaultMock.

End envtest.
(** ** Observations used by the further properties *)

(** [uuid.Parse] accepts the string. *)
Definition validUUID (s : string) : bool := is_ok (uuid.Parse s).

(** The writes to the API server a trace holds. *)
Definition is_k8s_write (c : Call) : bool :=
  match c with
  | K8sUpdate _ | K8sStatusUpdate _ => true
  | _ => false
  end.

Definition k8s_writes (t : list Call) : list Call := List.filter is_k8s_write t.

(** The three kinds of remote call. *)
Definition is_create_call (c : Call) : bool :=
  match c with BmmCreateInstance _ _ _ => true | _ => false end.

Definition is_get_call (c : Call) : bool :=
  match c with BmmGetInstance _ _ _ => true | _ => false end.

Definition is_delete_call (c : Call) : bool :=
  match c with BmmDeleteInstance _ _ _ => true | _ => false end.

(** [after] holds the remote calls of [before] and at most one more, of the
    kind [kind]. *)
Definition at_most_one_remote (kind : Call -> bool) (before after : list Call) : Prop :=
  remote_calls after = remote_calls before \/
  exists c, kind c = true /\ remote_calls after = (remote_calls before ++ [c])%list.

(** The dynamic type [getProviderSpec] and its siblings assert. *)
Definition is_unstructured (o : runtime_Object) : bool :=
  match o with
  | Unstructured _ => true
  | _ => false
  end.

(** The state [st] after the further calls [l]. *)
Definition extend {K P : Type} (st : State K P) (l : list Call) : State K P :=
  {| machine := machine st; k8s := k8s st; platform := platform st;
     trace := (trace st ++ l)%list |}.

(** The key of the credentials secret a spec names. *)
Definition secretKeyOf (spec : v1beta1.NvidiaBMMMachineProviderSpec) : ObjectKey :=
  {| Key_Name := v1beta1.Name (v1beta1.CredentialsSecret spec);
     Key_Namespace := v1beta1.Namespace (v1beta1.CredentialsSecret spec) |}.

(** The error of the two type assertions every method of the actuator goes
    through: to [client.Object] in the method, to the unstructured type in
    the first helper it calls, whose error the method wraps with [msg]. *)
Definition typeAssertionError (msg : string) (o : runtime_Object) : error :=
  if is_client_Object o then Wrapf msg (Errorf "machine is not unstructured")
  else Errorf "machine is not a client.Object".

(** ** Package [pkg/controllers/machine]: the MachineSet reconciler *)

Module machineset_controller.

Import machine_controller.

(** [int32(z)]: the value wrapped into 32 bits, two's complement. *)
Definition int32 (z : Z) : Z := ((z + 2 ^ 31) mod 2 ^ 32 - 2 ^ 31)%Z.

(** [machinev1beta1.MachineSet]: its name and [Spec.Replicas]. *)
Record MachineSet : Type := mkMachineSet {
  MachineSet_Name : string;
  Replicas : option Z
}.

Inductive GetMachineSetResult : Type :=
| MachineSetFound (machineSet : MachineSet)
| MachineSetNotFound (e : error)
| MachineSetGetError (e : error).

(** The methods of the embedded [client.Client] this reconciler uses, and
    [errors.IsNotFound]. *)
Class SetClient (K : Type) : Type := {
  Client_Get_MachineSet : ObjectKey -> K -> GetMachineSetResult;
  Client_Delete : runtime_Object -> K -> option error * K;
  IsNotFound : error -> bool
}.

(** What a pass sends to the API server. *)
Inductive Request : Type :=
| GetMachineSet (key : ObjectKey)
| DeleteObject (o : runtime_Object).

Section SetReconciler.

Context {K : Type} `{!SetClient K}.

(** The API server and the requests sent to it so far. *)
Record SetState : Type := mkSetState {
  api : K;
  requests : list Request
}.

(** [func (r *MachineSetReconciler) createMachine(ctx, machineSet)]: a
    placeholder that logs and returns [nil]. *)
Definition createMachine (machineSet : MachineSet) (s : SetState)
    : outcome unit * SetState :=
  (Return tt, s).

(** [func (r *MachineSetReconciler) deleteMachine(ctx, machine runtime.Object)] *)
Definition deleteMachine (machine : runtime_Object) (s : SetState)
    : outcome unit * SetState :=
  if negb (is_client_Object machine)
  then (Raise (Errorf "machine is not a client.Object"), s)
  else
    (* Delete the Machine resource *)
    let '(err, k') := Client_Delete machine (api s) in
    let s' := {| api := k'; requests := requests s ++ [DeleteObject machine] |} in
    match err with
    | Some e =>
        if negb (IsNotFound e)
        then (Raise (Wrapf "failed to delete machine" e), s')
        else (Return tt, s')
    | None => (Return tt, s')
    end.

(** [for i := int32(0); i < diff; i++ { r.createMachine(ctx, machineSet) }],
    with the iterations left to run. *)
Fixpoint scaleUp (iterations : nat) (machineSet : MachineSet) (s : SetState)
    : outcome unit * SetState :=
  match iterations with
  | O => (Return tt, s)
  | S n =>
      match createMachine machineSet s with
      | (Return _, s') => scaleUp n machineSet s'
      | r => r
      end
  end.

(** [for i := int32(0); i < diff; i++ { if i < int32(len(currentMachines))
    { r.deleteMachine(ctx, currentMachines[i]) } }], from index [i] on. *)
Fixpoint scaleDown (iterations : nat) (i : Z) (currentMachines : list runtime_Object)
    (s : SetState) : outcome unit * SetState :=
  match iterations with
  | O => (Return tt, s)
  | S n =>
      if (i <? int32 (Z.of_nat (List.length currentMachines)))%Z
      then
        match List.nth_error currentMachines (Z.to_nat i) with
        | None => (Panic, s)
        | Some machine =>
            match deleteMachine machine s with
            | (Return _, s') => scaleDown n (i + 1) currentMachines s'
            | r => r
            end
        end
      else scaleDown n (i + 1) currentMachines s
  end.

(** The body of [Reconcile] from the replica counts on, over the machines
    that were listed. *)
Definition reconcileReplicas (machineSet : MachineSet)
    (currentMachines : list runtime_Object) (s : SetState)
    : outcome (Result * option error) * SetState :=
  (* Get desired replicas from spec *)
  let desiredReplicas := match Replicas machineSet with Some n => n | None => 0%Z end in
  let currentReplicas := int32 (Z.of_nat (List.length currentMachines)) in
  (* Scale up if needed *)
  if (currentReplicas <? desiredReplicas)%Z
  then
    let diff := int32 (desiredReplicas - currentReplicas) in
    match scaleUp (Z.to_nat diff) machineSet s with
    | (Raise err, s') => (Return ({| Requeue := false; RequeueAfter := 10 |}, Some err), s')
    | (Panic, s') => (Panic, s')
    | (Return _, s') => (Return ({| Requeue := true; RequeueAfter := 0 |}, None), s')
    end
  else
  (* Scale down if needed *)
  if (desiredReplicas <? currentReplicas)%Z
  then
    let diff := int32 (currentReplicas - desiredReplicas) in
    match scaleDown (Z.to_nat diff) 0 currentMachines s with
    | (Raise err, s') => (Return ({| Requeue := false; RequeueAfter := 10 |}, Some err), s')
    | (Panic, s') => (Panic, s')
    | (Return _, s') => (Return ({| Requeue := true; RequeueAfter := 0 |}, None), s')
    end
  else (Return ({| Requeue := false; RequeueAfter := 30 |}, None), s).

(** [currentMachines := []runtime.Object{} // Placeholder] *)
Definition currentMachines : list runtime_Object := [].

(** [func (r *MachineSetReconciler) Reconcile(ctx, req ctrl.Request)] *)
Definition Reconcile (req : ObjectKey) (s : SetState)
    : outcome (Result * option error) * SetState :=
  (* Fetch the MachineSet instance *)
  let s0 := {| api := api s; requests := requests s ++ [GetMachineSet req] |} in
  match Client_Get_MachineSet req (api s) with
  | MachineSetNotFound _ => (Return (Result_zero, None), s0)
  | MachineSetGetError err => (Return (Result_zero, Some err), s0)
  | MachineSetFound machineSet =>
      (* List current machines owned by this MachineSet *)
      reconcileReplicas machineSet currentMachines s0
  end.


End SetReconciler.

Arguments SetState : clear implicits.

End machineset_controller.

(** ** Sample values *)

Module samples.

Import v1beta1.

(** A spec with two additional subnets, an instance type and a machine id,
    two SSH key groups and a label. *)
Definition multiNicSpec : NvidiaBMMMachineProviderSpec :=
  {| SiteID := "not-a-uuid";
     TenantID := "b013708a-99f0-47b2-a630-cabb4ae1d3df";
     InstanceTypeID := "7c9e6679-7425-40de-944b-e07fc1f90ae7";
     MachineID := "machine-42";
     AllowUnhealthyMachine := false;
     VpcID := "9bb2d7d0-a017-4018-a212-a3d6b38e4ec9";
     SubnetID := "63e3909a-dfae-4b8e-8090-3269c5d2a2da";
     AdditionalSubnetIDs :=
       [ {| AdditionalSubnet_SubnetID := "0b2c9a34-6f1d-4f0e-9d55-2f4b1a6f7c10";
            AdditionalSubnet_IsPhysical := true |};
         {| AdditionalSubnet_SubnetID := "1c3dab45-7a2e-4a1f-8e66-3a5c2b7a8d21";
            AdditionalSubnet_IsPhysical := false |} ];
     UserData := "";
     SSHKeyGroupIDs := ["550e8400-e29b-41d4-a716-446655440000";
                        "6ba7b810-9dad-11d1-80b4-00c04fd430c8"];
     Labels := {[ "role" := "worker" ]};
     CredentialsSecret := {| Name := "nvidia-bmm-creds"; Namespace := "test-ns" |} |}.

(** The machine of the integration suite around another provider spec. *)
Definition machineWith (specValue : unstructured.JSON) : gmap string unstructured.JSON :=
  list_to_map
    [("apiVersion", unstructured.JString "machine.openshift.io/v1beta1");
     ("kind", unstructured.JString "Machine");
     ("metadata", unstructured.JObject (list_to_map
        [("name", unstructured.JString "test-machine");
         ("namespace", unstructured.JString "test-ns")]));
     ("spec", unstructured.JObject (list_to_map
        [("providerSpec", unstructured.JObject (list_to_map [("value", specValue)]))]))].

(** The suite's provider spec with a subnet that is no UUID. *)
Definition badSubnetSpecValue : unstructured.JSON :=
  unstructured.JObject (list_to_map
    [("siteId", unstructured.JString "8a880c71-fe4b-4e43-9e24-ebfcb8a84c5f");
     ("tenantId", unstructured.JString "b013708a-99f0-47b2-a630-cabb4ae1d3df");
     ("vpcId", unstructured.JString "9bb2d7d0-a017-4018-a212-a3d6b38e4ec9");
     ("subnetId", unstructured.JString "subnet-1");
     ("credentialsSecret",
      unstructured.JObject (list_to_map
        [("name", unstructured.JString "nvidia-bmm-creds");
         ("namespace", unstructured.JString "test-ns")]))]).

(** A platform that refuses to create instances. *)
Definition refusingMock : envtest.MockBmm :=
  {| envtest.createInstanceFunc := Some (fun _ _ => Err (Errorf "quota exceeded"));
     envtest.getInstanceFunc := None;
     envtest.deleteInstanceFunc := None;
     envtest.created := 0 |}.

(** A platform whose create call answers with an instance without id. *)
Definition anonymousMock : envtest.MockBmm :=
  {| envtest.createInstanceFunc :=
       Some (fun _ _ =>
         Ok {| restclient.JSON201 :=
                 Some {| restclient.Id := None;
                         restclient.Instance_MachineId := None;
                         restclient.Status := None;
                         restclient.Instance_Interfaces := None |};
               restclient.CreateInstanceResponse_StatusCode := 201 |});
     envtest.getInstanceFunc := None;
     envtest.deleteInstanceFunc := None;
     envtest.created := 0 |}.

(** An API server that rejects status updates, and one that rejects
    updates. *)
Definition statusRejecting : envtest.FakeK8s :=
  {| envtest.secrets := envtest.secrets envtest.apiServer;
     envtest.machines := [];
     envtest.updateError := None;
     envtest.statusUpdateError := Some (Errorf "conflict");
     envtest.accepted := [] |}.

Definition updateRejecting : envtest.FakeK8s :=
  {| envtest.secrets := envtest.secrets envtest.apiServer;
     envtest.machines := [];
     envtest.updateError := Some (Errorf "conflict");
     envtest.statusUpdateError := None;
     envtest.accepted := [] |}.

(** [machine.NewActuator(k8sClient, nil)]: the credentials come from the
    secret. *)
Definition secretActuator : machine_actuator.Actuator :=
  machine_actuator.NewActuator false.

(** The suite's machine with a recorded instance id that is no UUID. *)
Definition machineWithBadInstanceId : gmap string unstructured.JSON :=
  <["status" := unstructured.JObject (list_to_map
      [("providerStatus", unstructured.JObject (list_to_map
          [("instanceId", unstructured.JString "i-0123456789")]))])]>
    envtest.testMachine.

(** A status as [Update] could leave it. *)
Definition readyStatus : v1beta1.NvidiaBMMMachineProviderStatus :=
  {| v1beta1.Status_Kind := ""; v1beta1.Status_APIVersion := "";
     v1beta1.InstanceID := Some "00000000-0000-4000-8000-000000000000";
     v1beta1.Status_MachineID := Some "machine-1";
     v1beta1.InstanceState := Some "Ready";
     v1beta1.Addresses := [ {| v1beta1.Type_ := "InternalIP";
                               v1beta1.Address := "10.0.0.5" |} ];
     v1beta1.Conditions := [] |}.

(** An API server for the MachineSet reconciler: the machine sets it
    holds and the objects it deleted; every delete is accepted. *)
Record FakeSets : Type := mkFakeSets {
  machineSets : list (ObjectKey * machineset_controller.MachineSet);
  deleted : list runtime_Object
}.

Definition fakeSetClient : machineset_controller.SetClient FakeSets :=
  {| machineset_controller.Client_Get_MachineSet key k :=
       match envtest.lookupKey key (machineSets k) with
       | Some machineSet => machineset_controller.MachineSetFound machineSet
       | None => machineset_controller.MachineSetNotFound (Errorf "machinesets not found")
       end;
     machineset_controller.Client_Delete o k :=
       (None, {| machineSets := machineSets k; deleted := deleted k ++ [o] |});
     machineset_controller.IsNotFound e :=
       String.eqb (error_msg e) "not found" |}.




End samples.


(** * Properties *)

Example uuid_parse_canonical :
  is_ok (uuid.Parse "550e8400-e29b-41d4-a716-446655440000") = true.
Proof. reflexivity. Qed.

Example uuid_parse_rejects : is_ok (uuid.Parse "not-a-uuid") = false.
Proof. reflexivity. Qed.

Section StringLemmas.

Lemma HasPrefix_app (p s : string) : strings.HasPrefix (p ++ s) p = true.
Proof.
  induction p as [|c p IH]; simpl; [done|].
  by rewrite Ascii.eqb_refl, IH.
Qed.

Lemma drop_app (p s : string) : strings.drop (String.length p) (p ++ s) = s.
Proof. induction p as [|c p IH]; simpl; [by destruct s|done]. Qed.

Lemma TrimPrefix_app (p s : string) : strings.TrimPrefix (p ++ s) p = s.
Proof. unfold strings.TrimPrefix. by rewrite HasPrefix_app, drop_app. Qed.

Lemma append_single (c : ascii) (t : string) : String c "" ++ t = String c t.
Proof. reflexivity. Qed.

Lemma Split_nonempty (s : string) (sep : ascii) : strings.Split s sep <> [].
Proof.
  induction s as [|c s IH]; simpl; [done|].
  destruct (Ascii.eqb c sep); [done|].
  by destruct (strings.Split s sep).
Qed.

(** A piece without separator in front of a separator is the first piece. *)
Lemma Split_app (a rest : string) (sep : ascii) :
  strings.Contains a sep = false ->
  strings.Split (a ++ String sep rest) sep = a :: strings.Split rest sep.
Proof.
  induction a as [|c a IH]; simpl; intros H.
  - by rewrite Ascii.eqb_refl.
  - apply orb_false_iff in H as [Hc Ha].
    rewrite Hc, (IH Ha). done.
Qed.

Lemma Split_single (a : string) (sep : ascii) :
  strings.Contains a sep = false -> strings.Split a sep = [a].
Proof.
  induction a as [|c a IH]; simpl; intros H; [done|].
  apply orb_false_iff in H as [Hc Ha].
  by rewrite Hc, (IH Ha).
Qed.

End StringLemmas.

Section UUIDLemmas.

Lemma xtob_hex (b : byte) :
  uuid.xtob (uuid.hextable (uuid.hi b)) (uuid.hextable (uuid.lo b)) = Some b.
Proof. destruct b; vm_compute; reflexivity. Qed.

Lemma hextable_hi_not (b : byte) (c : ascii) :
  uuid.xvalues c = 255%N -> Ascii.eqb (uuid.hextable (uuid.hi b)) c = false.
Proof.
  intros Hc. destruct (Ascii.eqb_spec (uuid.hextable (uuid.hi b)) c) as [<-|]; [|done].
  exfalso. revert Hc. destruct b; vm_compute; discriminate.
Qed.

Lemma hextable_lo_not (b : byte) (c : ascii) :
  uuid.xvalues c = 255%N -> Ascii.eqb (uuid.hextable (uuid.lo b)) c = false.
Proof.
  intros Hc. destruct (Ascii.eqb_spec (uuid.hextable (uuid.lo b)) c) as [<-|]; [|done].
  exfalso. revert Hc. destruct b; vm_compute; discriminate.
Qed.

(** [Parse] inverts [String]. *)
Lemma Parse_String (u : uuid.UUID) : uuid.Parse (uuid.UUID_String u) = Ok u.
Proof.
  destruct u as [a0 a1 a2 a3 a4 a5 a6 a7 a8 a9 a10 a11 a12 a13 a14 a15].
  cbv -[uuid.xtob uuid.hextable uuid.hi uuid.lo].
  rewrite !xtob_hex. reflexivity.
Qed.

(** The canonical form holds hexadecimal digits and hyphens only. *)
Lemma String_no_sep (u : uuid.UUID) (c : ascii) :
  uuid.xvalues c = 255%N -> c <> "-"%char ->
  strings.Contains (uuid.UUID_String u) c = false.
Proof.
  intros Hc Hm.
  destruct u as [a0 a1 a2 a3 a4 a5 a6 a7 a8 a9 a10 a11 a12 a13 a14 a15].
  assert (Hd : Ascii.eqb "-" c = false).
  { destruct (Ascii.eqb_spec "-"%char c); congruence. }
  cbv -[uuid.hextable uuid.hi uuid.lo Ascii.eqb orb].
  rewrite !hextable_hi_not, !hextable_lo_not, Hd by done. reflexivity.
Qed.

End UUIDLemmas.

(** ** The provider-identity codec *)

Section ProviderIDCodec.

Import providerid.

(** Case analysis of [ParseProviderID], shared by the results below. *)
Lemma ParseProviderID_unfold (s : string) :
  ParseProviderID s =
  if strings.HasPrefix s ProviderPrefix then
    match segments s with
    | [p0; p1; p2] =>
        match uuid.Parse p2 with
        | Err c => Err (errInvalidInstanceID c)
        | Ok i => Ok (mkProviderID p0 "" p1 i)
        end
    | [p0; p1; p2; p3] =>
        match uuid.Parse p3 with
        | Err c => Err (errInvalidInstanceID c)
        | Ok i => Ok (mkProviderID p0 p1 p2 i)
        end
    | _ => Err errInvalidFormat
    end
  else Err errInvalidPrefix.
Proof.
  unfold ParseProviderID, segments.
  destruct (strings.HasPrefix s ProviderPrefix); reflexivity.
Qed.

(** C3: decoding the encoding of (org, tenant, site, i) gives back the
    four components, for segments without ['/'] and every UUID [i]. *)
Theorem roundtrip_ParseProviderID_String (org tenant site : string) (i : uuid.UUID) :
  strings.Contains org "/" = false ->
  strings.Contains tenant "/" = false ->
  strings.Contains site "/" = false ->
  ParseProviderID (ProviderID_String (NewProviderID org tenant site i))
  = Ok {| OrgName := org; TenantName := tenant; SiteName := site; InstanceID := i |}.
Proof.
  intros Ho Ht Hs.
  rewrite ParseProviderID_unfold. unfold segments, ProviderID_String, NewProviderID.
  cbn [OrgName TenantName SiteName InstanceID].
  rewrite HasPrefix_app, TrimPrefix_app.
  rewrite !append_single.
  rewrite (Split_app org), (Split_app tenant), (Split_app site) by assumption.
  rewrite Split_single by (by apply String_no_sep).
  by rewrite Parse_String.
Qed.

Lemma roundtrip_ParseProviderID_String_witness :
  ParseProviderID (ProviderID_String (NewProviderID "test-org" "test-tenant" "test-site"
      (uuid.mkUUID x55 x0e x84 x00 xe2 x9b x41 xd4 xa7 x16 x44 x66 x55 x44 x00 x00)))
  = Ok {| OrgName := "test-org"; TenantName := "test-tenant"; SiteName := "test-site";
          InstanceID := uuid.mkUUID x55 x0e x84 x00 xe2 x9b x41 xd4 xa7 x16 x44 x66 x55 x44 x00 x00 |}.
Proof. apply roundtrip_ParseProviderID_String; reflexivity. Defined.

(** C9: the legacy three-segment form [nvidia-bmm://<org>/<site>/<uuid>]
    with a valid UUID literal decodes with an empty tenant and the three
    given segments. *)
Theorem ParseProviderID_legacy (org site lit : string) (i : uuid.UUID) :
  strings.Contains org "/" = false ->
  strings.Contains site "/" = false ->
  strings.Contains lit "/" = false ->
  uuid.Parse lit = Ok i ->
  ParseProviderID (ProviderPrefix ++ org ++ "/" ++ site ++ "/" ++ lit)
  = Ok {| OrgName := org; TenantName := ""; SiteName := site; InstanceID := i |}.
Proof.
  intros Ho Hs Hl Hi.
  rewrite ParseProviderID_unfold. unfold segments.
  rewrite HasPrefix_app, TrimPrefix_app.
  rewrite !append_single.
  rewrite (Split_app org), (Split_app site), (Split_single lit) by assumption.
  by rewrite Hi.
Qed.

Lemma ParseProviderID_legacy_witness :
  ParseProviderID "nvidia-bmm://acme/site1/550e8400-e29b-41d4-a716-446655440000"
  = Ok {| OrgName := "acme"; TenantName := ""; SiteName := "site1";
          InstanceID := uuid.mkUUID x55 x0e x84 x00 xe2 x9b x41 xd4 xa7 x16 x44 x66 x55 x44 x00 x00 |}.
Proof.
  apply (ParseProviderID_legacy "acme" "site1" "550e8400-e29b-41d4-a716-446655440000");
    reflexivity.
Defined.

Lemma ParseProviderID_outcome (s : string) : ParseOutcome s (ParseProviderID s).
Proof.
  rewrite ParseProviderID_unfold.
  destruct (strings.HasPrefix s ProviderPrefix) eqn:Hp; [|by constructor].
  destruct (segments s) as [|p0 [|p1 [|p2 [|p3 [|p4 ps]]]]] eqn:Hs.
  - apply OutcomeSegmentCount; rewrite ?Hs; done.
  - apply OutcomeSegmentCount; rewrite ?Hs; done.
  - apply OutcomeSegmentCount; rewrite ?Hs; done.
  - destruct (uuid.Parse p2) as [i|c] eqn:Hi.
    + by eapply OutcomeLegacy.
    + apply OutcomeInstanceID; rewrite ?Hs; [done|by left|done].
  - destruct (uuid.Parse p3) as [i|c] eqn:Hi.
    + by eapply OutcomeFull.
    + apply OutcomeInstanceID; rewrite ?Hs; [done|by right|done].
  - apply OutcomeSegmentCount; rewrite ?Hs; done.
Qed.

(** Closes a case once the outcome of the parse is known: the hypotheses
    are taken apart and the goal follows by constructor reasoning. *)
Ltac close_case :=
  intros;
  repeat match goal with
         | H : _ /\ _ |- _ => destruct H
         | H : _ \/ _ |- _ => destruct H
         | H : ex _ |- _ => destruct H
         end;
  solve [ discriminate | congruence | lia | reflexivity ].

(** C8: [ParseProviderID] fails exactly when the prefix is missing
    (invalid prefix), when the remainder does not split into 3 or 4
    segments (invalid format), or when the last segment is not a UUID
    literal (invalid instance ID); otherwise it succeeds and returns the
    org / tenant / site segments verbatim, empty ones included. *)
Theorem ParseProviderID_failure_cases (s : string) :
  let n := List.length (segments s) in
  let final := List.last (segments s) "" in
  (ParseProviderID s = Err errInvalidPrefix <->
     strings.HasPrefix s ProviderPrefix = false) /\
  (ParseProviderID s = Err errInvalidFormat <->
     strings.HasPrefix s ProviderPrefix = true /\ n <> 3%nat /\ n <> 4%nat) /\
  ((exists c, ParseProviderID s = Err (errInvalidInstanceID c)) <->
     strings.HasPrefix s ProviderPrefix = true /\ (n = 3%nat \/ n = 4%nat) /\
     is_ok (uuid.Parse final) = false) /\
  (forall p, ParseProviderID s = Ok p <->
     strings.HasPrefix s ProviderPrefix = true /\
     uuid.Parse final = Ok (InstanceID p) /\
     (segments s = [OrgName p; SiteName p; final] /\ TenantName p = ""
      \/ segments s = [OrgName p; TenantName p; SiteName p; final])) /\
  (n = 2%nat \/ (5 <= n)%nat -> is_ok (ParseProviderID s) = false).
Proof.
  intros n final. subst n final.
  pose proof (ParseProviderID_outcome s) as H.
  destruct H as [Hp|Hp H3 H4|c Hp Hn Hc|org site lit i Hp Hs Hi|org tenant site lit i Hp Hs Hi];
    rewrite Hp; try rewrite Hs; cbn [List.length List.last];
    try rewrite Hi; try rewrite Hc; cbn [is_ok].
  - (* no prefix *)
    split; [split; close_case|].
    split; [split; close_case|].
    split; [split; close_case|].
    split; [intros p; split; close_case|close_case].
  - (* wrong number of segments *)
    split; [split; close_case|].
    split; [split; close_case|].
    split; [split; close_case|].
    split; [intros p; split; [close_case|]|close_case].
    intros (_ & _ & [[Hs _]|Hs]); rewrite Hs in *; done.
  - (* last segment is not a UUID *)
    split; [split; close_case|].
    split; [split; close_case|].
    split; [split; [close_case|by exists c]|].
    split; [intros p; split; close_case|close_case].
  - (* legacy form *)
    split; [split; close_case|].
    split; [split; close_case|].
    split; [split; close_case|].
    split; [intros p; split|close_case].
    + intros [= <-]. cbn [OrgName TenantName SiteName InstanceID]. by auto.
    + destruct p as [q0 q1 q2 q3]; cbn [OrgName TenantName SiteName InstanceID].
      close_case.
  - (* four-segment form *)
    split; [split; close_case|].
    split; [split; close_case|].
    split; [split; close_case|].
    split; [intros p; split|close_case].
    + intros [= <-]. cbn [OrgName TenantName SiteName InstanceID]. by auto.
    + destruct p as [q0 q1 q2 q3]; cbn [OrgName TenantName SiteName InstanceID].
      close_case.
Qed.

End ProviderIDCodec.

(** ** Nested fields of a document *)

Section NestedFields.

Import unstructured.

Lemma SetNestedField_single (obj : gmap string JSON) (v : JSON) (f : string) :
  SetNestedField obj v [f] = Ok (<[f := v]> obj).
Proof. reflexivity. Qed.

Lemma SetNestedField_cons (obj : gmap string JSON) (v : JSON) (f g : string)
    (gs : list string) :
  SetNestedField obj v (f :: g :: gs) =
  match obj !! f with
  | Some (JObject m) =>
      match SetNestedField m v (g :: gs) with
      | Ok m' => Ok (<[f := JObject m']> obj)
      | Err e => Err e
      end
  | Some _ => Err setError
  | None =>
      match SetNestedField ∅ v (g :: gs) with
      | Ok m' => Ok (<[f := JObject m']> obj)
      | Err e => Err e
      end
  end.
Proof. reflexivity. Qed.

Lemma nestedField_cons (m : gmap string JSON) (f : string) (fs : list string) :
  nestedField (JObject m) (f :: fs) =
  match m !! f with
  | Some v => nestedField v fs
  | None => Ok None
  end.
Proof. reflexivity. Qed.

(** Reading back the path that was just set. *)
Lemma NestedFieldCopy_SetNestedField (fields : list string) :
  forall (obj obj' : gmap string JSON) (v : JSON),
    fields <> [] ->
    SetNestedField obj v fields = Ok obj' ->
    NestedFieldCopy obj' fields = Ok (Some v).
Proof.
  unfold NestedFieldCopy.
  induction fields as [|f fs IH]; intros obj obj' v Hne Hset; [done|].
  rewrite nestedField_cons.
  destruct fs as [|g gs].
  - rewrite SetNestedField_single in Hset. injection Hset as <-.
    by rewrite lookup_insert_eq.
  - rewrite SetNestedField_cons in Hset.
    destruct (obj !! f) as [[| | | | |m]|] eqn:Hf; try discriminate.
    + destruct (SetNestedField m v (g :: gs)) as [m'|] eqn:Hm; [|discriminate].
      injection Hset as <-. rewrite lookup_insert_eq. by eapply IH.
    + destruct (SetNestedField ∅ v (g :: gs)) as [m'|] eqn:Hm; [|discriminate].
      injection Hset as <-. rewrite lookup_insert_eq. by eapply IH.
Qed.

(** Setting a path leaves every path under another top-level key alone. *)
Lemma SetNestedField_other (f g : string) (fs gs : list string) :
  forall (obj obj' : gmap string JSON) (v : JSON),
    f <> g ->
    SetNestedField obj v (f :: fs) = Ok obj' ->
    NestedFieldCopy obj' (g :: gs) = NestedFieldCopy obj (g :: gs).
Proof.
  intros obj obj' v Hfg Hset. unfold NestedFieldCopy. rewrite !nestedField_cons.
  assert (Hl : obj' !! g = obj !! g); [|by rewrite Hl].
  destruct fs as [|h hs].
  - rewrite SetNestedField_single in Hset. injection Hset as <-.
    by rewrite lookup_insert_ne.
  - rewrite SetNestedField_cons in Hset.
    destruct (obj !! f) as [[| | | | |m]|]; try discriminate.
    + destruct (SetNestedField m v (h :: hs)); [|discriminate].
      injection Hset as <-. by rewrite lookup_insert_ne.
    + destruct (SetNestedField ∅ v (h :: hs)); [|discriminate].
      injection Hset as <-. by rewrite lookup_insert_ne.
Qed.

End NestedFields.

(** ** The actuator *)

(** One step of symbolic execution: the monad's combinators are unfolded
    and the redexes they leave are reduced. *)
Ltac exec :=
  cbv beta iota delta [bind wrapf liftR ret fail panic attempt deref
                       getMachine setMachine record negb fst snd].

Ltac exec_in H :=
  cbv beta iota delta [bind wrapf liftR ret fail panic attempt deref
                       getMachine setMachine record negb fst snd] in H.


Section ActuatorProperties.

Import v1beta1 machine_actuator.

Context {K P : Type} `{!Client K} `{!NvidiaBMMClientInterface P} `{!JSONCodec}.

Implicit Types (a : Actuator) (st : State K P).

(** Only an unstructured object has a provider spec or status. *)
Lemma getProviderStatus_Ok (o : runtime_Object) (status : NvidiaBMMMachineProviderStatus) :
  getProviderStatus o = Ok status -> exists obj, o = Unstructured obj.
Proof. destruct o; [eauto|discriminate..]. Qed.

Lemma getProviderSpec_Ok (o : runtime_Object) (spec : NvidiaBMMMachineProviderSpec) :
  getProviderSpec o = Ok spec -> exists obj, o = Unstructured obj.
Proof. destruct o; [eauto|discriminate..]. Qed.

(** Resolving the client and the organisation touches the trace only. *)
Lemma getNvidiaBmmClient_frame a (spec : NvidiaBMMMachineProviderSpec) st :
  let st1 := snd (getNvidiaBmmClient a spec st) in
  machine st1 = machine st /\ k8s st1 = k8s st /\ platform st1 = platform st /\
  remote_calls (trace st1) = remote_calls (trace st).
Proof.
  unfold getNvidiaBmmClient.
  destruct (nvidiaBmmClient a) as [c|]; [done|].
  unfold bind, wrapf, clientGetSecret. cbn [fst snd].
  destruct (Client_Get_Secret _ _) as [s|e]; cbn.
  2:{ unfold remote_calls. rewrite List.filter_app. cbn. by rewrite app_nil_r. }
  assert (Hr : remote_calls (trace st ++ [K8sGetSecret
            {| Key_Name := Name (CredentialsSecret spec);
               Key_Namespace := Namespace (CredentialsSecret spec) |}])
          = remote_calls (trace st)).
  { unfold remote_calls. rewrite List.filter_app. cbn. by rewrite app_nil_r. }
  destruct (Data s !! "endpoint"); [|done].
  destruct (Data s !! "orgName"); [|done].
  destruct (Data s !! "token"); [|done].
  destruct (NewClientWithAuth _ _); done.
Qed.

(** A readable status without instance id: [Exists] answers [false] and
    leaves the state as it is. *)
Lemma Exists_without_instance a st (status : NvidiaBMMMachineProviderStatus) :
  getProviderStatus (machine st) = Ok status ->
  InstanceID status = None ->
  Exists a st = (Return false, st).
Proof.
  intros Hstatus Hnone.
  assert (Hco : is_client_Object (machine st) = true).
  { by destruct (getProviderStatus_Ok _ _ Hstatus) as [obj ->]. }
  unfold Exists. exec. rewrite Hco. exec.
  rewrite Hstatus. exec. rewrite Hnone. reflexivity.
Qed.

(** C4: [Exists] on a resource without a recorded instance id returns
    [(false, nil)] and does nothing else; with a recorded id, once the
    get-instance call is reached, an error of the call gives [(false, nil)]
    and a response gives [true] exactly when it carries a payload. *)
Theorem Exists_outcome a st (status : NvidiaBMMMachineProviderStatus) :
  getProviderStatus (machine st) = Ok status ->
  (InstanceID status = None -> Exists a st = (Return false, st)) /\
  (forall instanceID spec c org st1 u,
     InstanceID status = Some instanceID ->
     getProviderSpec (machine st) = Ok spec ->
     getNvidiaBmmClient a spec st = (Return (c, org), st1) ->
     uuid.Parse instanceID = Ok u ->
     (forall e p', GetInstanceWithResponse c org u (platform st1) = (Err e, p') ->
        Exists a st = (Return false, afterCall st1 (BmmGetInstance c org u) p')) /\
     (forall resp p', GetInstanceWithResponse c org u (platform st1) = (Ok resp, p') ->
        exists b, Exists a st = (Return b, afterCall st1 (BmmGetInstance c org u) p') /\
                  (b = true <-> restclient.JSON200 resp <> None))).
Proof.
  intros Hstatus.
  assert (Hco : is_client_Object (machine st) = true).
  { by destruct (getProviderStatus_Ok _ _ Hstatus) as [obj ->]. }
  split.
  - intros Hnone. by eapply Exists_without_instance.
  - intros instanceID spec c org st1 u Hid Hspec Hclient Hu.
    unfold Exists. exec. rewrite Hco. exec.
    rewrite Hstatus. exec. rewrite Hid. exec.
    rewrite Hspec. exec. rewrite Hclient. exec.
    unfold parseUUID. rewrite Hu. exec.
    unfold callGetInstance, afterCall.
    split.
    + intros e p' Hcall. rewrite Hcall. reflexivity.
    + intros resp p' Hcall. rewrite Hcall. eexists; split; [reflexivity|].
      rewrite bool_decide_eq_true. split.
      * intros [i Hi]. congruence.
      * intros Hne. destruct (restclient.JSON200 resp); [eauto|done].
Qed.

(** [Delete] reads the provider spec before anything else. *)
Lemma Delete_spec_error a st (e : error) :
  is_client_Object (machine st) = true ->
  getProviderSpec (machine st) = Err e ->
  Delete a st = (Raise (Wrapf "failed to get provider spec" e), st).
Proof.
  intros Hco Hspec. unfold Delete. exec. rewrite Hco. exec.
  rewrite Hspec. reflexivity.
Qed.

(** C10: when [spec.providerSpec.value] is absent or does not decode,
    [Delete] returns the provider-spec error, whatever the status holds and
    so also without a recorded instance id, and does nothing else; [Exists]
    on a status without instance id still answers [(false, nil)]. *)
Theorem Delete_decodes_spec_first a st (obj : gmap string unstructured.JSON) :
  machine st = Unstructured obj ->
  (unstructured.NestedFieldCopy obj ["spec"; "providerSpec"; "value"] = Ok None \/
   exists v, unstructured.NestedFieldCopy obj ["spec"; "providerSpec"; "value"] = Ok (Some v) /\
             is_ok (Unmarshal_ProviderSpec v) = false) ->
  (exists e, Delete a st = (Raise (Wrapf "failed to get provider spec" e), st)) /\
  (forall status, getProviderStatus (machine st) = Ok status ->
                  InstanceID status = None ->
                  Exists a st = (Return false, st)).
Proof.
  intros Hobj Hspec. split.
  - assert (He : exists e, getProviderSpec (machine st) = Err e).
    { rewrite Hobj. unfold getProviderSpec.
      destruct Hspec as [-> | (v & -> & Hv)]; [eauto|].
      destruct (Unmarshal_ProviderSpec v); [discriminate|eauto]. }
    destruct He as [e He]. exists e. apply Delete_spec_error; [|done].
    by rewrite Hobj.
  - intros status Hstatus Hnone. by eapply Exists_without_instance.
Qed.

(** C5, as the code has it: with a provider spec that decodes, [Delete]
    on a status without instance id returns success and leaves the state
    untouched (no call at all); with a recorded id, once the delete call
    has answered, status 204 and 404 are success and every other status is
    an error, after exactly that one remote call. *)
Theorem Delete_outcome a st (spec : NvidiaBMMMachineProviderSpec)
    (status : NvidiaBMMMachineProviderStatus) :
  getProviderSpec (machine st) = Ok spec ->
  getProviderStatus (machine st) = Ok status ->
  (InstanceID status = None -> Delete a st = (Return tt, st)) /\
  (forall instanceID c org st1 u resp p',
     InstanceID status = Some instanceID ->
     getNvidiaBmmClient a spec st = (Return (c, org), st1) ->
     uuid.Parse instanceID = Ok u ->
     DeleteInstanceWithResponse c org u (platform st1) = (Ok resp, p') ->
     remote_calls (trace (snd (Delete a st))) =
       (remote_calls (trace st) ++ [BmmDeleteInstance c org u])%list /\
     if ((restclient.StatusCode resp =? 204) || (restclient.StatusCode resp =? 404))%Z
     then fst (Delete a st) = Return tt
     else fst (Delete a st) = Raise (Errorf "delete instance returned unexpected status")).
Proof.
  intros Hspec Hstatus.
  assert (Hco : is_client_Object (machine st) = true).
  { by destruct (getProviderStatus_Ok _ _ Hstatus) as [obj ->]. }
  split.
  - intros Hnone. unfold Delete. exec. rewrite Hco. exec.
    rewrite Hspec. exec. rewrite Hstatus. exec. rewrite Hnone. reflexivity.
  - intros instanceID c org st1 u resp p' Hid Hclient Hu Hcall.
    pose proof (getNvidiaBmmClient_frame a spec st) as Hframe.
    rewrite Hclient in Hframe. cbn [snd] in Hframe.
    destruct Hframe as (_ & _ & _ & Hremote).
    unfold Delete. exec. rewrite Hco. exec.
    rewrite Hspec. exec. rewrite Hstatus. exec. rewrite Hid. exec.
    rewrite Hclient. exec. unfold parseUUID. rewrite Hu. exec.
    unfold callDeleteInstance. rewrite Hcall. exec.
    assert (Hr : forall t, remote_calls ((trace st1 ++ [BmmDeleteInstance c org u]) ++ t)%list
                 = (remote_calls (trace st) ++ [BmmDeleteInstance c org u] ++ remote_calls t)%list).
    { intros t. unfold remote_calls. rewrite !List.filter_app. cbn.
      fold (remote_calls (trace st1)). rewrite Hremote. by rewrite <- app_assoc. }
    unfold eventf.
    destruct (restclient.StatusCode resp =? 204)%Z; cbn [orb andb negb];
      [|destruct (restclient.StatusCode resp =? 404)%Z; cbn [orb andb negb]];
      destruct (eventRecorder a); exec; cbn [trace];
      (split; [|reflexivity]);
      first [ rewrite Hr; cbn; reflexivity
            | rewrite <- (app_nil_r (trace st1 ++ _)), Hr; cbn; reflexivity ].
Qed.






(** *** The identity field under the four methods *)

Lemma Exists_machine a st : machine (snd (Exists a st)) = machine st.
Proof.
  unfold Exists. exec.
  destruct (is_client_Object (machine st)); exec; [|done].
  destruct (getProviderStatus (machine st)) as [status|]; exec; [|done].
  destruct (InstanceID status) as [instanceID|]; exec; [|done].
  destruct (getProviderSpec (machine st)) as [spec|]; exec; [|done].
  pose proof (getNvidiaBmmClient_frame a spec st) as Hframe.
  destruct (getNvidiaBmmClient a spec st) as [[[c org]| |] st1];
    cbn [snd] in Hframe; destruct Hframe as (Hm & _); exec; try done.
  unfold parseUUID. destruct (uuid.Parse instanceID) as [u|]; exec; [|done].
  unfold callGetInstance.
  destruct (GetInstanceWithResponse c org u (platform st1)) as [[resp|e] p']; exec; done.
Qed.

Lemma Delete_machine a st : machine (snd (Delete a st)) = machine st.
Proof.
  unfold Delete. exec.
  destruct (is_client_Object (machine st)); exec; [|done].
  destruct (getProviderSpec (machine st)) as [spec|]; exec; [|done].
  destruct (getProviderStatus (machine st)) as [status|]; exec; [|done].
  destruct (InstanceID status) as [instanceID|]; exec; [|done].
  pose proof (getNvidiaBmmClient_frame a spec st) as Hframe.
  destruct (getNvidiaBmmClient a spec st) as [[[c org]| |] st1];
    cbn [snd] in Hframe; destruct Hframe as (Hm & _); exec; try done.
  unfold parseUUID. destruct (uuid.Parse instanceID) as [u|]; exec; [|done].
  unfold callDeleteInstance, eventf.
  destruct (DeleteInstanceWithResponse c org u (platform st1)) as [[resp|e] p']; exec.
  - destruct (restclient.StatusCode resp =? 204)%Z,
             (restclient.StatusCode resp =? 404)%Z; cbn [andb];
      destruct (eventRecorder a); exec; done.
  - destruct (eventRecorder a); exec; done.
Qed.

(** Writing the status leaves the identity field alone. *)
Lemma setProviderStatus_providerID (status : NvidiaBMMMachineProviderStatus) st :
  providerID_of (machine (snd (setProviderStatus status st))) = providerID_of (machine st).
Proof.
  unfold setProviderStatus. exec.
  destruct (machine st) as [obj| |] eqn:Hobj; try (by rewrite Hobj).
  destruct (Marshal_ProviderStatus status) as [statusMap|]; [|by rewrite Hobj].
  destruct (unstructured.SetNestedField obj _ _) as [obj'|] eqn:Hset; [|by rewrite Hobj].
  exec. unfold clientStatusUpdate. cbn [machine k8s platform trace].
  assert (Hpid : providerID_of (Unstructured obj') = providerID_of (Unstructured obj)).
  { cbn [providerID_of]. by eapply (SetNestedField_other "status" "spec"). }
  destruct (Client_Status_Update (Unstructured obj') (k8s st)) as [[e|] k']; exec; done.
Qed.

Lemma Update_providerID a st :
  providerID_of (machine (snd (Update a st))) = providerID_of (machine st).
Proof.
  unfold Update. exec.
  destruct (is_client_Object (machine st)); exec; [|done].
  destruct (getProviderSpec (machine st)) as [spec|]; exec; [|done].
  destruct (getProviderStatus (machine st)) as [status|]; exec; [|done].
  destruct (InstanceID status) as [instanceID|]; exec; [|done].
  pose proof (getNvidiaBmmClient_frame a spec st) as Hframe.
  destruct (getNvidiaBmmClient a spec st) as [[[c org]| |] st1];
    cbn [snd] in Hframe; destruct Hframe as (Hm & _); exec; try (by rewrite Hm).
  unfold parseUUID. destruct (uuid.Parse instanceID) as [u|]; exec; [|by rewrite Hm].
  unfold callGetInstance.
  destruct (GetInstanceWithResponse c org u (platform st1)) as [[resp|e] p']; exec;
    [|by rewrite Hm].
  destruct (restclient.JSON200 resp) as [instance|]; [|by rewrite <- Hm].
  match goal with
  | |- context [setProviderStatus ?s ?x] =>
      pose proof (setProviderStatus_providerID s x) as Hset;
      destruct (setProviderStatus s x) as [[| |] st2]
  end; cbn [snd machine] in Hset |- *; by rewrite Hset, Hm.
Qed.

(** What a successful [Create] went through, step by step. *)
Lemma Create_success_inv a st st' :
  Create a st = (Return tt, st') ->
  exists obj spec c org st1 req resp p' instance id statusMap obj1 k1 obj2,
    machine st = Unstructured obj /\
    getProviderSpec (machine st) = Ok spec /\
    getNvidiaBmmClient a spec st = (Return (c, org), st1) /\
    buildInstanceRequest (GetName (machine st)) spec = Ok req /\
    CreateInstanceWithResponse c org req (platform st1) = (Ok resp, p') /\
    restclient.JSON201 resp = Some instance /\
    restclient.Id instance = Some id /\
    Marshal_ProviderStatus (createdStatus id instance) = Ok statusMap /\
    unstructured.SetNestedField obj (unstructured.JObject statusMap)
      ["status"; "providerStatus"] = Ok obj1 /\
    Client_Status_Update (Unstructured obj1) (k8s st1) = (None, k1) /\
    unstructured.SetNestedField obj1
      (unstructured.JString
         (providerid.ProviderID_String
            (providerid.NewProviderID org (TenantID spec) (SiteID spec) id)))
      ["spec"; "providerID"] = Ok obj2 /\
    fst (Client_Update (Unstructured obj2) k1) = None /\
    machine st' = Unstructured obj2 /\
    In (BmmCreateInstance c org req) (trace st').
Proof.
  intros Hrun. unfold Create in Hrun. exec_in Hrun.
  destruct (is_client_Object (machine st)) eqn:Hco; exec_in Hrun; [|discriminate].
  destruct (getProviderSpec (machine st)) as [spec|] eqn:Hspec; exec_in Hrun; [|discriminate].
  pose proof (getNvidiaBmmClient_frame a spec st) as Hframe.
  destruct (getNvidiaBmmClient a spec st) as [[[c org]| |] st1] eqn:Hclient;
    exec_in Hrun; try discriminate.
  cbn [snd] in Hframe. destruct Hframe as (Hm1 & _ & _ & _).
  destruct (buildInstanceRequest (GetName (machine st)) spec) as [req|] eqn:Hreq;
    exec_in Hrun; [|discriminate].
  unfold callCreateInstance, eventf in Hrun.
  destruct (CreateInstanceWithResponse c org req (platform st1)) as [[resp|] p'] eqn:Hcall;
    exec_in Hrun; [|destruct (eventRecorder a); discriminate].
  destruct (restclient.JSON201 resp) as [instance|] eqn:Hpayload;
    [|destruct (eventRecorder a); discriminate].
  destruct (restclient.Id instance) as [id|] eqn:Hid; exec_in Hrun; [|discriminate].
  unfold setProviderStatus in Hrun. exec_in Hrun. cbn [machine k8s platform trace] in Hrun.
  rewrite Hm1 in Hrun.
  destruct (getProviderSpec_Ok _ _ Hspec) as [obj Hobj]. rewrite Hobj in Hrun.
  fold (createdStatus id instance) in Hrun.
  destruct (Marshal_ProviderStatus (createdStatus id instance)) as [statusMap|] eqn:Hmarshal;
    exec_in Hrun; [|discriminate].
  destruct (unstructured.SetNestedField obj _ _) as [obj1|] eqn:Hset1; exec_in Hrun;
    [|discriminate].
  unfold clientStatusUpdate in Hrun. cbn [machine k8s platform trace] in Hrun.
  destruct (Client_Status_Update (Unstructured obj1) (k8s st1)) as [[e|] k1] eqn:Hupd1;
    exec_in Hrun; [discriminate|].
  unfold setProviderID in Hrun. exec_in Hrun. cbn [machine k8s platform trace] in Hrun.
  destruct (unstructured.SetNestedField obj1 _ _) as [obj2|] eqn:Hset2; exec_in Hrun;
    [|discriminate].
  unfold clientUpdate in Hrun. cbn [machine k8s platform trace] in Hrun.
  destruct (Client_Update (Unstructured obj2) k1) as [[e|] k2] eqn:Hupd2;
    exec_in Hrun; [discriminate|].
  exists obj, spec, c, org, st1, req, resp, p', instance, id, statusMap, obj1, k1, obj2.
  rewrite Hupd2.
  destruct (eventRecorder a); exec_in Hrun; injection Hrun as <-;
    cbn [machine trace fst]; rewrite ?in_app_iff; cbn [In];
    repeat split; auto 10.
Qed.

(** C2, as the code has it: [Exists], [Update] and [Delete] never change
    [spec.providerID]; a successful [Create], the first or a later one,
    leaves in it the identifier built from the instance the remote create
    call of that very [Create] returned, whatever was there before. *)
Theorem providerID_written_by_every_Create a st :
  providerID_of (machine (snd (Exists a st))) = providerID_of (machine st) /\
  providerID_of (machine (snd (Update a st))) = providerID_of (machine st) /\
  providerID_of (machine (snd (Delete a st))) = providerID_of (machine st) /\
  (forall st', Create a st = (Return tt, st') ->
     exists spec c org req p resp instance id,
       getProviderSpec (machine st) = Ok spec /\
       In (BmmCreateInstance c org req) (trace st') /\
       fst (CreateInstanceWithResponse c org req p) = Ok resp /\
       restclient.JSON201 resp = Some instance /\
       restclient.Id instance = Some id /\
       providerID_of (machine st') =
         Ok (Some (unstructured.JString
                     (providerid.ProviderID_String
                        (providerid.NewProviderID org (TenantID spec) (SiteID spec) id))))).
Proof.
  split; [by rewrite Exists_machine|].
  split; [apply Update_providerID|].
  split; [by rewrite Delete_machine|].
  intros st' Hrun.
  destruct (Create_success_inv a st st' Hrun)
    as (obj & spec & c & org & st1 & req & resp & p' & instance & id & statusMap & obj1
        & k1 & obj2 & Hobj & Hspec & Hclient & Hreq & Hcall & Hpayload & Hid & Hmarshal
        & Hset1 & Hupd1 & Hset2 & Hupd2 & Hmachine & Htrace).
  exists spec, c, org, req, (platform st1), resp, instance, id.
  split; [done|]. split; [done|]. split; [by rewrite Hcall|].
  split; [done|]. split; [done|].
  rewrite Hmachine. cbn [providerID_of].
  by eapply NestedFieldCopy_SetNestedField.
Qed.

End ActuatorProperties.

(** ** The reconciler *)

Section ReconcilerProperties.

Import controllerutil machine_controller.

Context {K P : Type} `{!Client K} `{!NvidiaBMMClientInterface P} `{!JSONCodec}.

Implicit Types (r : MachineReconciler K P) (st : State K P) (m : Machine).

Lemma ContainsFinalizer_AddFinalizer m (f : string) :
  ContainsFinalizer (AddFinalizer (TypedMachine m) f) f = true.
Proof.
  unfold AddFinalizer.
  destruct (ContainsFinalizer (TypedMachine m) f) eqn:Hc; [done|].
  unfold ContainsFinalizer. cbn [SetFinalizers GetFinalizers Finalizers].
  rewrite List.existsb_app. cbn. rewrite String.eqb_refl. by rewrite !orb_true_r.
Qed.

Lemma ContainsFinalizer_RemoveFinalizer m (f : string) :
  ContainsFinalizer (RemoveFinalizer (TypedMachine m) f) f = false.
Proof.
  unfold RemoveFinalizer, ContainsFinalizer.
  cbn [SetFinalizers GetFinalizers Finalizers].
  induction (Finalizers m) as [|e l IH]; [done|].
  cbn [List.filter]. destruct (String.eqb_spec e f) as [->|Hne]; cbn [negb]; [done|].
  cbn [List.existsb]. rewrite IH.
  destruct (String.eqb_spec f e) as [->|]; done.
Qed.

(** The actuator of this repository never touches the object in [Delete]. *)
Lemma NewMachineReconciler_Delete (a : machine_actuator.Actuator) st :
  machine (snd (Actuator_Delete (Actuator (NewMachineReconciler a)) st)) = machine st.
Proof. apply Delete_machine. Qed.

(** C7, as the code has it.  In a pass that found the machine:
    - when deletion is not requested and the finalizer is missing, the
      reconciler attaches it, sends the object with the finalizer to the
      API server, calls no method of the actuator, and asks to be requeued
      (or surfaces the error of the write);
    - when deletion is requested, it calls [Delete] first; on an error of
      [Delete] it returns that error and does nothing more, so the object
      is as [Delete] left it (untouched, for the actuator of this
      repository); only after [Delete] returned without error does it
      remove the finalizer and send the object. *)
Theorem Reconcile_finalizer_protocol r (req : ObjectKey) st m :
  Client_Get_Machine req (k8s st) = MachineFound m ->
  (DeletionTimestamp_IsZero (TypedMachine m) = true ->
   ContainsFinalizer (TypedMachine m) MachineFinalizer = false ->
   let o' := AddFinalizer (TypedMachine m) MachineFinalizer in
   ContainsFinalizer o' MachineFinalizer = true /\
   machine (snd (Reconcile r req st)) = o' /\
   trace (snd (Reconcile r req st)) = (trace st ++ [K8sGetMachine req; K8sUpdate o'])%list /\
   actuator_calls (trace (snd (Reconcile r req st))) = actuator_calls (trace st) /\
   fst (Reconcile r req st) =
     Return (match fst (Client_Update o' (k8s st)) with
             | None => ({| Requeue := true; RequeueAfter := 0 |}, None)
             | Some e => (Result_zero, Some (Wrapf "failed to add finalizer" e))
             end)) /\
  (DeletionTimestamp_IsZero (TypedMachine m) = false ->
   let start := entering (fetched st req m) "Delete" in
   (forall e st2,
      Actuator_Delete (Actuator r) start = (Raise e, st2) ->
      Reconcile r req st = (Return (Result_zero, Some e), st2)) /\
   (forall st2 m2,
      Actuator_Delete (Actuator r) start = (Return tt, st2) ->
      machine st2 = TypedMachine m2 ->
      let o' := RemoveFinalizer (TypedMachine m2) MachineFinalizer in
      ContainsFinalizer o' MachineFinalizer = false /\
      machine (snd (Reconcile r req st)) = o' /\
      trace (snd (Reconcile r req st)) = (trace st2 ++ [K8sUpdate o'])%list /\
      fst (Reconcile r req st) =
        Return (match fst (Client_Update o' (k8s st2)) with
                | None => (Result_zero, None)
                | Some e => (Result_zero, Some (Wrapf "failed to remove finalizer" e))
                end)) /\
   (forall a e st2,
      r = NewMachineReconciler a ->
      Actuator_Delete (Actuator r) start = (Raise e, st2) ->
      machine (snd (Reconcile r req st)) = TypedMachine m)).
Proof.
  intros Hget.
  assert (Hstart : forall k : M K P (Result * option error),
    (do res <- Get req;
     match res with
     | MachineNotFound _ => ret (Result_zero, None)
     | MachineGetError err => ret (Result_zero, Some err)
     | MachineFound _ => k
     end) st = k (fetched st req m)).
  { intros k. unfold Get, fetched. exec. rewrite Hget. reflexivity. }
  split.
  - intros Hzero Hnone o'.
    split; [apply ContainsFinalizer_AddFinalizer|].
    unfold Reconcile. rewrite Hstart. unfold fetched. exec. cbn [machine].
    rewrite Hzero. exec. unfold reconcileNormal. exec. cbn [machine].
    rewrite Hnone. exec. unfold Update. cbn [machine k8s platform trace].
    fold o'. rewrite <- app_assoc. cbn [app].
    assert (Hcalls : actuator_calls (trace st ++ [K8sGetMachine req; K8sUpdate o'])
                     = actuator_calls (trace st)).
    { unfold actuator_calls. rewrite List.filter_app. cbn. by rewrite app_nil_r. }
    destruct (Client_Update o' (k8s st)) as [[e|] k']; exec; cbn [machine trace]; done.
  - intros Hdel start.
    assert (Hrun : Reconcile r req st =
      (do d <- callActuator "Delete" (Actuator_Delete (Actuator r));
       match d with
       | Err err => ret (Result_zero, Some err)
       | Ok _ =>
           do machineObj <- getMachine;
           run setMachine (RemoveFinalizer machineObj MachineFinalizer);
           do e <- attempt Update;
           match e with
           | Err err => ret (Result_zero, Some (Wrapf "failed to remove finalizer" err))
           | Ok _ => ret (Result_zero, None)
           end
       end) (fetched st req m)).
    { unfold Reconcile. rewrite Hstart. unfold fetched at 1. exec. cbn [machine].
      rewrite Hdel. reflexivity. }
    assert (Herr : forall e st2,
      Actuator_Delete (Actuator r) start = (Raise e, st2) ->
      Reconcile r req st = (Return (Result_zero, Some e), st2)).
    { intros e st2 Hd. rewrite Hrun. unfold callActuator. exec.
      fold (entering (fetched st req m) "Delete"). fold start. rewrite Hd. reflexivity. }
    split; [exact Herr|]. split.
    + intros st2 m2 Hd Hm2 o'.
      split; [apply ContainsFinalizer_RemoveFinalizer|].
      rewrite Hrun. unfold callActuator. exec.
      fold (entering (fetched st req m) "Delete"). fold start. rewrite Hd.
      exec. cbn [machine k8s platform trace]. rewrite Hm2. fold o'.
      unfold Update. cbn [machine k8s platform trace].
      destruct (Client_Update o' (k8s st2)) as [[e|] k']; exec; cbn [machine trace]; done.
    + intros a e st2 -> Hd. rewrite (Herr e st2 Hd). cbn [snd].
      pose proof (NewMachineReconciler_Delete a start) as Hkeep.
      rewrite Hd in Hkeep. exact Hkeep.
Qed.

End ReconcilerProperties.

(** ** The integration suite's fixtures, run through the model *)

Section Fixtures.

Import v1beta1 machine_actuator envtest.

Local Existing Instances fakeClient mockClient codec.


Lemma Exists_outcome_witness :
  Exists actuator fresh = (Return false, fresh) /\
  fst (Exists actuator provisioned) = Return true.
Proof.
  split.
  - destruct (Exists_outcome actuator fresh emptyStatus) as [Hnone _]; [reflexivity|].
    apply Hnone. reflexivity.
  - edestruct (Exists_outcome actuator provisioned) as [_ Hsome]; [reflexivity|].
    edestruct Hsome as [_ Hresp]; [reflexivity..|].
    edestruct Hresp as (b & Hrun & Hiff); [reflexivity|].
    rewrite Hrun. cbn [fst]. f_equal. apply Hiff. discriminate.
Defined.

Lemma Delete_outcome_witness :
  Delete actuator fresh = (Return tt, fresh) /\
  fst (Delete actuator provisioned) = Return tt.
Proof.
  split.
  - edestruct (Delete_outcome actuator fresh) as [Hnone _]; [reflexivity..|].
    apply Hnone. reflexivity.
  - edestruct (Delete_outcome actuator provisioned) as [_ Hsome]; [reflexivity..|].
    edestruct Hsome as [_ Hstatus]; [reflexivity..|].
    exact Hstatus.
Defined.

(** C5 as stated fails: the machine without [spec] has no recorded
    instance id, and [Delete] returns an error instead of succeeding. *)
Lemma Delete_without_spec_counterexample :
  let st := initial (Unstructured machineWithoutSpec) apiServer defaultMock in
  getProviderStatus (machine st) = Ok emptyStatus /\
  InstanceID emptyStatus = None /\
  fst (Delete actuator st) =
    Raise (Wrapf "failed to get provider spec" (Errorf "providerSpec.value not found")) /\
  fst (Delete actuator st) <> Return tt.
Proof. vm_compute. repeat split; discriminate. Qed.

Lemma Delete_decodes_spec_first_witness :
  let st := initial (Unstructured machineWithoutSpec) apiServer defaultMock in
  exists e, Delete actuator st = (Raise (Wrapf "failed to get provider spec" e), st).
Proof.
  intros st.
  edestruct (Delete_decodes_spec_first actuator st machineWithoutSpec) as [Herr _].
  - reflexivity.
  - left. reflexivity.
  - exact Herr.
Defined.



Lemma providerID_written_by_every_Create_witness :
  exists spec org id,
    getProviderSpec (machine fresh) = Ok spec /\
    providerID_of (machine provisioned) =
      Ok (Some (unstructured.JString
                  (providerid.ProviderID_String
                     (providerid.NewProviderID org (TenantID spec) (SiteID spec) id)))).
Proof.
  destruct (providerID_written_by_every_Create actuator fresh) as (_ & _ & _ & Hcreate).
  edestruct (Hcreate provisioned) as (spec & c & org & req & p & resp & instance & id
                                      & Hspec & _ & _ & _ & _ & Hpid).
  - reflexivity.
  - exists spec, org, id. split; [exact Hspec|exact Hpid].
Defined.

(** C2 as stated fails: the first [Create] writes the identifier of
    instance [...0000]; the get-instance call then fails, so [Exists]
    answers [false] as it does for every read error; the [Create] that
    follows succeeds and replaces the identifier by that of instance
    [...0001]. *)
Lemma providerID_overwritten_counterexample :
  let st0 := initial (Unstructured testMachine) apiServer flakyMock in
  let st1 := snd (Create actuator st0) in
  let st2 := snd (Exists actuator st1) in
  let st3 := snd (Create actuator st2) in
  fst (Create actuator st0) = Return tt /\
  fst (Exists actuator st1) = Return false /\
  fst (Create actuator st2) = Return tt /\
  providerID_of (machine st1) =
    Ok (Some (unstructured.JString "nvidia-bmm://test-org/b013708a-99f0-47b2-a630-cabb4ae1d3df/8a880c71-fe4b-4e43-9e24-ebfcb8a84c5f/00000000-0000-4000-8000-000000000000")) /\
  providerID_of (machine st3) =
    Ok (Some (unstructured.JString "nvidia-bmm://test-org/b013708a-99f0-47b2-a630-cabb4ae1d3df/8a880c71-fe4b-4e43-9e24-ebfcb8a84c5f/00000000-0000-4000-8000-000000000001")) /\
  providerID_of (machine st3) <> providerID_of (machine st1).
Proof. vm_compute. repeat split; discriminate. Qed.

Lemma Reconcile_finalizer_protocol_witness :
  fst (machine_controller.Reconcile reconciler machineKey (idle newMachine)) =
    Return ({| machine_controller.Requeue := true;
               machine_controller.RequeueAfter := 0 |}, None) /\
  controllerutil.ContainsFinalizer
    (machine (snd (machine_controller.Reconcile reconciler machineKey (idle deletingMachine))))
    machine_controller.MachineFinalizer = true.
Proof.
  split.
  - edestruct (Reconcile_finalizer_protocol reconciler machineKey (idle newMachine))
      as [Hnormal _]; [reflexivity|].
    edestruct Hnormal as (_ & _ & _ & _ & Hres); [reflexivity..|].
    rewrite Hres. reflexivity.
  - edestruct (Reconcile_finalizer_protocol reconciler machineKey (idle deletingMachine))
      as [_ Hdelete]; [reflexivity|].
    edestruct Hdelete as (_ & _ & Hkeep); [reflexivity|].
    erewrite (Hkeep actuator); [reflexivity|reflexivity|].
    vm_compute. reflexivity.
Defined.

(** C7 as stated fails: the machine is being deleted and lacks the
    finalizer; the pass attaches nothing, writes nothing, and calls
    [Delete] on the actuator. *)
Lemma Reconcile_deleting_without_finalizer_counterexample :
  let out := machine_controller.Reconcile reconciler machineKey
               (idle deletingMachineWithoutFinalizer) in
  controllerutil.ContainsFinalizer (TypedMachine deletingMachineWithoutFinalizer)
    machine_controller.MachineFinalizer = false /\
  trace (snd out) = [K8sGetMachine machineKey; ActuatorCall "Delete"] /\
  controllerutil.ContainsFinalizer (machine (snd out))
    machine_controller.MachineFinalizer = false /\
  fst out = Return (machine_controller.Result_zero,
                    Some (Wrapf "failed to get provider spec"
                            (Errorf "machine is not unstructured"))).
Proof. vm_compute. repeat split. Qed.

End Fixtures.

(** * Further properties of the code *)

(** ** The provider-identity codec, continued *)

Section ProviderIDCodecMore.

Import providerid.

Lemma Split_cons_length (c sep : ascii) (s : string) :
  List.length (strings.Split (String c s) sep) =
  if Ascii.eqb c sep then S (List.length (strings.Split s sep))
  else List.length (strings.Split s sep).
Proof.
  cbn [strings.Split]. destruct (Ascii.eqb c sep); [done|].
  pose proof (Split_nonempty s sep). by destruct (strings.Split s sep).
Qed.

(** Splitting a concatenation: the last piece of the left part and the
    first piece of the right part merge. *)
Lemma Split_length_app (a b : string) (sep : ascii) :
  S (List.length (strings.Split (a ++ b) sep)) =
  (List.length (strings.Split a sep) + List.length (strings.Split b sep))%nat.
Proof.
  induction a as [|c a IH].
  - reflexivity.
  - change (String c a ++ b) with (String c (a ++ b)).
    rewrite !Split_cons_length. destruct (Ascii.eqb c sep); lia.
Qed.

Lemma Split_length_pos (s : string) (sep : ascii) :
  (1 <= List.length (strings.Split s sep))%nat.
Proof. pose proof (Split_nonempty s sep). destruct (strings.Split s sep); [done|cbn; lia]. Qed.

(** One piece exactly when the separator does not occur. *)
Lemma Split_length_one (s : string) (sep : ascii) :
  List.length (strings.Split s sep) = 1%nat <-> strings.Contains s sep = false.
Proof.
  split.
  - induction s as [|c s IH]; [done|].
    rewrite Split_cons_length. cbn [strings.Contains].
    pose proof (Split_length_pos s sep).
    destruct (Ascii.eqb c sep); [lia|]. cbn [orb]. exact IH.
  - intros H. by rewrite Split_single.
Qed.

(** No piece of a split holds the separator. *)
Lemma Split_pieces (s : string) (sep : ascii) :
  Forall (fun p => strings.Contains p sep = false) (strings.Split s sep).
Proof.
  induction s as [|c s IH]; [by repeat constructor|].
  cbn [strings.Split]. destruct (Ascii.eqb c sep) eqn:Hc.
  - by constructor.
  - pose proof (Split_nonempty s sep).
    destruct (strings.Split s sep) as [|p ps]; [done|].
    inversion IH as [|? ? Hp Hps]; subst. constructor; [|done].
    cbn [strings.Contains]. by rewrite Hc, Hp.
Qed.

(** The number of segments of an encoded identifier. *)
Lemma segments_String_length (org tenant site : string) (i : uuid.UUID) :
  (List.length (segments (ProviderID_String (NewProviderID org tenant site i))) + 2 =
   List.length (strings.Split org "/") + List.length (strings.Split tenant "/") +
   List.length (strings.Split site "/") + 3)%nat.
Proof.
  unfold segments, ProviderID_String, NewProviderID.
  cbn [OrgName TenantName SiteName InstanceID].
  rewrite TrimPrefix_app, !append_single.
  pose proof (Split_length_app org (String "/" (tenant ++ String "/" (site ++ String "/"
                (uuid.UUID_String i)))) "/") as H1.
  rewrite Split_cons_length in H1. cbn [Ascii.eqb Bool.eqb] in H1.
  pose proof (Split_length_app tenant (String "/" (site ++ String "/"
                (uuid.UUID_String i))) "/") as H2.
  rewrite Split_cons_length in H2. cbn [Ascii.eqb Bool.eqb] in H2.
  pose proof (Split_length_app site (String "/" (uuid.UUID_String i)) "/") as H3.
  rewrite Split_cons_length in H3. cbn [Ascii.eqb Bool.eqb] in H3.
  assert (H4 : List.length (strings.Split (uuid.UUID_String i) "/") = 1%nat).
  { apply Split_length_one. by apply String_no_sep. }
  lia.
Qed.

(** The round trip of the codec, proved from the splitting lemmas. *)
Lemma ParseProviderID_String_clean (org tenant site : string) (i : uuid.UUID) :
  strings.Contains org "/" = false ->
  strings.Contains tenant "/" = false ->
  strings.Contains site "/" = false ->
  ParseProviderID (ProviderID_String (NewProviderID org tenant site i))
  = Ok (NewProviderID org tenant site i).
Proof.
  intros Ho Ht Hs.
  rewrite ParseProviderID_unfold. unfold segments, ProviderID_String, NewProviderID.
  cbn [OrgName TenantName SiteName InstanceID].
  rewrite HasPrefix_app, TrimPrefix_app, !append_single.
  rewrite (Split_app org), (Split_app tenant), (Split_app site) by assumption.
  rewrite Split_single by (by apply String_no_sep).
  by rewrite Parse_String.
Qed.

(** X1: the encoding of an identifier decodes to the identifier exactly
    when none of org, tenant and site holds a ['/']; when one does, the
    encoding has five segments or more and decoding fails with the
    segment-count error. *)
Theorem ParseProviderID_String_iff (org tenant site : string) (i : uuid.UUID) :
  let encoded := ProviderID_String (NewProviderID org tenant site i) in
  (ParseProviderID encoded = Ok (NewProviderID org tenant site i) <->
     strings.Contains org "/" = false /\
     strings.Contains tenant "/" = false /\
     strings.Contains site "/" = false) /\
  (strings.Contains org "/" || strings.Contains tenant "/" || strings.Contains site "/" = true ->
     ParseProviderID encoded = Err errInvalidFormat).
Proof.
  intros encoded.
  pose proof (segments_String_length org tenant site i) as Hlen. fold encoded in Hlen.
  pose proof (Split_length_pos org "/") as Po.
  pose proof (Split_length_pos tenant "/") as Pt.
  pose proof (Split_length_pos site "/") as Ps.
  pose proof (Split_length_one org "/") as Oo.
  pose proof (Split_length_one tenant "/") as Ot.
  pose proof (Split_length_one site "/") as Os.
  assert (Hbad : strings.Contains org "/" || strings.Contains tenant "/"
                 || strings.Contains site "/" = true ->
                 ParseProviderID encoded = Err errInvalidFormat).
  { intros Hsome.
    assert (Hfive : (5 <= List.length (segments encoded))%nat).
    { destruct (strings.Contains org "/") eqn:Ho.
      - assert (List.length (strings.Split org "/") <> 1%nat) by (intros E; apply Oo in E; done).
        lia.
      - destruct (strings.Contains tenant "/") eqn:Ht.
        + assert (List.length (strings.Split tenant "/") <> 1%nat)
            by (intros E; apply Ot in E; done).
          lia.
        + cbn [orb] in Hsome.
          assert (List.length (strings.Split site "/") <> 1%nat)
            by (intros E; apply Os in E; congruence).
          lia. }
    rewrite ParseProviderID_unfold.
    unfold encoded at 1, ProviderID_String. rewrite HasPrefix_app.
    destruct (segments encoded) as [|p0 [|p1 [|p2 [|p3 [|p4 ps]]]]]; cbn in Hfive; try lia.
    reflexivity. }
  split; [|exact Hbad]. split.
  - intros Hok.
    destruct (strings.Contains org "/") eqn:Ho;
      [rewrite Hbad in Hok by done; discriminate|].
    destruct (strings.Contains tenant "/") eqn:Ht;
      [rewrite Hbad in Hok by done; discriminate|].
    destruct (strings.Contains site "/") eqn:Hs;
      [rewrite Hbad in Hok by done; discriminate|].
    done.
  - intros (Ho & Ht & Hs). by apply ParseProviderID_String_clean.
Qed.

Lemma ParseProviderID_String_iff_witness :
  ParseProviderID (ProviderID_String (NewProviderID "org" "tenant" "rack/7"
    (uuid.mkUUID x55 x0e x84 x00 xe2 x9b x41 xd4 xa7 x16 x44 x66 x55 x44 x00 x00)))
  = Err errInvalidFormat.
Proof. apply ParseProviderID_String_iff. reflexivity. Defined.

(** X2: whatever [ParseProviderID] accepts, re-encoding the result and
    decoding again gives the same identifier: the three-segment legacy
    form is normalised to the four-segment form with an empty tenant. *)
Theorem ParseProviderID_canonical (s : string) (p : ProviderID) :
  ParseProviderID s = Ok p ->
  ParseProviderID (ProviderID_String p) = Ok p.
Proof.
  intros Hok. pose proof (ParseProviderID_outcome s) as Hout. rewrite Hok in Hout.
  pose proof (Split_pieces (strings.TrimPrefix s ProviderPrefix) "/") as Hpieces.
  fold (segments s) in Hpieces.
  inversion Hout as [| | |org site lit i Hp Hs Hi|org tenant site lit i Hp Hs Hi]; subst;
    rewrite Hs in Hpieces;
    repeat match goal with
           | H : Forall _ (_ :: _) |- _ => inversion H; subst; clear H
           end.
  - by apply (ParseProviderID_String_clean org "" site i).
  - by apply (ParseProviderID_String_clean org tenant site i).
Qed.

Lemma ParseProviderID_canonical_witness :
  ParseProviderID (ProviderID_String
    {| OrgName := "acme"; TenantName := ""; SiteName := "site1";
       InstanceID := uuid.mkUUID x55 x0e x84 x00 xe2 x9b x41 xd4 xa7 x16 x44 x66 x55 x44 x00 x00 |})
  = Ok {| OrgName := "acme"; TenantName := ""; SiteName := "site1";
          InstanceID := uuid.mkUUID x55 x0e x84 x00 xe2 x9b x41 xd4 xa7 x16 x44 x66 x55 x44 x00 x00 |}.
Proof.
  apply (ParseProviderID_canonical
           "nvidia-bmm://acme/site1/550e8400-e29b-41d4-a716-446655440000").
  reflexivity.
Defined.

End ProviderIDCodecMore.

(** ** Building the create request *)

Section BuildInstanceRequest.

Import v1beta1 machine_actuator.

Implicit Types (spec : NvidiaBMMMachineProviderSpec).

Lemma parseUUID_ok (msg s : string) : is_ok (parseUUID msg s) = validUUID s.
Proof. unfold parseUUID, validUUID. by destruct (uuid.Parse s). Qed.

Lemma additionalInterfaces_ok (l : list AdditionalSubnet) :
  is_ok (additionalInterfaces l) =
  List.forallb (fun a => validUUID (AdditionalSubnet_SubnetID a)) l.
Proof.
  induction l as [|a l IH]; [done|].
  cbn [additionalInterfaces List.forallb]. rewrite <- IH, <- (parseUUID_ok
    "failed to parse additional subnet ID").
  destruct (parseUUID _ _); [|done]. by destruct (additionalInterfaces l).
Qed.

Lemma sshKeyGroupUUIDs_ok (l : list string) :
  is_ok (sshKeyGroupUUIDs l) = List.forallb validUUID l.
Proof.
  induction l as [|a l IH]; [done|].
  cbn [sshKeyGroupUUIDs List.forallb]. rewrite <- IH, <- (parseUUID_ok
    "failed to parse SSH key group ID").
  destruct (parseUUID _ _); [|done]. by destruct (sshKeyGroupUUIDs l).
Qed.

(** One interface per additional subnet, in order, with its flag. *)
Lemma additionalInterfaces_flags (l : list AdditionalSubnet)
    (more : list restclient.InterfaceCreateRequest) :
  additionalInterfaces l = Ok more ->
  List.map restclient.IsPhysical more =
    List.map (fun a => Some (AdditionalSubnet_IsPhysical a)) l /\
  List.map restclient.SubnetId more =
    List.map (fun a => match uuid.Parse (AdditionalSubnet_SubnetID a) with
                       | Ok u => Some u
                       | Err _ => None
                       end) l.
Proof.
  revert more. induction l as [|a l IH]; intros more H.
  - by injection H as <-.
  - cbn [additionalInterfaces] in H. unfold parseUUID in H.
    destruct (uuid.Parse (AdditionalSubnet_SubnetID a)) as [u|] eqn:Hu; [|discriminate].
    destruct (additionalInterfaces l) as [rest|]; [|discriminate].
    injection H as <-. destruct (IH rest eq_refl) as [H1 H2].
    cbn [List.map restclient.IsPhysical restclient.SubnetId].
    by rewrite H1, H2, Hu.
Qed.

(** What a request that was built is made of. *)
Lemma buildInstanceRequest_Ok_inv (name : string) spec
    (req : restclient.CreateInstanceJSONRequestBody) :
  buildInstanceRequest name spec = Ok req ->
  exists subnet more tenant vpc,
    uuid.Parse (SubnetID spec) = Ok subnet /\
    additionalInterfaces (AdditionalSubnetIDs spec) = Ok more /\
    uuid.Parse (TenantID spec) = Ok tenant /\
    uuid.Parse (VpcID spec) = Ok vpc /\
    restclient.Name req = name /\
    restclient.TenantId req = tenant /\
    restclient.VpcId req = vpc /\
    restclient.Interfaces req =
      Some ({| restclient.SubnetId := Some subnet;
               restclient.IsPhysical := Some false |} :: more) /\
    restclient.PhoneHomeEnabled req = Some true /\
    restclient.InstanceTypeId req =
      (if String.eqb (InstanceTypeID spec) "" then None
       else match uuid.Parse (InstanceTypeID spec) with
            | Ok u => Some u
            | Err _ => None
            end) /\
    (String.eqb (InstanceTypeID spec) "" = false -> validUUID (InstanceTypeID spec) = true) /\
    restclient.MachineId req =
      (if String.eqb (MachineID spec) "" then None else Some (MachineID spec)) /\
    restclient.AllowUnhealthyMachine req =
      (if AllowUnhealthyMachine spec then Some true else None) /\
    restclient.UserData req =
      (if String.eqb (UserData spec) "" then None else Some (UserData spec)) /\
    restclient.SshKeyGroupIds req =
      (match SSHKeyGroupIDs spec with
       | [] => None
       | _ :: _ => match sshKeyGroupUUIDs (SSHKeyGroupIDs spec) with
                   | Ok l => Some l
                   | Err _ => None
                   end
       end) /\
    restclient.Labels req =
      (if (0 <? size (Labels spec))%nat then Some (Labels spec) else None) /\
    is_ok (sshKeyGroupUUIDs (SSHKeyGroupIDs spec)) = true.
Proof.
  unfold buildInstanceRequest, parseUUID, validUUID. intros H.
  destruct (uuid.Parse (SubnetID spec)) as [subnet|]; [|discriminate].
  destruct (additionalInterfaces (AdditionalSubnetIDs spec)) as [more|]; [|discriminate].
  destruct (uuid.Parse (TenantID spec)) as [tenant|]; [|discriminate].
  destruct (uuid.Parse (VpcID spec)) as [vpc|]; [|discriminate].
  exists subnet, more, tenant, vpc.
  destruct (String.eqb (InstanceTypeID spec) "") eqn:Hit.
  - destruct (SSHKeyGroupIDs spec) as [|k ks] eqn:Hk; cbn [List.length Nat.ltb Nat.leb] in H.
    + injection H as <-. cbn. repeat split; done.
    + destruct (sshKeyGroupUUIDs (k :: ks)) as [l|]; [|discriminate].
      injection H as <-. cbn. repeat split; done.
  - destruct (uuid.Parse (InstanceTypeID spec)) as [it|]; [|discriminate].
    destruct (SSHKeyGroupIDs spec) as [|k ks] eqn:Hk; cbn [List.length Nat.ltb Nat.leb] in H.
    + injection H as <-. cbn. repeat split; done.
    + destruct (sshKeyGroupUUIDs (k :: ks)) as [l|]; [|discriminate].
      injection H as <-. cbn. repeat split; done.
Qed.

(** X3: a request is built exactly when every identifier the request
    carries as a UUID parses: the subnet, each additional subnet, the
    tenant, the VPC, the instance type unless empty, and each SSH key
    group.  The site, the machine id and the credentials reference play no
    part. *)
Theorem buildInstanceRequest_ok_iff (name : string) spec :
  is_ok (buildInstanceRequest name spec) =
    validUUID (SubnetID spec) &&
    List.forallb (fun a => validUUID (AdditionalSubnet_SubnetID a)) (AdditionalSubnetIDs spec) &&
    validUUID (TenantID spec) &&
    validUUID (VpcID spec) &&
    (String.eqb (InstanceTypeID spec) "" || validUUID (InstanceTypeID spec)) &&
    List.forallb validUUID (SSHKeyGroupIDs spec).
Proof.
  rewrite <- additionalInterfaces_ok, <- sshKeyGroupUUIDs_ok.
  unfold buildInstanceRequest, parseUUID, validUUID.
  destruct (uuid.Parse (SubnetID spec)); [|done].
  destruct (additionalInterfaces (AdditionalSubnetIDs spec)); [|done].
  destruct (uuid.Parse (TenantID spec)); [|done].
  destruct (uuid.Parse (VpcID spec)); [|done].
  cbn [is_ok andb].
  destruct (String.eqb (InstanceTypeID spec) ""); cbn [orb].
  - destruct (SSHKeyGroupIDs spec) as [|k ks]; [done|].
    cbn [List.length Nat.ltb Nat.leb].
    by destruct (sshKeyGroupUUIDs (k :: ks)).
  - destruct (uuid.Parse (InstanceTypeID spec)); [|done]. cbn [is_ok andb].
    destruct (SSHKeyGroupIDs spec) as [|k ks]; [done|].
    cbn [List.length Nat.ltb Nat.leb].
    by destruct (sshKeyGroupUUIDs (k :: ks)).
Qed.

(** X4: in a request that was built, the interface list starts with the
    primary subnet as a virtual interface and continues with one
    interface per additional subnet, in order, each with its own
    physical flag; the name is the machine's, tenant and VPC are the
    parsed identifiers, and phone-home is always enabled. *)
Theorem buildInstanceRequest_interfaces (name : string) spec
    (req : restclient.CreateInstanceJSONRequestBody) :
  buildInstanceRequest name spec = Ok req ->
  restclient.Name req = name /\
  restclient.PhoneHomeEnabled req = Some true /\
  uuid.Parse (TenantID spec) = Ok (restclient.TenantId req) /\
  uuid.Parse (VpcID spec) = Ok (restclient.VpcId req) /\
  exists subnet more,
    uuid.Parse (SubnetID spec) = Ok subnet /\
    restclient.Interfaces req =
      Some ({| restclient.SubnetId := Some subnet;
               restclient.IsPhysical := Some false |} :: more) /\
    List.map restclient.IsPhysical more =
      List.map (fun a => Some (AdditionalSubnet_IsPhysical a)) (AdditionalSubnetIDs spec) /\
    List.map restclient.SubnetId more =
      List.map (fun a => match uuid.Parse (AdditionalSubnet_SubnetID a) with
                         | Ok u => Some u
                         | Err _ => None
                         end) (AdditionalSubnetIDs spec).
Proof.
  intros H.
  destruct (buildInstanceRequest_Ok_inv name spec req H)
    as (subnet & more & tenant & vpc & Hs & Hmore & Ht & Hv & Hn & Hti & Hvi & Hif & Hph & _).
  split; [done|]. split; [done|]. split; [by rewrite Hti|]. split; [by rewrite Hvi|].
  exists subnet, more. split; [done|]. split; [done|].
  by apply additionalInterfaces_flags.
Qed.

Lemma buildInstanceRequest_interfaces_witness :
  exists req subnet more,
    buildInstanceRequest "worker-0" samples.multiNicSpec = Ok req /\
    restclient.Interfaces req =
      Some ({| restclient.SubnetId := Some subnet;
               restclient.IsPhysical := Some false |} :: more) /\
    List.map restclient.IsPhysical more = [Some true; Some false].
Proof.
  edestruct (buildInstanceRequest_interfaces "worker-0" samples.multiNicSpec)
    as (_ & _ & _ & _ & subnet & more & _ & Hif & Hflags & _); [reflexivity|].
  eexists _, subnet, more. split; [reflexivity|]. split; [exact Hif|exact Hflags].
Defined.

(** X5: the optional fields of a request that was built: each is set
    exactly when the spec holds a non-empty value, the unhealthy-machine
    allowance is never sent as [false], and an instance type and a
    machine id that are both given are both sent: nothing enforces that
    only one of them is set. *)
Theorem buildInstanceRequest_optional_fields (name : string) spec
    (req : restclient.CreateInstanceJSONRequestBody) :
  buildInstanceRequest name spec = Ok req ->
  (restclient.InstanceTypeId req = None <-> InstanceTypeID spec = "") /\
  restclient.MachineId req =
    (if String.eqb (MachineID spec) "" then None else Some (MachineID spec)) /\
  restclient.AllowUnhealthyMachine req =
    (if AllowUnhealthyMachine spec then Some true else None) /\
  restclient.UserData req =
    (if String.eqb (UserData spec) "" then None else Some (UserData spec)) /\
  (restclient.SshKeyGroupIds req = None <-> SSHKeyGroupIDs spec = []) /\
  (restclient.Labels req = None <-> Labels spec = ∅) /\
  (InstanceTypeID spec <> "" -> MachineID spec <> "" ->
     is_Some (restclient.InstanceTypeId req) /\
     restclient.MachineId req = Some (MachineID spec)).
Proof.
  intros H.
  destruct (buildInstanceRequest_Ok_inv name spec req H)
    as (subnet & more & tenant & vpc & _ & _ & _ & _ & _ & _ & _ & _ & _
        & Hit & Hitv & Hmid & Hau & Hud & Hssh & Hlab & Hkeys).
  assert (Hty : restclient.InstanceTypeId req = None <-> InstanceTypeID spec = "").
  { rewrite Hit. destruct (String.eqb_spec (InstanceTypeID spec) "") as [->|Hne]; [done|].
    specialize (Hitv eq_refl). unfold validUUID in Hitv.
    destruct (uuid.Parse (InstanceTypeID spec)); [|done]. split; [done|]. intros; done. }
  split; [exact Hty|]. split; [done|]. split; [done|]. split; [done|].
  split.
  { rewrite Hssh. destruct (SSHKeyGroupIDs spec) as [|k ks] eqn:Hk; [done|].
    destruct (sshKeyGroupUUIDs (k :: ks)); [|done]. split; intros; done. }
  split.
  { rewrite Hlab. destruct (Nat.ltb_spec 0 (size (Labels spec))) as [Hpos|Hzero].
    - split; [done|]. intros E. rewrite E, map_size_empty in Hpos. lia.
    - split; [|done]. intros _. apply map_size_empty_iff. lia. }
  intros Hne1 Hne2. split.
  - destruct (restclient.InstanceTypeId req) eqn:E; [eauto|]. destruct Hne1. by apply Hty.
  - rewrite Hmid. by destruct (String.eqb_spec (MachineID spec) "").
Qed.

Lemma buildInstanceRequest_optional_fields_witness :
  exists req,
    buildInstanceRequest "worker-0" samples.multiNicSpec = Ok req /\
    is_Some (restclient.InstanceTypeId req) /\
    restclient.MachineId req = Some "machine-42".
Proof.
  edestruct (buildInstanceRequest_optional_fields "worker-0" samples.multiNicSpec)
    as (_ & _ & _ & _ & _ & _ & Hboth); [reflexivity|].
  eexists. split; [reflexivity|]. apply Hboth; discriminate.
Defined.

End BuildInstanceRequest.

(** ** The actuator off the success path *)

Section ActuatorMore.

Import v1beta1 machine_actuator.

Context {K P : Type} `{!Client K} `{!NvidiaBMMClientInterface P} `{!JSONCodec}.

Implicit Types (a : Actuator) (st : State K P)
  (spec : NvidiaBMMMachineProviderSpec).

Lemma remote_calls_snoc (t : list Call) (c : Call) :
  remote_calls (t ++ [c]) =
  if is_remote_call c then (remote_calls t ++ [c])%list else remote_calls t.
Proof.
  unfold remote_calls. rewrite List.filter_app. cbn.
  destruct (is_remote_call c); [done|by rewrite app_nil_r].
Qed.

Lemma k8s_writes_snoc (t : list Call) (c : Call) :
  k8s_writes (t ++ [c]) =
  if is_k8s_write c then (k8s_writes t ++ [c])%list else k8s_writes t.
Proof.
  unfold k8s_writes. rewrite List.filter_app. cbn.
  destruct (is_k8s_write c); [done|by rewrite app_nil_r].
Qed.

(** Resolving the client reads one secret or nothing, and never panics. *)
Lemma getNvidiaBmmClient_state a spec st :
  fst (getNvidiaBmmClient a spec st) <> Panic /\
  (snd (getNvidiaBmmClient a spec st) = st \/
   snd (getNvidiaBmmClient a spec st) = extend st [K8sGetSecret (secretKeyOf spec)]).
Proof.
  unfold getNvidiaBmmClient.
  destruct (nvidiaBmmClient a) as [c|]; [by split; [|left]|].
  unfold bind, wrapf, clientGetSecret. fold (secretKeyOf spec).
  destruct (Client_Get_Secret _ _) as [s|e]; [|by split; [|right]].
  destruct (Data s !! "endpoint"); [|by split; [|right]].
  destruct (Data s !! "orgName"); [|by split; [|right]].
  destruct (Data s !! "token"); [|by split; [|right]].
  destruct (NewClientWithAuth _ _); by split; [|right].
Qed.

Lemma getNvidiaBmmClient_writes a spec st :
  k8s_writes (trace (snd (getNvidiaBmmClient a spec st))) = k8s_writes (trace st).
Proof.
  destruct (getNvidiaBmmClient_state a spec st) as [_ [-> | ->]]; [done|].
  cbn [extend trace]. by rewrite k8s_writes_snoc.
Qed.

(** X6: with an injected client no secret is read and the credentials
    reference of the spec is ignored; otherwise the secret the spec names
    is read once, and a client is returned exactly when the secret holds
    [endpoint], [orgName] and [token] and the client can be built: the
    organisation is then the secret's, not the actuator's. *)
Theorem getNvidiaBmmClient_resolution a spec st :
  (forall c, nvidiaBmmClient a = Some c ->
     getNvidiaBmmClient a spec st = (Return (c, orgName a), st)) /\
  (nvidiaBmmClient a = None ->
     snd (getNvidiaBmmClient a spec st) = extend st [K8sGetSecret (secretKeyOf spec)] /\
     (forall c org,
        fst (getNvidiaBmmClient a spec st) = Return (c, org) <->
        exists secret endpoint token,
          Client_Get_Secret (secretKeyOf spec) (k8s st) = Ok secret /\
          Data secret !! "endpoint" = Some endpoint /\
          Data secret !! "orgName" = Some org /\
          Data secret !! "token" = Some token /\
          NewClientWithAuth endpoint token = Ok c)).
Proof.
  unfold getNvidiaBmmClient. split.
  - intros c ->. reflexivity.
  - intros ->. unfold bind, wrapf, clientGetSecret. fold (secretKeyOf spec).
    destruct (Client_Get_Secret _ _) as [s|e].
    2:{ split; [done|]. intros c org. split; [done|].
        intros (? & ? & ? & ? & _); discriminate. }
    destruct (Data s !! "endpoint") as [endpoint|] eqn:He.
    2:{ split; [done|]. intros c org. split; [done|].
        intros (? & ? & ? & [= <-] & ? & _); congruence. }
    destruct (Data s !! "orgName") as [org'|] eqn:Ho.
    2:{ split; [done|]. intros c org. split; [done|].
        intros (? & ? & ? & [= <-] & ? & ? & _); congruence. }
    destruct (Data s !! "token") as [token|] eqn:Ht.
    2:{ split; [done|]. intros c org. split; [done|].
        intros (? & ? & ? & [= <-] & ? & ? & ? & _); congruence. }
    destruct (NewClientWithAuth endpoint token) as [c'|e] eqn:Hc.
    + split; [done|]. intros c org. split.
      * intros [= <- <-]. eauto 10.
      * intros (? & ? & ? & [= <-] & ? & ? & ? & ?). cbn. repeat f_equal; congruence.
    + split; [done|]. intros c org. split; [done|].
      intros (? & ? & ? & [= <-] & ? & ? & ? & ?). congruence.
Qed.

(** X7: a spec with an identifier that does not parse makes [Create] fail
    before anything is created: no remote call, no write to the API
    server, the object as it was.  The credentials are resolved first, so
    their error wins; once they resolved, the parse error is returned as
    it is, without a wrap. *)
Theorem Create_invalid_request a st spec (e : error) :
  getProviderSpec (machine st) = Ok spec ->
  buildInstanceRequest (GetName (machine st)) spec = Err e ->
  (forall c org st1,
     getNvidiaBmmClient a spec st = (Return (c, org), st1) ->
     Create a st = (Raise e, st1)) /\
  (exists e', fst (Create a st) = Raise e') /\
  machine (snd (Create a st)) = machine st /\
  k8s (snd (Create a st)) = k8s st /\
  platform (snd (Create a st)) = platform st /\
  remote_calls (trace (snd (Create a st))) = remote_calls (trace st) /\
  k8s_writes (trace (snd (Create a st))) = k8s_writes (trace st).
Proof.
  intros Hspec Hreq.
  assert (Hco : is_client_Object (machine st) = true).
  { by destruct (getProviderSpec_Ok _ _ Hspec) as [obj ->]. }
  assert (Hrun : Create a st =
            match getNvidiaBmmClient a spec st with
            | (Return _, st1) => (Raise e, st1)
            | (Raise e', st1) => (Raise (Wrapf "failed to create NVIDIA BMM client" e'), st1)
            | (Panic, st1) => (Panic, st1)
            end).
  { unfold Create. exec. rewrite Hco. exec. rewrite Hspec. exec.
    destruct (getNvidiaBmmClient a spec st) as [[[c org]| |] st1]; exec; [|done..].
    rewrite Hreq. reflexivity. }
  pose proof (getNvidiaBmmClient_frame a spec st) as Hframe.
  pose proof (getNvidiaBmmClient_writes a spec st) as Hwrites.
  pose proof (getNvidiaBmmClient_state a spec st) as [Hnopanic _].
  cbv zeta in Hframe. rewrite Hrun.
  destruct (getNvidiaBmmClient a spec st) as [[[c org]|e'|] st1];
    cbn [fst snd] in *; [| |done].
  - split; [by intros ? ? ? [= _ _ <-]|]. split; [eauto|].
    destruct Hframe as (? & ? & ? & ?). done.
  - split; [by intros ? ? ? [=]|]. split; [eauto|].
    destruct Hframe as (? & ? & ? & ?). done.
Qed.

(** X8: when the platform refuses the create call, [Create] returns its
    error wrapped as [failed to create instance], after that one remote
    call and a [FailedCreate] event if there is a recorder; the object and
    the API server are as they were. *)
Theorem Create_remote_error a st spec (c : BmmClient) (org : string)
    (st1 : State K P) (req : restclient.CreateInstanceJSONRequestBody)
    (e : error) (p' : P) :
  getProviderSpec (machine st) = Ok spec ->
  getNvidiaBmmClient a spec st = (Return (c, org), st1) ->
  buildInstanceRequest (GetName (machine st)) spec = Ok req ->
  CreateInstanceWithResponse c org req (platform st1) = (Err e, p') ->
  Create a st =
    (Raise (Wrapf "failed to create instance" e),
     if eventRecorder a
     then extend (afterCall st1 (BmmCreateInstance c org req) p')
            [Eventf "Warning" "FailedCreate"]
     else afterCall st1 (BmmCreateInstance c org req) p') /\
  machine (snd (Create a st)) = machine st /\
  k8s (snd (Create a st)) = k8s st /\
  k8s_writes (trace (snd (Create a st))) = k8s_writes (trace st).
Proof.
  intros Hspec Hclient Hreq Hcall.
  assert (Hco : is_client_Object (machine st) = true).
  { by destruct (getProviderSpec_Ok _ _ Hspec) as [obj ->]. }
  pose proof (getNvidiaBmmClient_frame a spec st) as Hframe.
  pose proof (getNvidiaBmmClient_writes a spec st) as Hwrites.
  rewrite Hclient in Hframe, Hwrites. cbn [snd] in Hframe, Hwrites.
  destruct Hframe as (Hm1 & Hk1 & _ & _).
  assert (Hrun : Create a st =
    (Raise (Wrapf "failed to create instance" e),
     if eventRecorder a
     then extend (afterCall st1 (BmmCreateInstance c org req) p')
            [Eventf "Warning" "FailedCreate"]
     else afterCall st1 (BmmCreateInstance c org req) p')).
  { unfold Create. exec. rewrite Hco. exec. rewrite Hspec. exec.
    rewrite Hclient. exec. rewrite Hreq. exec.
    unfold callCreateInstance. rewrite Hcall. exec.
    unfold eventf. destruct (eventRecorder a); reflexivity. }
  rewrite Hrun. split; [done|]. cbn [snd].
  destruct (eventRecorder a); cbn [extend afterCall machine k8s trace];
    rewrite ?k8s_writes_snoc; cbn [is_k8s_write]; done.
Qed.

(** X9: a create answer whose instance carries no id makes [Create] panic
    on the nil pointer, after the remote call and before anything is
    written: the instance exists on the platform and nothing records
    it. *)
Theorem Create_instance_without_id a st spec (c : BmmClient) (org : string)
    (st1 : State K P) (req : restclient.CreateInstanceJSONRequestBody)
    (resp : restclient.CreateInstanceResponse) (instance : restclient.Instance)
    (p' : P) :
  getProviderSpec (machine st) = Ok spec ->
  getNvidiaBmmClient a spec st = (Return (c, org), st1) ->
  buildInstanceRequest (GetName (machine st)) spec = Ok req ->
  CreateInstanceWithResponse c org req (platform st1) = (Ok resp, p') ->
  restclient.JSON201 resp = Some instance ->
  restclient.Id instance = None ->
  Create a st = (Panic, afterCall st1 (BmmCreateInstance c org req) p') /\
  machine (snd (Create a st)) = machine st /\
  k8s_writes (trace (snd (Create a st))) = k8s_writes (trace st).
Proof.
  intros Hspec Hclient Hreq Hcall Hpayload Hid.
  assert (Hco : is_client_Object (machine st) = true).
  { by destruct (getProviderSpec_Ok _ _ Hspec) as [obj ->]. }
  pose proof (getNvidiaBmmClient_frame a spec st) as Hframe.
  pose proof (getNvidiaBmmClient_writes a spec st) as Hwrites.
  rewrite Hclient in Hframe, Hwrites. cbn [snd] in Hframe, Hwrites.
  destruct Hframe as (Hm1 & _ & _ & _).
  assert (Hrun : Create a st = (Panic, afterCall st1 (BmmCreateInstance c org req) p')).
  { unfold Create. exec. rewrite Hco. exec. rewrite Hspec. exec.
    rewrite Hclient. exec. rewrite Hreq. exec.
    unfold callCreateInstance. rewrite Hcall. exec. rewrite Hpayload, Hid.
    reflexivity. }
  rewrite Hrun. split; [done|]. cbn [snd afterCall machine trace].
  rewrite k8s_writes_snoc. done.
Qed.

(** X10: when the API server rejects the status write, [Create] returns
    that error under two wraps and stops: the instance was created on the
    platform, the object in memory holds the new status, but
    [spec.providerID] is not written, no update is sent and no event is
    emitted. *)
Theorem Create_status_write_rejected a st (obj : gmap string unstructured.JSON)
    spec (c : BmmClient) (org : string) (st1 : State K P)
    (req : restclient.CreateInstanceJSONRequestBody)
    (resp : restclient.CreateInstanceResponse) (p' : P)
    (instance : restclient.Instance) (id : uuid.UUID)
    (statusMap obj1 : gmap string unstructured.JSON) (e : error) (k1 : K) :
  machine st = Unstructured obj ->
  getProviderSpec (machine st) = Ok spec ->
  getNvidiaBmmClient a spec st = (Return (c, org), st1) ->
  buildInstanceRequest (GetName (machine st)) spec = Ok req ->
  CreateInstanceWithResponse c org req (platform st1) = (Ok resp, p') ->
  restclient.JSON201 resp = Some instance ->
  restclient.Id instance = Some id ->
  Marshal_ProviderStatus (createdStatus id instance) = Ok statusMap ->
  unstructured.SetNestedField obj (unstructured.JObject statusMap)
    ["status"; "providerStatus"] = Ok obj1 ->
  Client_Status_Update (Unstructured obj1) (k8s st1) = (Some e, k1) ->
  Create a st =
    (Raise (Wrapf "failed to update provider status"
              (Wrapf "failed to update machine status" e)),
     {| machine := Unstructured obj1; k8s := k1; platform := p';
        trace := (trace st1 ++ [BmmCreateInstance c org req;
                                K8sStatusUpdate (Unstructured obj1)])%list |}) /\
  providerID_of (Unstructured obj1) = providerID_of (machine st).
Proof.
  intros Hobj Hspec Hclient Hreq Hcall Hpayload Hid Hmarshal Hset Hupd.
  assert (Hco : is_client_Object (machine st) = true) by (by rewrite Hobj).
  pose proof (getNvidiaBmmClient_frame a spec st) as Hframe.
  rewrite Hclient in Hframe. cbn [snd] in Hframe.
  destruct Hframe as (Hm1 & _ & _ & _).
  split.
  - unfold Create. exec. rewrite Hco. exec. rewrite Hspec. exec.
    rewrite Hclient. exec. rewrite Hreq. exec.
    unfold callCreateInstance. rewrite Hcall. exec. rewrite Hpayload, Hid. exec.
    unfold setProviderStatus. exec. cbn [machine k8s platform trace].
    rewrite Hm1, Hobj. fold (createdStatus id instance). rewrite Hmarshal, Hset. exec.
    unfold clientStatusUpdate. cbn [machine k8s platform trace]. rewrite Hupd.
    by rewrite <- List.app_assoc.
  - rewrite Hobj. cbn [providerID_of].
    by eapply (SetNestedField_other "status" "spec").
Qed.

(** X11: when the API server accepts the status write and rejects the
    identity write, [Create] returns that error under two wraps: the
    status with the instance id is stored, [spec.providerID] is set in
    memory only, and no event is emitted. *)
Theorem Create_identity_write_rejected a st (obj : gmap string unstructured.JSON)
    spec (c : BmmClient) (org : string) (st1 : State K P)
    (req : restclient.CreateInstanceJSONRequestBody)
    (resp : restclient.CreateInstanceResponse) (p' : P)
    (instance : restclient.Instance) (id : uuid.UUID)
    (statusMap obj1 obj2 : gmap string unstructured.JSON) (e : error) (k1 k2 : K) :
  machine st = Unstructured obj ->
  getProviderSpec (machine st) = Ok spec ->
  getNvidiaBmmClient a spec st = (Return (c, org), st1) ->
  buildInstanceRequest (GetName (machine st)) spec = Ok req ->
  CreateInstanceWithResponse c org req (platform st1) = (Ok resp, p') ->
  restclient.JSON201 resp = Some instance ->
  restclient.Id instance = Some id ->
  Marshal_ProviderStatus (createdStatus id instance) = Ok statusMap ->
  unstructured.SetNestedField obj (unstructured.JObject statusMap)
    ["status"; "providerStatus"] = Ok obj1 ->
  Client_Status_Update (Unstructured obj1) (k8s st1) = (None, k1) ->
  unstructured.SetNestedField obj1
    (unstructured.JString
       (providerid.ProviderID_String
          (providerid.NewProviderID org (TenantID spec) (SiteID spec) id)))
    ["spec"; "providerID"] = Ok obj2 ->
  Client_Update (Unstructured obj2) k1 = (Some e, k2) ->
  Create a st =
    (Raise (Wrapf "failed to set provider ID" (Wrapf "failed to update machine" e)),
     {| machine := Unstructured obj2; k8s := k2; platform := p';
        trace := (trace st1 ++ [BmmCreateInstance c org req;
                                K8sStatusUpdate (Unstructured obj1);
                                K8sUpdate (Unstructured obj2)])%list |}).
Proof.
  intros Hobj Hspec Hclient Hreq Hcall Hpayload Hid Hmarshal Hset1 Hupd1 Hset2 Hupd2.
  assert (Hco : is_client_Object (machine st) = true) by (by rewrite Hobj).
  pose proof (getNvidiaBmmClient_frame a spec st) as Hframe.
  rewrite Hclient in Hframe. cbn [snd] in Hframe.
  destruct Hframe as (Hm1 & _ & _ & _).
  unfold Create. exec. rewrite Hco. exec. rewrite Hspec. exec.
  rewrite Hclient. exec. rewrite Hreq. exec.
  unfold callCreateInstance. rewrite Hcall. exec. rewrite Hpayload, Hid. exec.
  unfold setProviderStatus. exec. cbn [machine k8s platform trace].
  rewrite Hm1, Hobj. fold (createdStatus id instance). rewrite Hmarshal, Hset1. exec.
  unfold clientStatusUpdate. cbn [machine k8s platform trace]. rewrite Hupd1. exec.
  unfold setProviderID. exec. cbn [machine k8s platform trace].
  rewrite Hset2. exec.
  unfold clientUpdate. cbn [machine k8s platform trace]. rewrite Hupd2.
  by rewrite <- !List.app_assoc.
Qed.

(** X12: for a machine whose spec decodes and whose status records no
    instance, the three methods disagree: [Exists] answers [false],
    [Delete] succeeds and [Update] fails; none of them does anything. *)
Theorem methods_without_instance a st spec
    (status : NvidiaBMMMachineProviderStatus) :
  getProviderSpec (machine st) = Ok spec ->
  getProviderStatus (machine st) = Ok status ->
  InstanceID status = None ->
  Exists a st = (Return false, st) /\
  Delete a st = (Return tt, st) /\
  Update a st = (Raise (Errorf "instance ID not set in provider status"), st).
Proof.
  intros Hspec Hstatus Hnone.
  assert (Hco : is_client_Object (machine st) = true).
  { by destruct (getProviderSpec_Ok _ _ Hspec) as [obj ->]. }
  split; [by eapply Exists_without_instance|]. split.
  - unfold Delete. exec. rewrite Hco. exec. rewrite Hspec. exec.
    rewrite Hstatus. exec. by rewrite Hnone.
  - unfold Update. exec. rewrite Hco. exec. rewrite Hspec. exec.
    rewrite Hstatus. exec. by rewrite Hnone.
Qed.

(** X13: a failing get-instance call is an error for [Update], wrapped as
    [failed to get instance], and the answer [false] without error for
    [Exists]; both leave the object and the API server as they were. *)
Theorem get_error_Update_Exists a st spec
    (status : NvidiaBMMMachineProviderStatus) (instanceID : string)
    (c : BmmClient) (org : string) (st1 : State K P) (u : uuid.UUID)
    (e : error) (p' : P) :
  getProviderSpec (machine st) = Ok spec ->
  getProviderStatus (machine st) = Ok status ->
  InstanceID status = Some instanceID ->
  getNvidiaBmmClient a spec st = (Return (c, org), st1) ->
  uuid.Parse instanceID = Ok u ->
  GetInstanceWithResponse c org u (platform st1) = (Err e, p') ->
  Update a st = (Raise (Wrapf "failed to get instance" e),
                 afterCall st1 (BmmGetInstance c org u) p') /\
  Exists a st = (Return false, afterCall st1 (BmmGetInstance c org u) p') /\
  machine (afterCall st1 (BmmGetInstance c org u) p') = machine st /\
  k8s (afterCall st1 (BmmGetInstance c org u) p') = k8s st.
Proof.
  intros Hspec Hstatus Hsome Hclient Hparse Hcall.
  assert (Hco : is_client_Object (machine st) = true).
  { by destruct (getProviderSpec_Ok _ _ Hspec) as [obj ->]. }
  pose proof (getNvidiaBmmClient_frame a spec st) as Hframe.
  rewrite Hclient in Hframe. cbn [snd] in Hframe.
  destruct Hframe as (Hm1 & Hk1 & _ & _).
  split; [|split; [|done]].
  - unfold Update. exec. rewrite Hco. exec. rewrite Hspec. exec.
    rewrite Hstatus. exec. rewrite Hsome. exec. rewrite Hclient. exec.
    unfold parseUUID. rewrite Hparse. exec.
    unfold callGetInstance. by rewrite Hcall.
  - unfold Exists. exec. rewrite Hco. exec. rewrite Hstatus. exec.
    rewrite Hsome. exec. rewrite Hspec. exec. rewrite Hclient. exec.
    unfold parseUUID. rewrite Hparse. exec.
    unfold callGetInstance. by rewrite Hcall.
Qed.

(** X14: a recorded instance id that is no UUID is an error for all three
    methods that use it, [Exists] included, raised after the credentials
    resolved and before any remote call. *)
Theorem malformed_instance_id a st spec
    (status : NvidiaBMMMachineProviderStatus) (instanceID : string)
    (c : BmmClient) (org : string) (st1 : State K P) (e : error) :
  getProviderSpec (machine st) = Ok spec ->
  getProviderStatus (machine st) = Ok status ->
  InstanceID status = Some instanceID ->
  getNvidiaBmmClient a spec st = (Return (c, org), st1) ->
  uuid.Parse instanceID = Err e ->
  Exists a st = (Raise (Wrapf "failed to parse instance ID" e), st1) /\
  Update a st = (Raise (Wrapf "failed to parse instance ID" e), st1) /\
  Delete a st = (Raise (Wrapf "failed to parse instance ID" e), st1) /\
  remote_calls (trace st1) = remote_calls (trace st).
Proof.
  intros Hspec Hstatus Hsome Hclient Hparse.
  assert (Hco : is_client_Object (machine st) = true).
  { by destruct (getProviderSpec_Ok _ _ Hspec) as [obj ->]. }
  pose proof (getNvidiaBmmClient_frame a spec st) as Hframe.
  rewrite Hclient in Hframe. cbn [snd] in Hframe.
  destruct Hframe as (_ & _ & _ & Hr).
  split; [|split; [|split; [|done]]].
  - unfold Exists. exec. rewrite Hco. exec. rewrite Hstatus. exec.
    rewrite Hsome. exec. rewrite Hspec. exec. rewrite Hclient. exec.
    unfold parseUUID. by rewrite Hparse.
  - unfold Update. exec. rewrite Hco. exec. rewrite Hspec. exec.
    rewrite Hstatus. exec. rewrite Hsome. exec. rewrite Hclient. exec.
    unfold parseUUID. by rewrite Hparse.
  - unfold Delete. exec. rewrite Hco. exec. rewrite Hspec. exec.
    rewrite Hstatus. exec. rewrite Hsome. exec. rewrite Hclient. exec.
    unfold parseUUID. by rewrite Hparse.
Qed.

(** X15: an object that is not of the unstructured type is rejected by
    every method before anything is done: a value that is no
    [client.Object] by the method, any other by the first helper it
    calls, which is [getProviderStatus] for [Exists] and
    [getProviderSpec] for the other three. *)
Theorem non_unstructured_rejected a st :
  is_unstructured (machine st) = false ->
  Create a st =
    (Raise (typeAssertionError "failed to get provider spec" (machine st)), st) /\
  Update a st =
    (Raise (typeAssertionError "failed to get provider spec" (machine st)), st) /\
  Exists a st =
    (Raise (typeAssertionError "failed to get provider status" (machine st)), st) /\
  Delete a st =
    (Raise (typeAssertionError "failed to get provider spec" (machine st)), st).
Proof.
  intros Hun. unfold Create, Update, Exists, Delete, typeAssertionError. exec.
  destruct (machine st) as [obj|m|]; [discriminate|..]; done.
Qed.

(** The two writers touch the API server and the object, never the
    platform. *)
Lemma setProviderStatus_remote (status : NvidiaBMMMachineProviderStatus) st :
  platform (snd (setProviderStatus status st)) = platform st /\
  remote_calls (trace (snd (setProviderStatus status st))) = remote_calls (trace st).
Proof.
  unfold setProviderStatus. exec.
  destruct (machine st) as [obj| |]; [|done..].
  destruct (Marshal_ProviderStatus status) as [statusMap|]; [|done].
  destruct (unstructured.SetNestedField _ _ _) as [obj'|]; [|done]. exec.
  unfold clientStatusUpdate. cbn [machine k8s platform trace].
  destruct (Client_Status_Update _ _) as [[e|] k']; cbn [snd platform trace];
    by rewrite remote_calls_snoc.
Qed.

Lemma setProviderID_remote (providerID : string) st :
  platform (snd (setProviderID providerID st)) = platform st /\
  remote_calls (trace (snd (setProviderID providerID st))) = remote_calls (trace st).
Proof.
  unfold setProviderID. exec.
  destruct (machine st) as [obj| |]; [|done..].
  destruct (unstructured.SetNestedField _ _ _) as [obj'|]; [|done]. exec.
  unfold clientUpdate. cbn [machine k8s platform trace].
  destruct (Client_Update _ _) as [[e|] k']; cbn [snd platform trace];
    by rewrite remote_calls_snoc.
Qed.

Lemma eventf_remote a (eventtype reason : string) st :
  remote_calls (trace (snd (eventf a eventtype reason st))) = remote_calls (trace st).
Proof.
  unfold eventf. destruct (eventRecorder a); [|done].
  cbn. by rewrite remote_calls_snoc.
Qed.

Lemma at_most_one_remote_none (kind : Call -> bool) (t t' : list Call) :
  remote_calls t' = remote_calls t -> at_most_one_remote kind t t'.
Proof. by left. Qed.

Lemma at_most_one_remote_one (kind : Call -> bool) (t t1 t' : list Call) (c : Call) :
  kind c = true -> is_remote_call c = true ->
  remote_calls t1 = remote_calls t ->
  remote_calls t' = remote_calls (t1 ++ [c]) ->
  at_most_one_remote kind t t'.
Proof.
  intros Hk Hc H1 H'. right. exists c. split; [done|].
  by rewrite H', remote_calls_snoc, Hc, H1.
Qed.

Lemma Create_remote a st :
  at_most_one_remote is_create_call (trace st) (trace (snd (Create a st))).
Proof.
  unfold Create. exec.
  destruct (is_client_Object (machine st)); exec; [|by left].
  destruct (getProviderSpec (machine st)) as [spec|]; exec; [|by left].
  pose proof (getNvidiaBmmClient_frame a spec st) as Hframe.
  destruct (getNvidiaBmmClient a spec st) as [[[c org]| |] st1];
    cbn [snd] in Hframe; destruct Hframe as (_ & _ & _ & Hr); exec;
    try (by left).
  destruct (buildInstanceRequest _ _) as [req|]; exec; [|by left].
  unfold callCreateInstance.
  destruct (CreateInstanceWithResponse c org req (platform st1)) as [[resp|e] p']; exec.
  2:{ eapply (at_most_one_remote_one _ _ (trace st1) _ (BmmCreateInstance c org req));
        [done..|].
      match goal with
      | |- context [eventf a ?x ?y ?s] =>
          pose proof (eventf_remote a x y s) as He;
          destruct (eventf a x y s) as [[[]| |] s']
      end; exact He. }
  destruct (restclient.JSON201 resp) as [instance|]; exec.
  2:{ eapply (at_most_one_remote_one _ _ (trace st1) _ (BmmCreateInstance c org req));
        [done..|].
      match goal with
      | |- context [eventf a ?x ?y ?s] =>
          pose proof (eventf_remote a x y s) as He;
          destruct (eventf a x y s) as [[[]| |] s']
      end; exact He. }
  eapply (at_most_one_remote_one _ _ (trace st1) _ (BmmCreateInstance c org req));
    [done..|].
  destruct (restclient.Id instance) as [id|]; exec; [|done].
  match goal with
  | |- context [setProviderStatus ?x ?s] =>
      pose proof (setProviderStatus_remote x s) as [_ Hs];
      destruct (setProviderStatus x s) as [[[]| |] s2]
  end; cbn [snd trace] in Hs; exec; try exact Hs.
  match goal with
  | |- context [setProviderID ?x ?s] =>
      pose proof (setProviderID_remote x s) as [_ Hi];
      destruct (setProviderID x s) as [[[]| |] s3]
  end; cbn [snd trace] in Hi; exec; try (by rewrite Hi).
  match goal with
  | |- context [eventf a ?x ?y ?s] =>
      pose proof (eventf_remote a x y s) as He;
      destruct (eventf a x y s) as [[[]| |] s']
  end; cbn [snd] in He |- *; by rewrite He, Hi.
Qed.

Lemma Update_remote a st :
  at_most_one_remote is_get_call (trace st) (trace (snd (Update a st))).
Proof.
  unfold Update. exec.
  destruct (is_client_Object (machine st)); exec; [|by left].
  destruct (getProviderSpec (machine st)) as [spec|]; exec; [|by left].
  destruct (getProviderStatus (machine st)) as [status|]; exec; [|by left].
  destruct (InstanceID status) as [instanceID|]; exec; [|by left].
  pose proof (getNvidiaBmmClient_frame a spec st) as Hframe.
  destruct (getNvidiaBmmClient a spec st) as [[[c org]| |] st1];
    cbn [snd] in Hframe; destruct Hframe as (_ & _ & _ & Hr); exec;
    try (by left).
  unfold parseUUID. destruct (uuid.Parse instanceID) as [u|]; exec; [|by left].
  unfold callGetInstance.
  eapply (at_most_one_remote_one _ _ (trace st1) _ (BmmGetInstance c org u)); [done..|].
  destruct (GetInstanceWithResponse c org u (platform st1)) as [[resp|e] p']; exec;
    [|done].
  destruct (restclient.JSON200 resp) as [instance|]; exec; [|done].
  match goal with
  | |- context [setProviderStatus ?x ?s] =>
      pose proof (setProviderStatus_remote x s) as [_ Hs];
      destruct (setProviderStatus x s) as [[[]| |] s2]
  end; exact Hs.
Qed.

(** [Exists] reads: the object, the API server and the writes sent to it
    stay as they are, and at most one get-instance call is made. *)
Lemma Exists_frame a st :
  machine (snd (Exists a st)) = machine st /\
  k8s (snd (Exists a st)) = k8s st /\
  k8s_writes (trace (snd (Exists a st))) = k8s_writes (trace st) /\
  at_most_one_remote is_get_call (trace st) (trace (snd (Exists a st))).
Proof.
  unfold Exists. exec.
  destruct (is_client_Object (machine st)); exec; [|by repeat split; try left].
  destruct (getProviderStatus (machine st)) as [status|]; exec;
    [|by repeat split; try left].
  destruct (InstanceID status) as [instanceID|]; exec; [|by repeat split; try left].
  destruct (getProviderSpec (machine st)) as [spec|]; exec; [|by repeat split; try left].
  pose proof (getNvidiaBmmClient_frame a spec st) as Hframe.
  pose proof (getNvidiaBmmClient_writes a spec st) as Hw.
  destruct (getNvidiaBmmClient a spec st) as [[[c org]| |] st1];
    cbn [snd] in Hframe, Hw; destruct Hframe as (Hm & Hk & _ & Hr); exec;
    try (by repeat split; try left).
  unfold parseUUID. destruct (uuid.Parse instanceID) as [u|]; exec;
    [|by repeat split; try left].
  unfold callGetInstance.
  destruct (GetInstanceWithResponse c org u (platform st1)) as [[resp|e] p']; exec;
    cbn [snd machine k8s trace]; rewrite k8s_writes_snoc; cbn [is_k8s_write];
    (split; [done|]; split; [done|]; split; [done|]);
    by eapply (at_most_one_remote_one _ _ (trace st1) _ (BmmGetInstance c org u)).
Qed.

(** [Delete] changes neither the object nor the API server, and makes at
    most one delete-instance call. *)
Lemma Delete_frame a st :
  machine (snd (Delete a st)) = machine st /\
  k8s (snd (Delete a st)) = k8s st /\
  k8s_writes (trace (snd (Delete a st))) = k8s_writes (trace st) /\
  at_most_one_remote is_delete_call (trace st) (trace (snd (Delete a st))).
Proof.
  unfold Delete. exec.
  destruct (is_client_Object (machine st)); exec; [|by repeat split; try left].
  destruct (getProviderSpec (machine st)) as [spec|]; exec; [|by repeat split; try left].
  destruct (getProviderStatus (machine st)) as [status|]; exec;
    [|by repeat split; try left].
  destruct (InstanceID status) as [instanceID|]; exec; [|by repeat split; try left].
  pose proof (getNvidiaBmmClient_frame a spec st) as Hframe.
  pose proof (getNvidiaBmmClient_writes a spec st) as Hw.
  destruct (getNvidiaBmmClient a spec st) as [[[c org]| |] st1];
    cbn [snd] in Hframe, Hw; destruct Hframe as (Hm & Hk & _ & Hr); exec;
    try (by repeat split; try left).
  unfold parseUUID. destruct (uuid.Parse instanceID) as [u|]; exec;
    [|by repeat split; try left].
  unfold callDeleteInstance, eventf.
  destruct (DeleteInstanceWithResponse c org u (platform st1)) as [[resp|e] p']; exec.
  - destruct (restclient.StatusCode resp =? 204)%Z,
             (restclient.StatusCode resp =? 404)%Z; cbn [andb];
      destruct (eventRecorder a); exec; cbn [snd machine k8s trace];
      rewrite ?k8s_writes_snoc; cbn [is_k8s_write];
      (split; [done|]; split; [done|]; split; [done|]);
      eapply (at_most_one_remote_one _ _ (trace st1) _ (BmmDeleteInstance c org u));
      try done; by rewrite ?(remote_calls_snoc (_ ++ _)).
  - destruct (eventRecorder a); exec; cbn [snd machine k8s trace];
      rewrite ?k8s_writes_snoc; cbn [is_k8s_write];
      (split; [done|]; split; [done|]; split; [done|]);
      eapply (at_most_one_remote_one _ _ (trace st1) _ (BmmDeleteInstance c org u));
      try done; by rewrite ?(remote_calls_snoc (_ ++ _)).
Qed.

(** X16: each method of the actuator makes at most one remote call, and
    only of its own kind: [Create] a create call, [Update] and [Exists] a
    get call, [Delete] a delete call. *)
Theorem one_remote_call_per_method a st :
  at_most_one_remote is_create_call (trace st) (trace (snd (Create a st))) /\
  at_most_one_remote is_get_call (trace st) (trace (snd (Update a st))) /\
  at_most_one_remote is_get_call (trace st) (trace (snd (Exists a st))) /\
  at_most_one_remote is_delete_call (trace st) (trace (snd (Delete a st))).
Proof.
  split; [apply Create_remote|]. split; [apply Update_remote|].
  split; [apply Exists_frame|apply Delete_frame].
Qed.

(** X17: [Exists] and [Delete] never write: the object in memory and the
    API server are as before, and no update or status update is sent.  So
    a [Delete] that removed the instance leaves the instance id in the
    status. *)
Theorem Exists_Delete_read_only a st :
  (machine (snd (Exists a st)) = machine st /\
   k8s (snd (Exists a st)) = k8s st /\
   k8s_writes (trace (snd (Exists a st))) = k8s_writes (trace st)) /\
  (machine (snd (Delete a st)) = machine st /\
   k8s (snd (Delete a st)) = k8s st /\
   k8s_writes (trace (snd (Delete a st))) = k8s_writes (trace st) /\
   getProviderStatus (machine (snd (Delete a st))) = getProviderStatus (machine st)).
Proof.
  destruct (Exists_frame a st) as (H1 & H2 & H3 & _).
  destruct (Delete_frame a st) as (H4 & H5 & H6 & _).
  rewrite H4. done.
Qed.

(** X18: [setProviderStatus] changes the object in memory before it asks
    the API server, so whether or not the write is accepted the object
    then holds the marshalled status: [getProviderStatus] reads back what
    decoding that document gives, and the provider spec is untouched.  The
    call succeeds exactly when the API server accepts the write. *)
Theorem setProviderStatus_read_back (status : NvidiaBMMMachineProviderStatus) st
    (obj statusMap obj1 : gmap string unstructured.JSON) :
  machine st = Unstructured obj ->
  Marshal_ProviderStatus status = Ok statusMap ->
  unstructured.SetNestedField obj (unstructured.JObject statusMap)
    ["status"; "providerStatus"] = Ok obj1 ->
  machine (snd (setProviderStatus status st)) = Unstructured obj1 /\
  getProviderStatus (Unstructured obj1) =
    match Unmarshal_ProviderStatus (unstructured.JObject statusMap) with
    | Ok decoded => Ok decoded
    | Err e => Err (Wrapf "failed to unmarshal providerStatus" e)
    end /\
  getProviderSpec (Unstructured obj1) = getProviderSpec (machine st) /\
  (fst (setProviderStatus status st) = Return tt <->
   fst (Client_Status_Update (Unstructured obj1) (k8s st)) = None).
Proof.
  intros Hobj Hmarshal Hset.
  assert (Hrun : setProviderStatus status st =
    (match fst (Client_Status_Update (Unstructured obj1) (k8s st)) with
     | Some e => Raise (Wrapf "failed to update machine status" e)
     | None => Return tt
     end,
     {| machine := Unstructured obj1;
        k8s := snd (Client_Status_Update (Unstructured obj1) (k8s st));
        platform := platform st;
        trace := trace st ++ [K8sStatusUpdate (Unstructured obj1)] |})).
  { unfold setProviderStatus. exec. rewrite Hobj, Hmarshal, Hset. exec.
    unfold clientStatusUpdate. cbn [machine k8s platform trace].
    by destruct (Client_Status_Update (Unstructured obj1) (k8s st)) as [[e|] k']. }
  rewrite Hrun. cbn [fst snd machine].
  split; [done|]. split.
  { unfold getProviderStatus.
    by rewrite (NestedFieldCopy_SetNestedField ["status"; "providerStatus"] obj obj1 _
                  ltac:(done) Hset). }
  split.
  { rewrite Hobj. unfold getProviderSpec.
    by rewrite (SetNestedField_other "status" "spec" ["providerStatus"]
                  ["providerSpec"; "value"] obj obj1 _ ltac:(done) Hset). }
  by destruct (fst (Client_Status_Update (Unstructured obj1) (k8s st))).
Qed.

End ActuatorMore.

(** ** The reconciler beyond the finalizer *)

Section ReconcilerMore.

Import controllerutil machine_controller.

Context {K P : Type} `{!Client K} `{!NvidiaBMMClientInterface P} `{!JSONCodec}.

Implicit Types (r : MachineReconciler K P) (st : State K P) (m : Machine).

(** A pass that finds no machine only reads. *)
Lemma Reconcile_without_machine_state r (req : ObjectKey) st :
  (forall m, Client_Get_Machine req (k8s st) <> MachineFound m) ->
  snd (Reconcile r req st) = extend st [K8sGetMachine req].
Proof.
  intros Hnone. unfold Reconcile, Get. exec.
  destruct (Client_Get_Machine req (k8s st)) as [m|e|e]; [by destruct (Hnone m)|done..].
Qed.

(** X19: when the machine is not found or cannot be read, a pass ends at
    once: nothing but the read reaches the API server, no method of the
    actuator is entered, and the result is the empty one, with the error
    of the read unless it is a not-found error. *)
Theorem Reconcile_without_machine r (req : ObjectKey) st :
  (forall m, Client_Get_Machine req (k8s st) <> MachineFound m) ->
  Reconcile r req st =
    (Return (Result_zero,
             match Client_Get_Machine req (k8s st) with
             | MachineGetError e => Some e
             | _ => None
             end),
     extend st [K8sGetMachine req]).
Proof.
  intros Hnone. unfold Reconcile, Get. exec.
  destruct (Client_Get_Machine req (k8s st)) as [m|e|e]; [by destruct (Hnone m)|done..].
Qed.


(** X21: the reconciler of this repository hands the actuator the typed
    machine it fetched, and the actuator accepts unstructured objects
    only.  So no pass reaches the platform; a machine that holds the
    finalizer gets the type error of [Exists] and a delay of 30 seconds;
    a machine being deleted gets the type error of [Delete], nothing is
    written and its finalizer stays. *)
Theorem Reconcile_typed_machine (a : machine_actuator.Actuator)
    (req : ObjectKey) st :
  let r := NewMachineReconciler a in
  platform (snd (Reconcile r req st)) = platform st /\
  remote_calls (trace (snd (Reconcile r req st))) = remote_calls (trace st) /\
  (forall m,
     Client_Get_Machine req (k8s st) = MachineFound m ->
     DeletionTimestamp_IsZero (TypedMachine m) = true ->
     ContainsFinalizer (TypedMachine m) MachineFinalizer = true ->
     Reconcile r req st =
       (Return ({| Requeue := false; RequeueAfter := 30 |},
                Some (Wrapf "failed to get provider status"
                        (Errorf "machine is not unstructured"))),
        entering (fetched st req m) "Exists")) /\
  (forall m,
     Client_Get_Machine req (k8s st) = MachineFound m ->
     DeletionTimestamp_IsZero (TypedMachine m) = false ->
     Reconcile r req st =
       (Return (Result_zero,
                Some (Wrapf "failed to get provider spec"
                        (Errorf "machine is not unstructured"))),
        entering (fetched st req m) "Delete")).
Proof.
  intros r.
  assert (Hdel : forall m,
     Client_Get_Machine req (k8s st) = MachineFound m ->
     DeletionTimestamp_IsZero (TypedMachine m) = false ->
     Reconcile r req st =
       (Return (Result_zero,
                Some (Wrapf "failed to get provider spec"
                        (Errorf "machine is not unstructured"))),
        entering (fetched st req m) "Delete")).
  { intros m Hget Hz. unfold Reconcile, Get. exec. rewrite Hget. exec.
    cbn [machine]. rewrite Hz. reflexivity. }
  assert (Hnorm : forall m,
     Client_Get_Machine req (k8s st) = MachineFound m ->
     DeletionTimestamp_IsZero (TypedMachine m) = true ->
     ContainsFinalizer (TypedMachine m) MachineFinalizer = true ->
     Reconcile r req st =
       (Return ({| Requeue := false; RequeueAfter := 30 |},
                Some (Wrapf "failed to get provider status"
                        (Errorf "machine is not unstructured"))),
        entering (fetched st req m) "Exists")).
  { intros m Hget Hz Hf. unfold Reconcile, Get. exec. rewrite Hget. exec.
    cbn [machine]. rewrite Hz. exec. unfold reconcileNormal. exec.
    cbn [machine]. rewrite Hf. reflexivity. }
  assert (Hplat : platform (snd (Reconcile r req st)) = platform st /\
                  remote_calls (trace (snd (Reconcile r req st))) = remote_calls (trace st)).
  { destruct (Client_Get_Machine req (k8s st)) as [m|e|e] eqn:Hget.
    2,3: rewrite Reconcile_without_machine_state by (by rewrite Hget);
         cbn [snd extend platform trace]; by rewrite remote_calls_snoc.
    destruct (DeletionTimestamp_IsZero (TypedMachine m)) eqn:Hz.
    2:{ rewrite (Hdel m eq_refl Hz). cbn [snd entering fetched platform trace].
        by rewrite !remote_calls_snoc. }
    destruct (ContainsFinalizer (TypedMachine m) MachineFinalizer) eqn:Hf.
    { rewrite (Hnorm m eq_refl Hz Hf). cbn [snd entering fetched platform trace].
      by rewrite !remote_calls_snoc. }
    unfold Reconcile, Get. exec. rewrite Hget. exec. cbn [machine].
    rewrite Hz. exec. unfold reconcileNormal. exec. cbn [machine]. rewrite Hf. exec.
    unfold Update. cbn [machine k8s platform trace].
    destruct (Client_Update _ _) as [[e|] k']; exec; cbn [snd platform trace];
      by rewrite !remote_calls_snoc. }
  destruct Hplat as [Hp Hr]. done.
Qed.

End ReconcilerMore.

(** ** The MachineSet reconciler *)

Section MachineSetProperties.

Import machine_controller machineset_controller.

Context {K : Type} `{!SetClient K}.

Implicit Types (s : SetState K) (machineSet : MachineSet).


(** The placeholder creates nothing, however often it is called. *)
Lemma scaleUp_nothing (n : nat) machineSet s :
  scaleUp n machineSet s = (Return tt, s).
Proof. induction n as [|n IH]; [done|]. cbn [scaleUp createMachine]. exact IH. Qed.

(** Without machines in hand the scale-down loop has nothing to delete. *)
Lemma scaleDown_nothing (n : nat) (i : Z) s :
  (0 <= i)%Z -> scaleDown n i [] s = (Return tt, s).
Proof.
  revert i. induction n as [|n IH]; intros i Hi; [done|].
  cbn [scaleDown List.length]. change (int32 (Z.of_nat 0)) with 0%Z.
  destruct (Z.ltb_spec i 0); [lia|]. apply IH. lia.
Qed.

(** X22: a pass of the MachineSet reconciler only reads the MachineSet: it
    never creates and never deletes a machine, whatever replica count is
    asked.  A MachineSet that asks for any count other than zero, negative
    ones included, is requeued at once on every pass; with zero or no
    count the pass asks for a delay of 30 seconds. *)
Theorem MachineSet_Reconcile_only_reads (req : ObjectKey) s :
  snd (Reconcile req s) =
    {| api := api s; requests := requests s ++ [GetMachineSet req] |} /\
  fst (Reconcile req s) =
    Return (match Client_Get_MachineSet req (api s) with
            | MachineSetNotFound _ => (Result_zero, None)
            | MachineSetGetError err => (Result_zero, Some err)
            | MachineSetFound machineSet =>
                match Replicas machineSet with
                | None | Some 0%Z => ({| Requeue := false; RequeueAfter := 30 |}, None)
                | Some _ => ({| Requeue := true; RequeueAfter := 0 |}, None)
                end
            end).
Proof.
  unfold Reconcile.
  destruct (Client_Get_MachineSet req (api s)) as [machineSet|e|e]; [|done..].
  unfold reconcileReplicas, currentMachines. cbn [List.length].
  change (int32 (Z.of_nat 0)) with 0%Z.
  destruct (Replicas machineSet) as [n|]; [|done].
  destruct (Z.ltb_spec 0 n) as [Hpos|Hle].
  - rewrite scaleUp_nothing. by destruct n.
  - destruct (Z.ltb_spec n 0) as [Hneg|Hge].
    + rewrite scaleDown_nothing by lia. by destruct n.
    + by replace n with 0%Z by lia.
Qed.



End MachineSetProperties.

(** ** Further runs of the fixtures through the model *)

Section FixturesMore.

Import v1beta1 machine_actuator envtest samples.

Local Existing Instances fakeClient mockClient codec fakeSetClient.

Lemma getNvidiaBmmClient_resolution_witness :
  fst (getNvidiaBmmClient secretActuator multiNicSpec fresh) =
    Return (ClientWithAuth "https://api.nvidia-bmm.test" "test-token", "test-org").
Proof.
  destruct (getNvidiaBmmClient_resolution secretActuator multiNicSpec fresh)
    as [_ Hsecret].
  destruct Hsecret as [_ Hiff]; [reflexivity|].
  apply Hiff. exists credentials, "https://api.nvidia-bmm.test", "test-token".
  repeat split; reflexivity.
Defined.

Lemma Create_invalid_request_witness :
  let st := initial (Unstructured (machineWith badSubnetSpecValue)) apiServer defaultMock in
  exists e, Create actuator st = (Raise (Wrapf "failed to parse subnet ID" e), st).
Proof.
  intros st.
  edestruct (Create_invalid_request actuator st) as (Hrun & _); [reflexivity..|].
  eexists. eapply Hrun. reflexivity.
Defined.

Lemma Create_remote_error_witness :
  let st := initial (Unstructured testMachine) apiServer refusingMock in
  fst (Create actuator st) =
    Raise (Wrapf "failed to create instance" (Errorf "quota exceeded")) /\
  machine (snd (Create actuator st)) = machine st.
Proof.
  intros st.
  edestruct (Create_remote_error actuator st) as (Hrun & Hm & _); [reflexivity..|].
  split; [|exact Hm]. rewrite Hrun. reflexivity.
Defined.

Lemma Create_instance_without_id_witness :
  let st := initial (Unstructured testMachine) apiServer anonymousMock in
  fst (Create actuator st) = Panic.
Proof.
  intros st.
  edestruct (Create_instance_without_id actuator st) as (Hrun & _); [reflexivity..|].
  rewrite Hrun. reflexivity.
Defined.

Lemma Create_status_write_rejected_witness :
  let st := initial (Unstructured testMachine) statusRejecting defaultMock in
  fst (Create actuator st) =
    Raise (Wrapf "failed to update provider status"
             (Wrapf "failed to update machine status" (Errorf "conflict"))) /\
  providerID_of (machine (snd (Create actuator st))) = Ok None.
Proof.
  intros st.
  edestruct (Create_status_write_rejected actuator st) as (Hrun & Hpid);
    [reflexivity..|].
  rewrite Hrun. cbn [fst snd machine]. split; [reflexivity|].
  rewrite Hpid. reflexivity.
Defined.

Lemma Create_identity_write_rejected_witness :
  let st := initial (Unstructured testMachine) updateRejecting defaultMock in
  fst (Create actuator st) =
    Raise (Wrapf "failed to set provider ID"
             (Wrapf "failed to update machine" (Errorf "conflict"))).
Proof.
  intros st.
  erewrite (Create_identity_write_rejected actuator st); reflexivity.
Defined.

Lemma methods_without_instance_witness :
  Exists actuator fresh = (Return false, fresh) /\
  Delete actuator fresh = (Return tt, fresh) /\
  Update actuator fresh =
    (Raise (Errorf "instance ID not set in provider status"), fresh).
Proof.
  eapply (methods_without_instance actuator fresh); reflexivity.
Defined.

Lemma get_error_Update_Exists_witness :
  let st := initial (Unstructured readyMachine) apiServer flakyMock in
  fst (Update actuator st) =
    Raise (Wrapf "failed to get instance" (Errorf "connection refused")) /\
  fst (Exists actuator st) = Return false.
Proof.
  intros st.
  edestruct (get_error_Update_Exists actuator st) as (Hu & He & _); [reflexivity..|].
  rewrite Hu, He. split; reflexivity.
Defined.

Lemma malformed_instance_id_witness :
  let st := initial (Unstructured machineWithBadInstanceId) apiServer defaultMock in
  exists e,
    Exists actuator st = (Raise (Wrapf "failed to parse instance ID" e), st) /\
    Delete actuator st = (Raise (Wrapf "failed to parse instance ID" e), st).
Proof.
  intros st.
  edestruct (malformed_instance_id actuator st) as (He & _ & Hd & _); [reflexivity..|].
  eexists. split; [exact He|exact Hd].
Defined.

Lemma non_unstructured_rejected_witness :
  let st := initial (TypedMachine newMachine) apiServer defaultMock in
  Exists actuator st =
    (Raise (Wrapf "failed to get provider status"
              (Errorf "machine is not unstructured")), st) /\
  Create actuator (initial NotClientObject apiServer defaultMock) =
    (Raise (Errorf "machine is not a client.Object"),
     initial NotClientObject apiServer defaultMock).
Proof.
  intros st. split.
  - destruct (non_unstructured_rejected actuator st) as (_ & _ & H & _);
      [reflexivity|exact H].
  - destruct (non_unstructured_rejected actuator
                (initial NotClientObject apiServer defaultMock)) as (H & _);
      [reflexivity|exact H].
Defined.

Lemma setProviderStatus_read_back_witness :
  getProviderStatus (machine (snd (setProviderStatus readyStatus fresh))) =
    Ok readyStatus.
Proof.
  edestruct (setProviderStatus_read_back readyStatus fresh) as (Hm & Hread & _);
    [reflexivity..|].
  rewrite Hm, Hread. reflexivity.
Defined.

Lemma Reconcile_without_machine_witness :
  let st := initial NotClientObject apiServer defaultMock in
  machine_controller.Reconcile reconciler machineKey st =
    (Return (machine_controller.Result_zero, None),
     extend st [K8sGetMachine machineKey]).
Proof.
  intros st.
  rewrite (Reconcile_without_machine reconciler machineKey st).
  - reflexivity.
  - intros m Hm. vm_compute in Hm. discriminate Hm.
Defined.


Lemma Reconcile_typed_machine_witness :
  fst (machine_controller.Reconcile reconciler machineKey (idle deletingMachine)) =
    Return (machine_controller.Result_zero,
            Some (Wrapf "failed to get provider spec"
                    (Errorf "machine is not unstructured"))) /\
  machine (snd (machine_controller.Reconcile reconciler machineKey
                  (idle deletingMachine))) = TypedMachine deletingMachine.
Proof.
  destruct (Reconcile_typed_machine actuator machineKey (idle deletingMachine))
    as (_ & _ & _ & Hdel).
  unfold reconciler. rewrite (Hdel deletingMachine); [|reflexivity..].
  split; reflexivity.
Defined.


End FixturesMore.
